(** * Hamilton County homes scraper: the date-range splitting controller

    A shallow embedding of [src/utils/form_helpers.py], [src/scraper.py] and
    the range loop of [src/main.py], and the properties of the range queue,
    the result-count parse and the bounded-retry text accessor.

    Conventions of the embedding.
    - A date text ["MM/DD/YYYY"] is represented by the calendar day it names,
      a day number in [Z].  Every date text of the program is produced by the
      [%m/%d/%Y] format, which names exactly one day.
    - A pandas [Timestamp] / [Timedelta] is its number of nanoseconds.
    - A text is the sequence of its characters, and a character is its code
      point, which is below 256: an [ascii].  (The no-break space U+00A0 is
      the one character ["160"], not the two bytes of its UTF-8 form.)  The
      texts of the site and the literals of the program are such texts.
    - Python lists that are shared and mutated ([dates]) live in a store
      indexed by locations; a Python variable holding such a list holds a
      location.
    - The browser is an oracle: every call into Selenium reads the answer of
      the session at the current call number.  Logging, sleeping, quitting
      the driver and writing CSV files are recorded in a trace. *)

From Stdlib Require Import ZArith QArith_base Lia Ascii String.
From stdpp Require Import base gmap list strings.

Local Open Scope Z_scope.

(** ** Results and exceptions *)

Inductive exn : Type :=
  | ValueError
  | TypeError
  | IndexError
  | AssertionError
  | TimeoutException
  | ElementClickInterceptedException
  | StaleElementReferenceException
  | WebDriverException
  | OtherException (what : string).

Inductive result (A : Type) : Type :=
  | Ok (a : A)
  | Raise (e : exn).
Arguments Ok {A} a.
Arguments Raise {A} e.

(** ** Dates *)

Module Dates.

(** A calendar day (the day named by a ["MM/DD/YYYY"] text). *)
Definition date : Type := Z.
(** Nanoseconds since the epoch ([pd.Timestamp]) or of a duration. *)
Definition Timestamp : Type := Z.

Definition ns_per_day : Z := 86400 * 1000000000.

(** [safe_to_datetime]: [pd.to_datetime] of a date text is midnight of its
    day.  (On a text that is no date the source logs and re-raises; a
    [date] always names a day.) *)
Definition safe_to_datetime (d : date) : Timestamp := d * ns_per_day.

(** [f"{t:%m/%d/%Y}"] and [str_format_date]: the day a timestamp falls in. *)
Definition str_format_date (t : Timestamp) : date := t / ns_per_day.

(** [timedelta(days=n)]. *)
Definition timedelta_days (n : Z) : Timestamp := n * ns_per_day.

(** [td / 2] on a [Timedelta]: the nanosecond count is divided and cast
    back to an integer, which truncates toward zero. *)
Definition timedelta_half (td : Timestamp) : Timestamp := Z.quot td 2.

(** A date range as the queue holds it: the tuple [(start, end)]. *)
Definition DateRange : Type := date * date.

(** The days a range covers. *)
Definition covers (r : DateRange) (d : date) : Prop := r.1 <= d <= r.2.

Definition coversb (r : DateRange) (d : date) : bool :=
  (r.1 <=? d) && (d <=? r.2).

End Dates.
Export Dates.

(** ** Numbers as [pd.to_numeric] returns them *)

Inductive numeric : Type :=
  | NInt (z : Z)
  | NFloat (q : Q)
  | NInf (positive : bool)
  | NNaN.

(** [n >= k] for an integer literal [k]. *)
Definition num_ge (n : numeric) (k : Z) : bool :=
  match n with
  | NInt z => k <=? z
  | NFloat q => Qle_bool (inject_Z k) q
  | NInf positive => positive
  | NNaN => false
  end.

(** [n < k] for an integer literal [k]. *)
Definition num_lt (n : numeric) (k : Z) : bool :=
  match n with
  | NInt z => z <? k
  | NFloat q => negb (Qle_bool (inject_Z k) q)
  | NInf positive => negb positive
  | NNaN => false
  end.

(** [range(n)]: the number of iterations, or [TypeError] when [n] is not an
    integer. *)
Definition py_range (n : numeric) : result nat :=
  match n with
  | NInt z => Ok (Z.to_nat z)
  | _ => Raise TypeError
  end.

(** ** Python string operations *)

Module PyStr.

(** [c.isspace()], the whitespace of [strip] and of [split] without an
    argument: the characters U+0009 to U+000D, U+001C to U+0020, the next
    line character U+0085 and the no-break space U+00A0.  (The other
    whitespace of Unicode has code points from U+1680 on.) *)
Definition is_space (c : ascii) : bool :=
  let n := nat_of_ascii c in
  ((9 <=? n) && (n <=? 13) || (28 <=? n) && (n <=? 32)
   || (n =? 133) || (n =? 160))%nat.

Definition is_char (c d : ascii) : bool := bool_decide (c = d).

(** [s.split(sep)] for a one-character separator. *)
Fixpoint split_on (sep : ascii) (s : string) : list string :=
  match s with
  | EmptyString => [EmptyString]
  | String c s' =>
      if is_char c sep then EmptyString :: split_on sep s'
      else match split_on sep s' with
           | [] => [String c EmptyString]
           | w :: ws => String c w :: ws
           end
  end.

(** [s.replace(c, "")] for a one-character [c]. *)
Fixpoint remove_char (c : ascii) (s : string) : string :=
  match s with
  | EmptyString => EmptyString
  | String d s' =>
      if is_char d c then remove_char c s' else String d (remove_char c s')
  end.

Fixpoint lstrip (s : string) : string :=
  match s with
  | EmptyString => EmptyString
  | String c s' => if is_space c then lstrip s' else s
  end.

Fixpoint rstrip (s : string) : string :=
  match s with
  | EmptyString => EmptyString
  | String c s' =>
      match rstrip s' with
      | EmptyString => if is_space c then EmptyString else String c EmptyString
      | t => String c t
      end
  end.

(** [s.strip()]. *)
Definition strip (s : string) : string := rstrip (lstrip s).

(** [s.split()] with no argument: the maximal runs of non-whitespace
    characters.  The source never calls it; it is what the specification's
    "whitespace-split tokens" denotes and is compared with [split_on " "]. *)
Fixpoint split_whitespace_aux (s : string) (cur : option string) : list string :=
  match s with
  | EmptyString => match cur with Some w => [w] | None => [] end
  | String c s' =>
      if is_space c then
        match cur with
        | Some w => w :: split_whitespace_aux s' None
        | None => split_whitespace_aux s' None
        end
      else
        split_whitespace_aux s'
          (Some (match cur with Some w => w +:+ String c EmptyString
                              | None => String c EmptyString end))
  end.

Definition split_whitespace (s : string) : list string :=
  split_whitespace_aux s None.

End PyStr.


(** ** Tables *)

(** A table row is a record of named cells; a [DataFrame] is the list of its
    rows, in order. *)
Definition row : Type := list (string * string).
Definition DataFrame : Type := list row.

(** [df.empty]: no rows, or no column at all. *)
Definition df_empty (df : DataFrame) : bool :=
  forallb (λ r : row, bool_decide (r = [])) df.

(** [pd.concat(frames)] followed by [reset_index(drop=True)]. *)
Definition pd_concat (frames : list DataFrame) : DataFrame := concat frames.

(** [df[name] = value] for a scalar: the cell [name] of every row. *)
Definition set_cell (name value : string) (r : row) : row :=
  if bool_decide (name ∈ r.*1)
  then (λ c : string * string, if bool_decide (c.1 = name) then (name, value) else c) <$> r
  else r ++ [(name, value)].

Definition assign_column (name value : string) (df : DataFrame) : DataFrame :=
  set_cell name value <$> df.

(** [df.columns = names]: the cells are renamed by position; pandas raises
    [ValueError] when the number of names differs from the number of
    columns. *)
Definition set_columns (names : list string) (df : DataFrame) : result DataFrame :=
  if forallb (λ r : row, bool_decide (length r = length names)) df
  then Ok ((λ r : row, zip names r.*2) <$> df)
  else Raise ValueError.

(** ** The world: store, trace and call counter *)

(** The name of a list object in the store. *)
Definition loc : Type := positive.

Inductive level : Type := INFO | WARNING | ERROR.

(** The entries of [XPATHS] (of [config], which is not among the sources)
    that the program looks up. *)
Inductive xpath : Type :=
  | search_results_number
  | number_pages
  | results_table
  | next_page_button
  | first_results_table_page
  | first_row_results_table
  | parcel_id
  | appraisal_information
  | school_district
  | owner
  | next_property.

(** What the program does to the outside, as the trace records it: a log
    line (with the fixed part of its message), a sleep, a call into the
    browser, the start of a browser, the writing of a file.  [ScrapeData] is
    the one entry that is no effect of its own: it marks the call of
    [scrape_data] by [main]. *)
Inductive event : Type :=
  | Log (lvl : level) (msg : string)
  | Sleep (seconds : Z)
  | SleepUniform (low high : Z)
  | DriverQuit
  | LocateText (x : xpath)
  | ScrapeTable (x : xpath)
  | NextNavigation (x : xpath)
  | Click (x : xpath)
  | SubmitSearch (start end_ : date)
  | ScrapeData (start end_ : date)
  | CheckAllowed
  | Launch
  | SaveCsv (file : string) (rows : DataFrame).

(** The state a run threads through: the store of list objects, the trace
    so far, and the number of calls made to the outside. *)
Record world : Type := World {
  heap : gmap loc (list DateRange);
  trace : list event;
  tick : nat
}.

(** What one browser session answers, by call number. *)
Record session : Type := Session {
  text_at : xpath → nat → result string;
  table_at : xpath → nat → result (option DataFrame);
  next_at : xpath → nat → result bool;
  click_at : xpath → nat → result ();
  search_at : nat → result ();
  allowed_at : nat → result bool;
  quit_at : nat → result ()
}.

(** One attempt of [init_driver] to start a browser: the driver starts and
    loads the page, or starts and fails to load it, or does not start. *)
Inductive launch : Type :=
  | Started (s : session)
  | LoadFailed (s : session) (e : exn)
  | StartFailed (e : exn).

(** The machine the program runs on: the browsers it can start and the
    disk it writes to, by call number. *)
Record site : Type := Site {
  launch_at : nat → launch;
  save_at : nat → result ()
}.

(** ** The monad of the program: state and exceptions *)

(** A piece of program: from a world to a value or an exception, and the
    world it leaves. *)
Definition M (A : Type) : Type := world → result A * world.

Definition ret {A} (a : A) : M A := λ w, (Ok a, w).

Definition bind {A B} (m : M A) (k : A → M B) : M B :=
  λ w, match m w with
       | (Ok a, w') => k a w'
       | (Raise e, w') => (Raise e, w')
       end.

Declare Scope prog_scope.
Delimit Scope prog_scope with prog.
Bind Scope prog_scope with M.
Notation "x <- m ;;; k" := (bind m (λ x, k))
  (at level 20, m at level 99, k at level 200, only parsing) : prog_scope.
Notation "' p <- m ;;; k" := (bind m (λ x, let 'p := x in k))
  (at level 20, p pattern, m at level 99, k at level 200, only parsing) : prog_scope.
Notation "m ;;; k" := (bind m (λ _, k))
  (at level 100, k at level 200, right associativity, only parsing) : prog_scope.
Local Open Scope prog_scope.

Definition raise {A} (e : exn) : M A := λ w, (Raise e, w).

Definition lift {A} (r : result A) : M A :=
  match r with Ok a => ret a | Raise e => raise e end.

(** [try: m except Exception as e: h e]. *)
Definition try_except {A} (m : M A) (h : exn → M A) : M A :=
  λ w, match m w with
       | (Ok a, w') => (Ok a, w')
       | (Raise e, w') => h e w'
       end.

(** [try: m finally: f]. *)
Definition try_finally {A} (m : M A) (f : M ()) : M A :=
  λ w, match m w with
       | (r, w') =>
           match f w' with
           | (Ok _, w'') => (r, w'')
           | (Raise e, w'') => (Raise e, w'')
           end
       end.

Definition emit (e : event) : M () :=
  λ w, (Ok (), World (heap w) (trace w ++ [e]) (tick w)).

(** One call to the outside (the browser, the disk): the answer it gives at
    the current call number; the call is traced and the counter advances. *)
Definition ask {A} (e : event) (answer : nat → result A) : M A :=
  λ w, (answer (tick w), World (heap w) (trace w ++ [e]) (S (tick w))).

Definition logging (lvl : level) (msg : string) : M () := emit (Log lvl msg).

(** [time.sleep(seconds)], for a number of seconds that is not negative
    (on a negative one Python raises [ValueError]). *)
Definition time_sleep (seconds : Z) : M () := emit (Sleep seconds).

(** The store of Python lists. *)
Definition alloc (l : list DateRange) (w : world) : loc * world :=
  let r := fresh (dom (heap w)) in
  (r, World (<[r := l]> (heap w)) (trace w) (tick w)).

(** A new list object: [l.copy()], [l[:]] or a list display. *)
Definition new_list (l : list DateRange) : M loc :=
  λ w, (Ok (alloc l w).1, (alloc l w).2).

Definition get_list (r : loc) : M (list DateRange) :=
  λ w, match heap w !! r with
       | Some l => (Ok l, w)
       | None => (Raise (OtherException "dangling list"), w)
       end.

Definition put_list (r : loc) (l : list DateRange) : M () :=
  λ w, (Ok (), World (<[r := l]> (heap w)) (trace w) (tick w)).

(** [l.insert(i, x)]: past the end it appends. *)
Definition py_insert {A} (i : nat) (x : A) (l : list A) : list A :=
  take i l ++ x :: drop i l.

(** [l.remove(x)]: the first element equal to [x] goes; [ValueError] when
    there is none. *)
Fixpoint py_remove (x : DateRange) (l : list DateRange) : result (list DateRange) :=
  match l with
  | [] => Raise ValueError
  | y :: l' =>
      if bool_decide (y = x) then Ok l'
      else match py_remove x l' with
           | Ok l'' => Ok (y :: l'')
           | Raise e => Raise e
           end
  end.

(** ** [utils/form_helpers.py] *)

(** [get_text(driver, wait, xpath, retries, delay)].  [left] counts the
    attempts that remain of the [for attempt in range(1, retries + 1)]
    loop. *)
Fixpoint get_text_loop (s : session) (x : xpath) (delay : Z) (left : nat) : M string :=
  match left with
  | O => raise TimeoutException
  | S left' =>
      got <- try_except
        (raw <- ask (LocateText x) (text_at s x) ;;;
         let text := PyStr.strip raw in
         (if bool_decide (text = ""%string)
          then logging WARNING "Element exists but contains no text."
          else ret ()) ;;;
         ret (Some text))
        (λ e,
           match e with
           | ElementClickInterceptedException =>
               logging WARNING "Attempt to get text intercepted by another element." ;;;
               time_sleep delay ;;; ret None
           | TimeoutException =>
               logging ERROR "Attempt timed out while waiting for element." ;;;
               time_sleep delay ;;; ret None
           | StaleElementReferenceException =>
               logging WARNING "Stale element encountered. Retrying..." ;;;
               time_sleep delay ;;; ret None
           | _ =>
               logging ERROR "Unexpected error while attempting to get text." ;;;
               raise e
           end) ;;;
      match got with
      | Some text => ret text
      | None => get_text_loop s x delay left'
      end
  end.

(** The loop falls through to
    [raise TimeoutException("Failed to retrieve text ...")]. *)
Definition get_text (s : session) (x : xpath) (retries : nat) (delay : Z) : M string :=
  get_text_loop s x delay retries.

(** [get_text(driver, wait, xpath)] with the defaults [retries=3, delay=1]. *)
Definition get_text_default (s : session) (x : xpath) : M string :=
  get_text s x 3 1.

(** [safe_quit(driver)]: [driver.quit()], a failure is logged and dropped. *)
Definition safe_quit (s : session) : M () :=
  try_except
    (ask DriverQuit (quit_at s) ;;; logging INFO "Driver quit successfully.")
    (λ _, logging ERROR "Failed to quit the driver gracefully.").

(** The [for i, (start, end) in enumerate(updated_dates)] loop of
    [split_replace_add_time_slice]; [rest] is what is left to visit, from
    index [i] on.  It returns [modified]. *)
Fixpoint split_replace_loop (updated_dates : loc) (old_date new_date : Timestamp)
    (additional_slice : DateRange) (i : nat) (rest : list DateRange) : M bool :=
  match rest with
  | [] => ret false
  | (start, end_) :: rest' =>
      let start := safe_to_datetime start in
      let end_ := safe_to_datetime end_ in
      if bool_decide (end_ = old_date) then
        let start := str_format_date start in
        let new_date := str_format_date new_date in
        l <- get_list updated_dates ;;;
        put_list updated_dates (<[i := (start, new_date)]> l) ;;;
        l <- get_list updated_dates ;;;
        put_list updated_dates (py_insert (i + 1) additional_slice l) ;;;
        logging INFO "Replaced old date with new date and added new slice." ;;;
        ret true
      else split_replace_loop updated_dates old_date new_date additional_slice (S i) rest'
  end.

(** [split_replace_add_time_slice(dates, old_date, new_date,
    additional_slice)].  The two format checks of the source hold of every
    value of the types here. *)
Definition split_replace_add_time_slice (dates : loc) (old_date new_date : date)
    (additional_slice : DateRange) : M (loc * bool) :=
  let old_date := safe_to_datetime old_date in
  let new_date := safe_to_datetime new_date in
  l <- get_list dates ;;;
  updated_dates <- new_list l ;;;
  visit <- get_list updated_dates ;;;
  modified <- split_replace_loop updated_dates old_date new_date additional_slice 0 visit ;;;
  (if negb modified
   then logging WARNING "Old date not found in any date range. No modifications made."
   else ret ()) ;;;
  ret (updated_dates, modified).

Section Program.

(** [pd.to_numeric] on a text: pandas is not among the sources. *)
Variable to_numeric : string → result numeric.

(** [raw_text.split(" ")[5].replace(",", "")]. *)
Definition entries_token (raw_text : string) : result string :=
  match PyStr.split_on " " raw_text !! 5%nat with
  | Some tok => Ok (PyStr.remove_char "," tok)
  | None => Raise IndexError
  end.

(** The [try] block of [check_reset_needed]: the number of entries of the
    search on show; every failure in it becomes a [ValueError]. *)
Definition read_total_entries (s : session) : M numeric :=
  try_except
    (raw_text <- get_text_default s search_results_number ;;;
     tok <- lift (entries_token raw_text) ;;;
     lift (to_numeric tok))
    (λ _, raise ValueError).

(** [check_reset_needed(driver, wait, start, end, dates)]; it returns
    [(reset_needed, modified, dates, total_entries)]. *)
Definition check_reset_needed (s : session) (start end_ : date) (dates : loc)
    : M (bool * bool * loc * numeric) :=
  let start_dt := safe_to_datetime start in
  let end_dt := safe_to_datetime end_ in
  total_entries <- read_total_entries s ;;;
  if num_ge total_entries 1000 then
    logging INFO "Splitting dates further since the entries are greater than or equal to the threshold of 1000." ;;;
    let midpoint := start_dt + timedelta_half (end_dt - start_dt) in
    let midpoint_str := str_format_date midpoint in
    let new_slice :=
      (str_format_date (midpoint + timedelta_days 1), str_format_date end_dt) in
    ' (updated_dates, modified) <-
      split_replace_add_time_slice dates (str_format_date end_dt) midpoint_str new_slice ;;;
    ret (true, modified, updated_dates, total_entries)
  else if num_lt total_entries 1 then
    logging WARNING "Search parameters yielded no results. Moving to next date range." ;;;
    safe_quit s ;;;
    ret (false, false, dates, total_entries)
  else
    ret (false, false, dates, total_entries).

(** ** [driver_setup.py] *)

(** [BASE_URL] of [config], through [is_valid_url]. *)
Variable base_url_valid : bool.

(** Selenium's exceptions derive from [WebDriverException]. *)
Definition is_WebDriverException (e : exn) : bool :=
  match e with
  | WebDriverException | TimeoutException
  | ElementClickInterceptedException | StaleElementReferenceException => true
  | _ => false
  end.

(** The [for attempt in range(max_retries)] loop of [init_driver]; [driver]
    is the last driver that started. *)
Fixpoint init_driver_loop (b : site) (driver : option session) (left : nat) : M session :=
  match left with
  | O =>
      match driver with Some s => safe_quit s | None => ret () end ;;;
      logging ERROR "Failed to initialize WebDriver." ;;;
      raise WebDriverException
  | S left' =>
      a <- ask Launch (λ n, Ok (launch_at b n)) ;;;
      match a with
      | Started s =>
          logging INFO "Driver initialized and navigated to the base URL." ;;;
          ret s
      | LoadFailed s e =>
          if is_WebDriverException e then
            logging WARNING "Attempt failed." ;;; time_sleep 2 ;;;
            init_driver_loop b (Some s) left'
          else raise e
      | StartFailed e =>
          if is_WebDriverException e then
            logging WARNING "Attempt failed." ;;; time_sleep 2 ;;;
            init_driver_loop b driver left'
          else raise e
      end
  end.

(** [init_driver(BASE_URL)] with the defaults [max_retries=3]. *)
Definition init_driver (b : site) : M session :=
  if negb base_url_valid then
    logging ERROR "Invalid URL provided." ;;; raise ValueError
  else init_driver_loop b None 3.

(** ** [scraper.py] *)

(** [transform_table] of [utils.table_extraction], which is not among the
    sources. *)
Variable transform_table : DataFrame → result DataFrame.

(** [df.drop([col for col in cols if col in df.columns], axis=1)]. *)
Definition drop_columns (cols : list string) (df : DataFrame) : DataFrame :=
  (λ r : row, filter (λ c : string * string, c.1 ∉ cols) r) <$> df.

(** [df.rename(columns={old: new})]. *)
Definition rename_column (old new : string) (df : DataFrame) : DataFrame :=
  (λ r : row, (λ c : string * string, if bool_decide (c.1 = old) then (new, c.2) else c) <$> r) <$> df.

(** [extract_property_details(driver, wait)]: the detail table of the parcel
    on show, or [None]. *)
Definition extract_property_details (s : session) : M (option DataFrame) :=
  try_except
    (parcel_text <- get_text_default s parcel_id ;;;
     let parcel_parts := PyStr.split_on "010" parcel_text in
     if bool_decide (length parcel_parts < 2)%nat
        || bool_decide (PyStr.strip (default ""%string (parcel_parts !! 1%nat)) = ""%string)
     then logging WARNING "Unexpected format for parcel_id." ;;; ret None
     else
       let parcel := PyStr.strip (default ""%string (parcel_parts !! 1%nat)) in
       appraisal_table <- ask (ScrapeTable appraisal_information) (table_at s appraisal_information) ;;;
       match appraisal_table with
       | None => logging WARNING "Appraisal table is empty." ;;; ret None
       | Some appraisal_table =>
           if df_empty appraisal_table
           then logging WARNING "Appraisal table is empty." ;;; ret None
           else
             appraisal_table <- lift (transform_table appraisal_table) ;;;
             let appraisal_table :=
               drop_columns ["Year Built"; "Deed Number"; "# of Parcels Sold"]%string appraisal_table in
             let appraisal_table :=
               rename_column "# Half Bathrooms" "Half Baths"
                 (rename_column "# Full Bathrooms" "Full Baths"
                    (rename_column "# Bedrooms" "Bedrooms" appraisal_table)) in
             let appraisal_table := assign_column "parcel_id" parcel appraisal_table in
             district <- get_text_default s school_district ;;;
             let appraisal_table := assign_column "school_district" district appraisal_table in
             owner_text <- get_text_default s owner ;;;
             let appraisal_table := assign_column "owner_address" owner_text appraisal_table in
             ret (Some appraisal_table)
       end)
    (λ _, logging ERROR "Error extracting details for parcel." ;;; ret None).

(** [scrape_results_page(wait)]. *)
Definition scrape_results_page (s : session) : M (option DataFrame) :=
  try_except
    (ask (ScrapeTable results_table) (table_at s results_table))
    (λ _, logging ERROR "Error scraping results page." ;;; ret (Some [])).

(** [next_navigation], [safe_click] (of [utils.navigation]) and
    [find_click_row] (of [utils.table_extraction]) are not among the sources:
    each is one call into the browser. *)
Definition next_navigation (s : session) (x : xpath) : M bool :=
  ask (NextNavigation x) (next_at s x).

Definition safe_click (s : session) (x : xpath) : M () :=
  ask (Click x) (click_at s x).

Definition find_click_row (s : session) (x : xpath) : M () :=
  ask (Click x) (click_at s x).

(** The [for i in range(PAGE_NUMBER)] loop of [scrape_data]. *)
Fixpoint results_loop (s : session) (all_data : list DataFrame) (left : nat)
    : M (list DataFrame) :=
  match left with
  | O => ret all_data
  | S left' =>
      logging INFO "Scraping results on page..." ;;;
      results_data <- scrape_results_page s ;;;
      match results_data with
      | Some df =>
          if negb (df_empty df) then
            let all_data := all_data ++ [df] in
            more <- next_navigation s next_page_button ;;;
            if negb more then ret all_data
            else results_loop s all_data left'
          else
            logging WARNING "No data found on page. Ending scrape." ;;; ret all_data
      | None =>
          logging WARNING "No data found on page. Ending scrape." ;;; ret all_data
      end
  end.

(** The [for i in range(NUM_ENTRIES)] loop of [scrape_data]. *)
Fixpoint details_loop (s : session) (appraisal_data : list DataFrame) (left : nat)
    : M (list DataFrame) :=
  match left with
  | O => ret appraisal_data
  | S left' =>
      logging INFO "Scraping property details for property..." ;;;
      appraisal_table <- extract_property_details s ;;;
      appraisal_data <-
        match appraisal_table with
        | Some t => ret (appraisal_data ++ [t])
        | None => logging INFO "Failed to extract property details." ;;; ret appraisal_data
        end ;;;
      emit (SleepUniform 5 8) ;;;
      more <- next_navigation s next_property ;;;
      if negb more then ret appraisal_data
      else details_loop s appraisal_data left'
  end.

(** [scrape_data(driver, wait, NUM_ENTRIES)]. *)
Definition scrape_data (s : session) (NUM_ENTRIES : numeric)
    : M (list DataFrame * list DataFrame) :=
  pages_text <- get_text_default s number_pages ;;;
  PAGE_NUMBER <- lift (to_numeric pages_text) ;;;
  pages <- lift (py_range PAGE_NUMBER) ;;;
  all_data <- results_loop s [] pages ;;;
  (if bool_decide (all_data ≠ []) then
     safe_click s first_results_table_page ;;;
     find_click_row s first_row_results_table
   else logging WARNING "No all_data to navigate for property details.") ;;;
  entries <- lift (py_range NUM_ENTRIES) ;;;
  appraisal_data <- details_loop s [] entries ;;;
  ret (all_data, appraisal_data).

(** ** [main.py] *)

(** [assert cond, msg], as Python runs it by default (assertions on). *)
Definition py_assert (cond : bool) : M () :=
  if cond then ret () else raise AssertionError.

(** The names given to the columns of the listing. *)
Definition result_columns : list string :=
  ["Parcel Number"; "Address"; "BBB"; "FinSqFt"; "Use"; "Year Built";
   "Transfer Date"; "Amount"]%string.

(** The [try] block of [main]; it returns
    [(all_data_df, appraisal_data_df, dates, modified)] (and the driver,
    which no caller uses).  [ScrapeData start end_] marks in the trace that
    [scrape_data] is called on the search of this range. *)
Definition main_try (s : session) (start end_ : date) (dates : loc)
    : M (DataFrame * DataFrame * loc * bool) :=
  ask (SubmitSearch start end_) (search_at s) ;;;
  time_sleep 2 ;;;
  ' (reset_needed, modified, dates, NUM_ENTRIES) <- check_reset_needed s start end_ dates ;;;
  if reset_needed : bool then
    logging INFO "Reset needed, closing WebDriver." ;;;
    ret ([], [], dates, modified)
  else
    emit (ScrapeData start end_) ;;;
    ' (all_data, appraisal_data) <- scrape_data s NUM_ENTRIES ;;;
    py_assert (bool_decide (all_data ≠ [])) ;;;
    py_assert (bool_decide (appraisal_data ≠ [])) ;;;
    if bool_decide (all_data = []) then
      logging ERROR "No data scraped from the website." ;;;
      ret ([], [], dates, modified)
    else
      all_data_df <- lift (set_columns result_columns (pd_concat all_data)) ;;;
      let appraisal_data_df := pd_concat appraisal_data in
      logging INFO "Completed the main scraping of property data." ;;;
      ret (all_data_df, appraisal_data_df, dates, modified).

(** [main(allowed, start, end, dates, ids, values)]. *)
Definition main (b : site) (allowed : bool) (start end_ : date) (dates : loc)
    : M (DataFrame * DataFrame * loc * bool) :=
  s <- init_driver b ;;;
  (if negb allowed then ask CheckAllowed (allowed_at s) ;;; ret () else ret ()) ;;;
  try_finally (main_try s start end_ dates) (safe_quit s).

(** The merge, cleaning and address steps of [final_csv_conversion], which
    run on pandas and on maps of [config]; they give the rows to save or
    raise. *)
Variable consolidate : DataFrame → DataFrame → result DataFrame.

(** [save_to_csv(df, file_path)]; the two files are named here without
    the directory and the year. *)
Definition save_to_csv (b : site) (df : DataFrame) (file_path : string) : M () :=
  try_except
    (ask (SaveCsv file_path df) (save_at b) ;;;
     logging INFO "Saved rows and columns to file.")
    (λ e, logging ERROR "Error saving CSV." ;;; raise e).

(** [final_csv_conversion(all_data_df, appraisal_data_df, dates, start_date,
    end_date, year)].  The source writes the log lines of the merge and
    cleaning stage between the steps of that stage, the first of them after
    the merge; the model has the stage as the one function [consolidate] and
    writes one line for it, before it, so that on a merge that raises the
    model's trace has a log line that the source has not yet written.  The
    store, the browser calls and the files written are the same. *)
Definition final_csv_conversion (b : site) (all_data_df appraisal_data_df : DataFrame)
    (dates : loc) (start_date end_date : date) : M () :=
  if df_empty appraisal_data_df then
    logging WARNING "Appraisal data is empty. Exiting function."
  else
    logging INFO "These are the dates in the list." ;;;
    final_df <- lift (consolidate all_data_df appraisal_data_df) ;;;
    logging INFO "Removing these dates." ;;;
    l <- get_list dates ;;;
    l <- lift (py_remove (start_date, end_date) l) ;;;
    put_list dates l ;;;
    save_to_csv b final_df "Homes.csv" ;;;
    save_to_csv b final_df "All Homes.csv".

(** The [while dates:] loop of one year of the [for YEAR in years] loop.
    [pending] is [None] at the test of the [while], and inside the
    [for ... in dates[:]] it is what is left of the copy [dates[:]].  An
    exception that leaves [main] or [final_csv_conversion] is caught nowhere:
    it ends the run. *)
Record config : Type := Config {
  cw : world;
  dates_var : loc;
  pending : option (list DateRange)
}.

(** Where a number of steps of the loop lead: the loop still running, the
    queue empty and the year done, or the run ended by an exception. *)
Inductive outcome : Type :=
  | Running (c : config)
  | Finished (w : world)
  | Crashed (e : exn) (w : world).

(** One step: the test of the [while] and the copy of the queue, or the end
    of the [for], or one iteration of the [for] on the first range left. *)
Definition step (b : site) (c : config) : outcome :=
  match pending c with
  | None =>
      match get_list (dates_var c) (cw c) with
      | (Ok [], w) => Finished w
      | (Ok l, w) =>
          match logging INFO "Starting scraping process for start date and end date." w with
          | (_, w') => Running (Config w' (dates_var c) (Some l))
          end
      | (Raise e, w) => Crashed e w
      end
  | Some [] => Running (Config (cw c) (dates_var c) None)
  | Some ((start_date, end_date) :: rest) =>
      match main b false start_date end_date (dates_var c) (cw c) with
      | (Raise e, w) => Crashed e w
      | (Ok (all_data, appraisal_data, dates, modified), w) =>
          if modified : bool then Running (Config w dates None)
          else
            let all_data_df := pd_concat [[]; all_data] in
            let appraisal_data_df := pd_concat [[]; appraisal_data] in
            match final_csv_conversion b all_data_df appraisal_data_df dates
                    start_date end_date w with
            | (Raise e, w') => Crashed e w'
            | (Ok _, w') => Running (Config w' dates (Some rest))
            end
      end
  end.

(** [n] steps of the loop. *)
Fixpoint steps (b : site) (n : nat) (c : config) : outcome :=
  match n with
  | O => Running c
  | S n' =>
      match step b c with
      | Running c' => steps b n' c'
      | o => o
      end
  end.

(** [dates = [(start_date, end_date)]] for the year that runs from
    [start_date] to [end_date]. *)
Definition year_start (w : world) (start_date end_date : date) : config :=
  let (dates, w') := alloc [(start_date, end_date)] w in
  Config w' dates None.

End Program.

(** ** [utils/form_helpers.py]: form fields and column names *)

(** One call into the browser that the trace does not name: the search form
    is filled by [initialize_search], which the trace records as a whole by
    [SubmitSearch]. *)
Definition call {A} (answer : nat → result A) : M A :=
  λ w, (answer (tick w), World (heap w) (trace w) (S (tick w))).

(** What the search form answers, by call number, to one attempt to locate
    the field [field_id], clear it when [clear_field] is set and type
    [value] into it. *)
Definition form : Type := string → string → bool → nat → result ().

(** The [for attempt in range(1, retries + 1)] loop of [fill_form_field];
    [left] counts the attempts that remain. *)
Fixpoint fill_form_field_loop (f : form) (field_id value : string) (delay : Z)
    (clear_field : bool) (left : nat) : M bool :=
  match left with
  | O =>
      logging ERROR "Failed to fill form field after all attempts." ;;;
      ret false
  | S left' =>
      filled <- try_except
        (call (f field_id value clear_field) ;;;
         logging INFO "Successfully filled form field." ;;;
         ret true)
        (λ e,
           match e with
           | TimeoutException =>
               logging WARNING "Attempt to locate form field timed out." ;;;
               time_sleep delay ;;; ret false
           | _ =>
               logging ERROR "Unexpected error while interacting with form field." ;;;
               raise e
           end) ;;;
      if filled : bool then ret true
      else fill_form_field_loop f field_id value delay clear_field left'
  end.

(** [fill_form_field(wait, field_id, value, retries, delay, clear_field)];
    [value] is [None] or a text. *)
Definition fill_form_field (f : form) (field_id : string) (value : option string)
    (retries : nat) (delay : Z) (clear_field : bool) : M bool :=
  if bool_decide (PyStr.strip field_id = ""%string) then
    logging ERROR "Invalid field ID provided." ;;; raise ValueError
  else
    match value with
    | None =>
        logging ERROR "Value to enter in the form field cannot be None." ;;;
        raise ValueError
    | Some value => fill_form_field_loop f field_id value delay clear_field retries
    end.

(** Characters of a text, one by one. *)
Fixpoint str_map (f : ascii → ascii) (s : string) : string :=
  match s with
  | EmptyString => EmptyString
  | String c s' => String (f c) (str_map f s')
  end.

Fixpoint str_filter (p : ascii → bool) (s : string) : string :=
  match s with
  | EmptyString => EmptyString
  | String c s' => if p c then String c (str_filter p s') else str_filter p s'
  end.

Fixpoint str_forall (p : ascii → bool) (s : string) : bool :=
  match s with
  | EmptyString => true
  | String c s' => p c && str_forall p s'
  end.

(** The class [[A-Za-z0-9_]] of the pattern of [format_column_name]. *)
Definition is_upper (c : ascii) : bool :=
  let n := nat_of_ascii c in ((65 <=? n) && (n <=? 90))%nat.

Definition is_word_char (c : ascii) : bool :=
  let n := nat_of_ascii c in
  (is_upper c || (97 <=? n) && (n <=? 122) || (48 <=? n) && (n <=? 57) || (n =? 95))%nat.

(** [s.lower()], on the characters the pattern leaves: the letters [A-Z]
    become [a-z]. *)
Definition lower_char (c : ascii) : ascii :=
  if is_upper c then ascii_of_nat (nat_of_ascii c + 32) else c.

(** [s.lstrip(c)], [s.rstrip(c)] and [s.strip(c)] for a one-character [c]. *)
Fixpoint lstrip_char (c : ascii) (s : string) : string :=
  match s with
  | EmptyString => EmptyString
  | String d s' => if PyStr.is_char d c then lstrip_char c s' else s
  end.

Fixpoint rstrip_char (c : ascii) (s : string) : string :=
  match s with
  | EmptyString => EmptyString
  | String d s' =>
      match rstrip_char c s' with
      | EmptyString => if PyStr.is_char d c then EmptyString else String d EmptyString
      | t => String d t
      end
  end.

Definition strip_char (c : ascii) (s : string) : string :=
  rstrip_char c (lstrip_char c s).

(** [format_column_name(name, to_lower, strip_underscores, prefix)]. *)
Definition format_column_name (name : string) (to_lower strip_underscores : bool)
    (prefix : option string) : M string :=
  if bool_decide (name = ""%string) then
    logging ERROR "Invalid column name." ;;; raise ValueError
  else
    let name := str_map (λ c, if PyStr.is_char c " " then "_"%char else c) name in
    let name := str_filter is_word_char name in
    let name := if to_lower then str_map lower_char name else name in
    let name := if strip_underscores then strip_char "_" name else name in
    let name :=
      match prefix with
      | Some p => if bool_decide (p = ""%string) then name else p +:+ "_" +:+ name
      | None => name
      end in
    ret name.

(** [df.columns]: the names of the cells of a row. *)
Definition df_columns (df : DataFrame) : list string :=
  match df with
  | [] => []
  | r :: _ => r.*1
  end.

(** [[format_column_name(col) for col in cols]]. *)
Fixpoint format_columns (cols : list string) : M (list string) :=
  match cols with
  | [] => ret []
  | col :: cols' =>
      name <- format_column_name col true false None ;;;
      names <- format_columns cols' ;;;
      ret (name :: names)
  end.

(** [clean_and_format_columns(df, drop_cols)]. *)
Definition clean_and_format_columns (df : DataFrame) (drop_cols : list string)
    : M DataFrame :=
  formatted_columns <- format_columns (df_columns df) ;;;
  df <- lift (set_columns formatted_columns df) ;;;
  ret (drop_columns drop_cols df).

(** ** [utils/address_cleaners.py] *)

Module AddressCleaners.

(** A token of a spaCy document: its text and its part of speech. *)
Record token : Type := Token {
  text : string;
  pos_ : string
}.

(** The dictionary [tagged_components]. *)
Record tagged_components : Type := Tagged {
  st_num : option string;
  apt_num : option string;
  street : option string
}.

Definition spelled_out_numbers : list string :=
  ["zero"; "one"; "two"; "three"; "four"; "five"; "six"; "seven"; "eight"; "nine";
   "ten"; "eleven"; "twelve"; "thirteen"; "fourteen"; "fifteen"; "sixteen";
   "seventeen"; "eighteen"; "nineteen"; "twenty"]%string.

Definition is_digit (c : ascii) : bool :=
  let n := nat_of_ascii c in ((48 <=? n) && (n <=? 57))%nat.

Definition is_letter (c : ascii) : bool :=
  let n := nat_of_ascii c in
  ((65 <=? n) && (n <=? 90) || (97 <=? n) && (n <=? 122))%nat.

Fixpoint str_exists (p : ascii → bool) (s : string) : bool :=
  match s with
  | EmptyString => false
  | String c s' => p c || str_exists p s'
  end.

(** What [$] leaves aside: one newline at the very end. *)
Fixpoint without_final_newline (s : string) : string :=
  match s with
  | EmptyString => EmptyString
  | String c EmptyString => if PyStr.is_char c "010" then EmptyString else s
  | String c s' => String c (without_final_newline s')
  end.

(** [is_alphanumeric(token)]: the text matches
    [^(?=.*[0-9])(?=.*[a-zA-Z])[a-zA-Z0-9]+$], letters and digits only with
    at least one of each. *)
Definition is_alphanumeric (t : token) : bool :=
  let body := without_final_newline (text t) in
  str_exists is_digit body && str_exists is_letter body
  && str_forall (λ c, is_digit c || is_letter c) body.

(** [token.text.lower() not in spelled_out_numbers]; no word of the set has
    a letter outside [a-z], so only the letters [A-Z] matter to [lower]. *)
Definition not_spelled_out (t : token) : bool :=
  negb (bool_decide (str_map lower_char (text t) ∈ spelled_out_numbers)).

Definition is_NUM (t : token) : bool := bool_decide (pos_ t = "NUM"%string).

(** The [for i, token in enumerate(doc)] loop of [tag_address]; [doc] is
    what is left of the document from index [i] on. *)
Fixpoint tag_loop (i : nat) (doc : list token) (tagged : tagged_components)
    : tagged_components :=
  match doc with
  | [] => tagged
  | t :: doc' =>
      if (i =? 0)%nat && is_NUM t && not_spelled_out t then
        tag_loop (S i) doc' (Tagged (Some (text t)) (apt_num tagged) (street tagged))
      else if (i =? 1)%nat && is_alphanumeric t && not_spelled_out t then
        tag_loop (S i) doc' (Tagged (st_num tagged) (Some (text t)) (street tagged))
      else if (i =? 1)%nat && is_NUM t && not_spelled_out t then
        tag_loop (S i) doc' (Tagged (st_num tagged) (Some (text t)) (street tagged))
      else if (0 <? i)%nat then
        Tagged (st_num tagged) (apt_num tagged)
          (Some (String.concat " " (text <$> doc)))
      else tag_loop (S i) doc' tagged
  end.

(** [tag_address(address)]; [nlp] is the spaCy model, which is not among
    the sources. *)
Definition tag_address (nlp : string → list token) (address : string)
    : tagged_components :=
  let doc := nlp address in
  tag_loop 0 doc (Tagged None None None).

End AddressCleaners.

(** ** [save_to_csv] on the disk *)

(** What a call of [save_to_csv] that succeeds does to the disk.  A file is
    the list of its lines, a line the list of its cells; the disk maps the
    paths that exist to their files. *)
Module Csv.

(** The [mode] of [to_csv]: ["w"] or ["a"]. *)
Inductive mode : Type := mode_w | mode_a.

(** The lines of a table: its values row by row ([index=False]). *)
Definition lines (df : DataFrame) : list (list string) := (λ r : row, r.*2) <$> df.

(** [df.to_csv(file_path, mode=mode, header=header, index=False)] for a
    table with rows. *)
Definition to_csv (d : gmap string (list (list string))) (df : DataFrame)
    (file_path : string) (m : mode) (header : bool) : gmap string (list (list string)) :=
  let old := match m with
             | mode_w => []
             | mode_a => default [] (d !! file_path)
             end in
  <[file_path := old ++ (if header then [df_columns df] else []) ++ lines df]> d.

(** [os.path.exists(file_path)]. *)
Definition exists_ (d : gmap string (list (list string))) (file_path : string) : bool :=
  bool_decide (is_Some (d !! file_path)).

(** [save_to_csv(df, file_path, overwrite)]. *)
Definition save_to_csv (d : gmap string (list (list string))) (df : DataFrame)
    (file_path : string) (overwrite : bool) : gmap string (list (list string)) :=
  let '(m, header) :=
    if overwrite then (mode_w, true)
    else if exists_ d file_path then (mode_a, false)
    else (mode_w, true) in
  to_csv d df file_path m header.

End Csv.

(** * Specification vocabulary *)

(** The exceptions [get_text] retries on. *)
Definition retryable (e : exn) : bool :=
  match e with
  | ElementClickInterceptedException | TimeoutException
  | StaleElementReferenceException => true
  | _ => false
  end.

(** The sleeps of a trace, in order. *)
Fixpoint sleeps (tr : list event) : list Z :=
  match tr with
  | [] => []
  | Sleep z :: tr' => z :: sleeps tr'
  | _ :: tr' => sleeps tr'
  end.

(** [w'] comes after [w] in a run that left the store alone and logged only
    events in [P]. *)
Definition quiet (P : event → Prop) (w w' : world) : Prop :=
  heap w' = heap w ∧ (tick w ≤ tick w')%nat ∧
  ∃ evs, trace w' = trace w ++ evs ∧ Forall P evs.

(** Every run of [m] relates its start to its end by [R]. *)
Definition has_post {A} (R : world → world → Prop) (m : M A) : Prop :=
  ∀ w, R w (m w).2.

(** What [get_text] logs when it retries on [e]. *)
Definition retry_log (e : exn) : event :=
  match e with
  | ElementClickInterceptedException =>
      Log WARNING "Attempt to get text intercepted by another element."
  | TimeoutException => Log ERROR "Attempt timed out while waiting for element."
  | _ => Log WARNING "Stale element encountered. Retrying..."
  end.

(** The world after one more call into the browser that logged [evs]. *)
Definition called (w : world) (evs : list event) : world :=
  World (heap w) (trace w ++ evs) (S (tick w)).

(** Attempts [0 .. j-1] counted from call [t] all fail on a retried
    exception. *)
Definition retried (s : session) (x : xpath) (t j : nat) : Prop :=
  ∀ i, (i < j)%nat → ∃ e, text_at s x (t + i)%nat = Raise e ∧ retryable e = true.

(** The events [get_text] leaves: looking the element up, logging,
    sleeping. *)
Definition reading (e : event) : Prop :=
  match e with
  | LocateText _ | Log _ _ | Sleep _ => True
  | _ => False
  end.

(** Every event but the call of [scrape_data] and the writing of a file. *)
Definition ordinary (e : event) : Prop :=
  match e with
  | ScrapeData _ _ | SaveCsv _ _ => False
  | _ => True
  end.

(** What the loop of [split_replace_add_time_slice] makes of the list it
    visits: the first range that ends on [old_date] gets the end [new_date]
    and is followed by [additional_slice]; [None] when no range ends on
    [old_date]. *)
Fixpoint replace_first (old_date new_date : date) (additional_slice : DateRange)
    (l : list DateRange) : option (list DateRange) :=
  match l with
  | [] => None
  | (start, end_) :: l' =>
      if bool_decide (end_ = old_date)
      then Some ((start, new_date) :: additional_slice :: l')
      else cons (start, end_) <$> replace_first old_date new_date additional_slice l'
  end.

(** Half a day, in nanoseconds. *)
Definition ns_per_half_day : Z := 43200 * 1000000000.

(** [w'] continues the trace of [w] with [e] first. *)
Definition begins_with (e : event) (w w' : world) : Prop :=
  ∃ evs, trace w' = trace w ++ e :: evs.

(** Two entries of [XPATHS] can be told apart. *)
Global Instance xpath_eq_dec : EqDecision xpath.
Proof. solve_decision. Defined.

(** How often a trace looks the element [x] up. *)
Fixpoint lookups (x : xpath) (tr : list event) : nat :=
  match tr with
  | [] => 0
  | LocateText y :: tr' => (if bool_decide (y = x) then 1 else 0) + lookups x tr'
  | _ :: tr' => lookups x tr'
  end.

(** The world once the search is submitted and the two seconds are over. *)
Definition searched (w : world) (start end_ : date) : world :=
  World (heap w) (trace w ++ [SubmitSearch start end_; Sleep 2]) (S (tick w)).

(** The world once [main] has marked the call of [scrape_data]. *)
Definition scraping (w : world) (start end_ : date) : world :=
  World (heap w) (trace w ++ [ScrapeData start end_]) (tick w).

(** What [safe_quit] logs. *)
Definition quit_log (s : session) (w : world) : event :=
  match quit_at s (tick w) with
  | Ok _ => Log INFO "Driver quit successfully."
  | Raise _ => Log ERROR "Failed to quit the driver gracefully."
  end.

(** The world of the empty branch of [check_reset_needed]: the warning is
    logged and the driver is quit. *)
Definition gave_up (s : session) (w : world) : world :=
  World (heap w)
    (trace w ++ [Log WARNING "Search parameters yielded no results. Moving to next date range.";
                 DriverQuit; quit_log s w])
    (S (tick w)).

(** The files a trace writes. *)
Fixpoint saved (tr : list event) : list string :=
  match tr with
  | [] => []
  | SaveCsv file _ :: tr' => file :: saved tr'
  | _ :: tr' => saved tr'
  end.

(** The ranges on which [scrape_data] was called, in order. *)
Fixpoint scraped (tr : list event) : list DateRange :=
  match tr with
  | [] => []
  | ScrapeData start end_ :: tr' => (start, end_) :: scraped tr'
  | _ :: tr' => scraped tr'
  end.

(** The ranges of [l] follow one another from day [from] to day [to]: each
    starts the day after the one before ends, and none runs backwards by
    more than the empty range [(d + 1, d)]. *)
Fixpoint chain (from : date) (l : list DateRange) (to : date) : Prop :=
  match l with
  | [] => from = to + 1
  | (start, end_) :: l' => start = from ∧ from ≤ end_ + 1 ∧ chain (end_ + 1) l' to
  end.

(** In how many ranges of [l] the day [d] lies. *)
Definition covering (d : date) (l : list DateRange) : nat :=
  length (filter (λ r : DateRange, covers r d) l).

(** Whether a day lies in a range can be decided. *)
Global Instance covers_dec r d : Decision (covers r d).
Proof. unfold covers. apply _. Defined.

(** What a pass on the first range of the queue can come to: an exception,
    or the range split in two in a new queue, or the range scraped with the
    queue and the store as they were. *)
Definition pass_result (start end_ : date) (dates : loc) (rest : list DateRange)
    (w : world) (r : result (DataFrame * DataFrame * loc * bool)) (w' : world) : Prop :=
  match r with
  | Raise _ => True
  | Ok (all_data_df, appraisal_data_df, dates', modified) =>
      let midpoint := start + (end_ - start) / 2 in
      (modified = true
       ∧ heap w' !! dates' = Some ((start, midpoint) :: (midpoint + 1, end_) :: rest)
       ∧ scraped (trace w') = scraped (trace w))
      ∨ (modified = false ∧ dates' = dates ∧ heap w' = heap w
         ∧ scraped (trace w') = scraped (trace w) ++ [(start, end_)]
         ∧ df_empty appraisal_data_df = false)
  end.

(** The state of the loop of the year from [first] to [last]: the queue is
    the list the variable [dates] names, the copy being run through (if any)
    is equal to it, and the ranges scraped so far followed by the queue run
    from [first] to [last] without gap or overlap. *)
Definition queue_inv (first last : date) (c : config) : Prop :=
  ∃ queue,
    heap (cw c) !! dates_var c = Some queue
    ∧ (pending c = None ∨ pending c = Some queue)
    ∧ chain first (scraped (trace (cw c)) ++ queue) last.

(** What holds of each outcome of the loop of that year. *)
Definition outcome_inv (first last : date) (o : outcome) : Prop :=
  match o with
  | Running c => queue_inv first last c
  | Finished w => chain first (scraped (trace w)) last
  | Crashed _ _ => True
  end.

(** A session in which the permission check and the search go through and
    every reading of the results line gives a count of 1000 or more. *)
Definition overflows (to_numeric : string → result numeric) (s : session) : Prop :=
  (∀ t, ∃ a, allowed_at s t = Ok a)
  ∧ (∀ t, search_at s t = Ok ())
  ∧ ∀ t, ∃ raw tok n,
      text_at s search_results_number t = Ok raw
      ∧ PyStr.split_on " " (PyStr.strip raw) !! 5%nat = Some tok
      ∧ to_numeric (PyStr.remove_char "," tok) = Ok n
      ∧ num_ge n 1000 = true.

(** A machine on which every browser starts and shows such a session. *)
Definition always_overflows (to_numeric : string → result numeric) (b : site) : Prop :=
  ∀ t, ∃ s, launch_at b t = Started s ∧ overflows to_numeric s.

(** The single-day range [(day, day)] is the first of the queue: this holds
    at the test of the [while] and at the start of each iteration of the
    [for]. *)
Definition single_day_first (day : date) (c : config) : Prop :=
  (∃ rest, heap (cw c) !! dates_var c = Some ((day, day) :: rest))
  ∧ (pending c = None ∨ ∃ p, pending c = Some ((day, day) :: p)).

(** A text whose words are separated by one space each: it begins and ends
    with a word, and its only whitespace is the single space.  [in_word]
    says that the character before was one of a word. *)
Fixpoint single_spaced_from (in_word : bool) (s : string) : bool :=
  match s with
  | EmptyString => in_word
  | String c s' =>
      if PyStr.is_space c
      then in_word && PyStr.is_char c " " && single_spaced_from false s'
      else single_spaced_from true s'
  end.

Definition single_spaced (s : string) : bool := single_spaced_from false s.

(** The first and the last character of a text. *)
Definition first_char (t : string) : option ascii :=
  match t with
  | EmptyString => None
  | String c _ => Some c
  end.

Fixpoint last_char (t : string) : option ascii :=
  match t with
  | EmptyString => None
  | String c EmptyString => Some c
  | String _ t' => last_char t'
  end.

(** A text with no whitespace at either end: it is empty, or neither its
    first nor its last character is whitespace. *)
Definition stripped (t : string) : Prop :=
  (∀ c, first_char t = Some c → PyStr.is_space c = false)
  ∧ (∀ c, last_char t = Some c → PyStr.is_space c = false).

(** Attempts [0 .. j-1] on the form counted from call [t] all time out. *)
Definition timed_out (f : form) (field_id value : string) (clear_field : bool)
    (t j : nat) : Prop :=
  ∀ i, (i < j)%nat → f field_id value clear_field (t + i)%nat = Raise TimeoutException.

(** The characters of a formatted column name: lower-case letters, digits
    and the underscore. *)
Definition is_name_char (c : ascii) : bool :=
  is_word_char c && negb (is_upper c).

(** The world after one more call into the browser that the trace does not
    name, with [evs] logged. *)
Definition called_silently (w : world) (evs : list event) : world :=
  World (heap w) (trace w ++ evs) (S (tick w)).

(** What [fill_form_field] makes of the exception of an attempt. *)
Definition is_timeout (e : exn) : bool :=
  match e with TimeoutException => true | _ => false end.

(** The files a trace writes, or tries to write, with their rows. *)
Fixpoint writes (tr : list event) : list (string * DataFrame) :=
  match tr with
  | [] => []
  | SaveCsv file rows :: tr' => (file, rows) :: writes tr'
  | _ :: tr' => writes tr'
  end.

(** A line of the log. *)
Definition is_log (e : event) : Prop :=
  match e with
  | Log _ _ => True
  | _ => False
  end.

(** How often a trace quits a driver and starts a browser. *)
Fixpoint quits (tr : list event) : nat :=
  match tr with
  | [] => 0
  | DriverQuit :: tr' => S (quits tr')
  | _ :: tr' => quits tr'
  end.

Fixpoint launches (tr : list event) : nat :=
  match tr with
  | [] => 0
  | Launch :: tr' => S (launches tr')
  | _ :: tr' => launches tr'
  end.

(** An attempt of [init_driver] that fails on an exception of Selenium,
    so that the next attempt is made. *)
Definition launch_failed (a : launch) : bool :=
  match a with
  | Started _ => false
  | LoadFailed _ e | StartFailed e => is_WebDriverException e
  end.

(** The variable [driver] of [init_driver] after the attempts at calls
    [t .. t+j-1]: the driver of the last attempt that started one. *)
Fixpoint last_started (b : site) (t j : nat) (driver : option session) : option session :=
  match j with
  | O => driver
  | S j' =>
      last_started b (S t) j'
        (match launch_at b t with
         | Started s | LoadFailed s _ => Some s
         | StartFailed _ => driver
         end)
  end.

(** The files that are written for a list of scraped ranges: the two files
    of [final_csv_conversion], once for each range. *)
Fixpoint saved_files (ranges : list DateRange) : list string :=
  match ranges with
  | [] => []
  | _ :: ranges' => "Homes.csv"%string :: "All Homes.csv"%string :: saved_files ranges'
  end.

(** [w'] comes after [w] in a run that wrote no file. *)
Definition same_files (w w' : world) : Prop :=
  saved (trace w') = saved (trace w).

(** In the world [w] every scraped range has been written to both files,
    and nothing else has been written. *)
Definition all_saved (w : world) : Prop :=
  saved (trace w) = saved_files (scraped (trace w)).

(** The components of a tagged address, in the order of the address. *)
Definition components (tagged : AddressCleaners.tagged_components) : list string :=
  option_list (AddressCleaners.st_num tagged)
  ++ option_list (AddressCleaners.apt_num tagged)
  ++ option_list (AddressCleaners.street tagged).

(** The document begins with a number that is not spelled out. *)
Definition leading_number (doc : list AddressCleaners.token) : bool :=
  match doc with
  | [] => false
  | t :: _ => AddressCleaners.is_NUM t && AddressCleaners.not_spelled_out t
  end.

(** The count on a results line, as the program takes it: the piece at index
    5 of the line split at every single space, its commas removed, as
    [pd.to_numeric] converts it; none when the line could not be read, has no
    such piece or is not converted. *)
Definition parsed_count (to_numeric : string → result numeric) (r : result string)
    : option numeric :=
  match r with
  | Ok raw_text =>
      match PyStr.split_on " " raw_text !! 5%nat with
      | Some tok =>
          match to_numeric (PyStr.remove_char "," tok) with
          | Ok n => Some n
          | Raise _ => None
          end
      | None => None
      end
  | Raise _ => None
  end.

(** How often a range occurs in a list of ranges. *)
Definition occurrences (r : DateRange) (l : list DateRange) : nat :=
  length (filter (λ x : DateRange, x = r) l).

(** * Sample inputs *)

(** A store whose list 1 is a queue of two ranges, neither of which ends
    on day 9. *)
Definition two_ranges_world : world :=
  World {[ 1%positive := [(0, 3); (4, 7)] ]} [] 0.

(** [pd.to_numeric] on a text of decimal digits gives that integer.  This
    reading of it, for the examples, takes every other text to raise. *)
Fixpoint digits_value (s : string) (acc : Z) : option Z :=
  match s with
  | EmptyString => Some acc
  | String c s' =>
      let n := Z.of_nat (nat_of_ascii c) in
      if (48 <=? n) && (n <=? 57) then digits_value s' (10 * acc + (n - 48)) else None
  end.

(** [digits_value] as a reading of [pd.to_numeric]. *)
Definition int_literal (s : string) : result numeric :=
  match s with
  | EmptyString => Raise ValueError
  | _ => match digits_value s 0 with
         | Some z => Ok (NInt z)
         | None => Raise ValueError
         end
  end.

(** A session that shows [text] wherever a text is read, has no table and no
    next page, and accepts every click, search and quit. *)
Definition constant_session (text : string) : session :=
  Session (λ _ _, Ok text) (λ _ _, Ok None) (λ _ _, Ok false)
    (λ _ _, Ok ()) (λ _, Ok ()) (λ _, Ok true) (λ _, Ok ()).

(** A store whose list 1 is the queue of a year of 366 days. *)
Definition year_world : world := World {[ 1%positive := [(0, 365)] ]} [] 0.

(** A store whose list 1 is the queue with one single-day range. *)
Definition day_world : world := World {[ 1%positive := [(7, 7)] ]} [] 0.

(** A session that shows [count_text] for the number of results and
    [pages_text] for the number of pages, the table [listing] on every
    results page and the table [details] on every detail page, and always has
    a next property but never a next page. *)
Definition sample_session (count_text pages_text : string)
    (listing details : option DataFrame) : session :=
  Session
    (λ x _, match x with
            | search_results_number => Ok count_text
            | number_pages => Ok pages_text
            | parcel_id => Ok "Parcel ID
550-0031-0012-00"%string
            | _ => Ok "CINCINNATI CSD"%string
            end)
    (λ x _, match x with
            | results_table => Ok listing
            | appraisal_information => Ok details
            | _ => Ok None
            end)
    (λ x _, match x with next_property => Ok true | _ => Ok false end)
    (λ _ _, Ok ()) (λ _, Ok ()) (λ _, Ok true) (λ _, Ok ()).

(** A machine on which every browser starts as the session [s] and every
    file is written. *)
Definition sample_site (s : session) : site :=
  Site (λ _, Started s) (λ _, Ok ()).

(** A detail page as one record: its rows side by side. *)
Definition one_record (t : DataFrame) : result DataFrame := Ok [concat t].

(** A results table of one row and eight columns. *)
Definition sample_listing : DataFrame :=
  [[("Parcel", "550-0031-0012-00"); ("Address", "12 ELM ST"); ("BBB", "3/1/0");
    ("FinSqFt", "1,200"); ("Use", "510"); ("Year", "1950");
    ("Date", "3/2/2020"); ("Amount", "$150,000")]]%string.

(** The rows of a detail page. *)
Definition sample_details : DataFrame :=
  [[("# Bedrooms", "3")]; [("# Full Bathrooms", "1")]]%string.

(** A machine whose first browser reports 1,234 entries and every later one
    reports 2 entries on one page, with one listing row and a detail page. *)
Definition sample_year_site : site :=
  Site
    (λ n, Started
            (if bool_decide (n = 0%nat)
             then constant_session "Showing 1 to 10 of 1,234 entries"
             else sample_session "Showing 1 to 2 of 2 entries" "1"
                    (Some sample_listing) (Some sample_details)))
    (λ _, Ok ()).

(** A session whose element is stale at the first two calls and shows
    [text] from the third on. *)
Definition stale_twice_session (text : string) : session :=
  Session (λ _ n, if (n <? 2)%nat then Raise StaleElementReferenceException else Ok text)
    (λ _ _, Ok None) (λ _ _, Ok false)
    (λ _ _, Ok ()) (λ _, Ok ()) (λ _, Ok true) (λ _, Ok ()).

(** A session in which the browser is gone: every reading raises
    [WebDriverException]. *)
Definition dead_session : session :=
  Session (λ _ _, Raise WebDriverException)
    (λ _ _, Raise WebDriverException) (λ _ _, Raise WebDriverException)
    (λ _ _, Raise WebDriverException) (λ _, Raise WebDriverException)
    (λ _, Raise WebDriverException) (λ _, Raise WebDriverException).

(** The text ["12 of 40"] between a no-break space and a space on its left
    and a tab and a next-line character on its right. *)
Definition padded_text : string :=
  String "160" (String " " ("12 of 40" +:+ String "009" (String "133" ""))).

(** A field id that is one no-break space. *)
Definition blank_field_id : string := String "160" "".

(** A world with an empty store. *)
Definition empty_world : world := World ∅ [] 0.

(** A form whose fields never appear. *)
Definition absent_form : form := λ _ _ _ _, Raise TimeoutException.

(** A form whose fields appear at the second attempt. *)
Definition slow_form : form :=
  λ _ _ _ n, if (n <? 1)%nat then Raise TimeoutException else Ok ().

(** A machine whose disk is full: every browser starts as the session [s]
    and no file can be written. *)
Definition full_disk_site (s : session) : site :=
  Site (λ _, Started s) (λ _, Raise (OtherException "No space left on device")).

(** A session whose pages cannot be read: the number of pages is shown,
    every click and every move to the next entry goes through, and every
    table and every other text raises [WebDriverException]. *)
Definition unreadable_session (pages_text : string) : session :=
  Session
    (λ x _, match x with
            | number_pages => Ok pages_text
            | _ => Raise WebDriverException
            end)
    (λ _ _, Raise WebDriverException) (λ _ _, Ok true)
    (λ _ _, Ok ()) (λ _, Ok ()) (λ _, Ok true) (λ _, Ok ()).

(** A session on a detail page. *)
Definition sample_detail_session : session :=
  sample_session "Showing 1 to 2 of 2 entries" "1"
    (Some sample_listing) (Some sample_details).

(** The detail table [extract_property_details] makes of [sample_details]
    in a [sample_session]. *)
Definition sample_detail_record : DataFrame :=
  [[("Bedrooms", "3"); ("Full Baths", "1"); ("parcel_id", "550-0031-0012-00");
    ("school_district", "CINCINNATI CSD"); ("owner_address", "CINCINNATI CSD")]]%string.

(** A session in which the permission check answers [False] and every
    other call raises [WebDriverException]. *)
Definition refusing_session : session :=
  Session (λ _ _, Raise WebDriverException)
    (λ _ _, Raise WebDriverException) (λ _ _, Raise WebDriverException)
    (λ _ _, Raise WebDriverException) (λ _, Raise WebDriverException)
    (λ _, Ok false) (λ _, Raise WebDriverException).

(** The listing of [sample_listing] under the names [main] gives it. *)
Definition sample_listing_named : DataFrame :=
  [[("Parcel Number", "550-0031-0012-00"); ("Address", "12 ELM ST"); ("BBB", "3/1/0");
    ("FinSqFt", "1,200"); ("Use", "510"); ("Year Built", "1950");
    ("Transfer Date", "3/2/2020"); ("Amount", "$150,000")]]%string.

(** A machine on which the browser starts at the third attempt: the first
    does not start, the second starts as [s1] and fails to load the page,
    and from the third on it starts as [s]. *)
Definition third_time_site (s1 s : session) : site :=
  Site (λ n, match n with
             | O => StartFailed WebDriverException
             | S O => LoadFailed s1 TimeoutException
             | _ => Started s
             end)
    (λ _, Ok ()).

(** A session whose driver cannot be quit; it answers nothing else. *)
Definition stuck_session : session :=
  Session (λ _ _, Raise WebDriverException)
    (λ _ _, Raise WebDriverException) (λ _ _, Raise WebDriverException)
    (λ _ _, Raise WebDriverException) (λ _, Raise WebDriverException)
    (λ _, Raise WebDriverException) (λ _, Raise (OtherException "quit failed")).

(** A machine on which no browser loads the page: the first browser starts
    as [s1] and times out, the second starts as [s2] and times out, and
    after that no browser starts. *)
Definition two_browsers_site (s1 s2 : session) : site :=
  Site (λ n, match n with
             | O => LoadFailed s1 TimeoutException
             | S O => LoadFailed s2 TimeoutException
             | _ => StartFailed WebDriverException
             end)
    (λ _, Ok ()).

(** A machine that reports 1,234 entries to the browsers started at the
    calls before the fiftieth and at call 72, and 2 entries on one page, with
    one listing row and a detail page, to every other browser. *)
Definition flaky_site : site :=
  Site
    (λ n, Started
            (if bool_decide (n < 50 ∨ n = 72)%nat
             then constant_session "Showing 1 to 10 of 1,234 entries"
             else sample_session "Showing 1 to 2 of 2 entries" "1"
                    (Some sample_listing) (Some sample_details)))
    (λ _, Ok ()).

(** * Properties *)

(** ** The monad *)

Lemma bind_Ok {A B} (m : M A) (k : A → M B) w a w' :
  m w = (Ok a, w') → bind m k w = k a w'.
Proof. intros H. unfold bind. by rewrite H. Qed.

Lemma bind_Raise {A B} (m : M A) (k : A → M B) w e w' :
  m w = (Raise e, w') → bind m k w = (Raise e, w').
Proof. intros H. unfold bind. by rewrite H. Qed.

Lemma quiet_refl P w : quiet P w w.
Proof. split; [done|]. split; [lia|]. exists []. by rewrite app_nil_r. Qed.

Lemma quiet_trans P w1 w2 w3 : quiet P w1 w2 → quiet P w2 w3 → quiet P w1 w3.
Proof.
  intros (Hh1 & Ht1 & evs1 & He1 & HP1) (Hh2 & Ht2 & evs2 & He2 & HP2).
  split; [congruence|]. split; [lia|].
  exists (evs1 ++ evs2). split.
  - by rewrite He2, He1, app_assoc.
  - by apply Forall_app.
Qed.

Lemma quiet_weaken (P Q : event → Prop) w w' :
  (∀ e, P e → Q e) → quiet P w w' → quiet Q w w'.
Proof.
  intros HPQ (Hh & Ht & evs & He & HP). split; [done|]. split; [done|].
  exists evs. split; [done|]. eapply Forall_impl; eauto.
Qed.

Section HasPost.

Context (R : world → world → Prop).
Hypothesis R_refl : ∀ w, R w w.
Hypothesis R_trans : ∀ w1 w2 w3, R w1 w2 → R w2 w3 → R w1 w3.

Lemma has_post_ret {A} (a : A) : has_post R (ret a).
Proof. intros w. apply R_refl. Qed.

Lemma has_post_raise {A} e : has_post R (@raise A e).
Proof. intros w. apply R_refl. Qed.

Lemma has_post_lift {A} (r : result A) : has_post R (lift r).
Proof. destruct r; [apply has_post_ret | apply has_post_raise]. Qed.

Lemma has_post_bind {A B} (m : M A) (k : A → M B) :
  has_post R m → (∀ a, has_post R (k a)) → has_post R (bind m k).
Proof.
  intros Hm Hk w. unfold bind. specialize (Hm w).
  destruct (m w) as [[a|e] w1]; simpl in *; [|done].
  eapply R_trans; [exact Hm | apply Hk].
Qed.

Lemma has_post_try_except {A} (m : M A) (h : exn → M A) :
  has_post R m → (∀ e, has_post R (h e)) → has_post R (try_except m h).
Proof.
  intros Hm Hh w. unfold try_except. specialize (Hm w).
  destruct (m w) as [[a|e] w1]; simpl in *; [done|].
  eapply R_trans; [exact Hm | apply Hh].
Qed.

Lemma has_post_try_finally {A} (m : M A) (f : M ()) :
  has_post R m → has_post R f → has_post R (try_finally m f).
Proof.
  intros Hm Hf w. unfold try_finally. specialize (Hm w).
  destruct (m w) as [r w1]; simpl in *. specialize (Hf w1).
  destruct (f w1) as [[[]|e] w2]; simpl in *; eapply R_trans; eauto.
Qed.

Lemma has_post_if {A} (c : bool) (m1 m2 : M A) :
  has_post R m1 → has_post R m2 → has_post R (if c then m1 else m2).
Proof. by destruct c. Qed.

End HasPost.

Section Quiet.

Context (P : event → Prop).

Lemma quiet_emit e : P e → has_post (quiet P) (emit e).
Proof.
  intros HP w. unfold quiet; simpl. split; [reflexivity|]. split; [lia|].
  exists [e]. split; [reflexivity|]. by apply Forall_singleton.
Qed.

Lemma quiet_ask {A} e (answer : nat → result A) :
  P e → has_post (quiet P) (ask e answer).
Proof.
  intros HP w. unfold quiet; simpl. split; [reflexivity|]. split; [lia|].
  exists [e]. split; [reflexivity|]. by apply Forall_singleton.
Qed.

End Quiet.

(** ** [get_text] *)

Lemma get_text_loop_S s x d n w :
  get_text_loop s x d (S n) w =
  match text_at s x (tick w) with
  | Ok raw =>
      (Ok (PyStr.strip raw),
       called w (LocateText x ::
                 if bool_decide (PyStr.strip raw = ""%string)
                 then [Log WARNING "Element exists but contains no text."]
                 else []))
  | Raise e =>
      if retryable e
      then get_text_loop s x d n (called w [LocateText x; retry_log e; Sleep d])
      else (Raise e,
            called w [LocateText x;
                      Log ERROR "Unexpected error while attempting to get text."])
  end.
Proof.
  unfold called. cbn [get_text_loop]. unfold bind at 1, try_except, bind, ask; cbn.
  destruct (text_at s x (tick w)) as [raw|e]; cbn.
  - case_bool_decide; cbn; by rewrite <- ?app_assoc.
  - destruct e; cbn; by rewrite <- ?app_assoc.
Qed.

Lemma sleeps_app tr1 tr2 : sleeps (tr1 ++ tr2) = sleeps tr1 ++ sleeps tr2.
Proof.
  induction tr1 as [|e tr1 IH]; [done|].
  destruct e; simpl; by rewrite ?IH.
Qed.

Lemma retry_log_not_sleep e : sleeps [retry_log e] = [].
Proof. by destruct e. Qed.

(** When every attempt fails on a retried exception the loop runs out and
    raises [TimeoutException], after one sleep per attempt. *)
Lemma get_text_loop_exhaust s x d n : ∀ w,
  (∀ k, (k < n)%nat → ∃ e, text_at s x (tick w + k)%nat = Raise e ∧ retryable e = true) →
  ∃ w' evs, get_text_loop s x d n w = (Raise TimeoutException, w')
        ∧ heap w' = heap w ∧ tick w' = (tick w + n)%nat
        ∧ trace w' = trace w ++ evs ∧ sleeps evs = replicate n d.
Proof.
  induction n as [|n IH]; intros w Hfail.
  - exists w, []. simpl. rewrite app_nil_r. repeat split; lia.
  - destruct (Hfail 0%nat) as (e & He & Hr); [lia|].
    rewrite Nat.add_0_r in He.
    rewrite get_text_loop_S, He, Hr.
    destruct (IH (called w [LocateText x; retry_log e; Sleep d]))
      as (w' & evs & Hrun & Hh & Ht & Hevs & Hs).
    { intros k Hk. destruct (Hfail (S k)) as (e' & He' & Hr'); [lia|].
      exists e'. split; [|done]. simpl. by rewrite <- Nat.add_succ_r. }
    exists w', ([LocateText x; retry_log e; Sleep d] ++ evs).
    split; [done|]. simpl in *. split; [done|]. split; [lia|].
    split; [by rewrite Hevs, <- app_assoc|].
    destruct e; simpl; by rewrite Hs.
Qed.

Lemma retried_S s x t j e :
  text_at s x t = Raise e → retryable e = true →
  retried s x (S t) j → retried s x t (S j).
Proof.
  intros He Hr Hj [|i] Hi.
  - exists e. by rewrite Nat.add_0_r.
  - destruct (Hj i) as (e' & He' & Hr'); [lia|].
    exists e'. by rewrite <- Nat.add_succ_comm.
Qed.

(** Every outcome of the loop: after [j] retried attempts, each followed by
    a sleep of [d], it returns the text of attempt [j], or re-raises what
    attempt [j] raised, or has used up its [n] attempts. *)
Lemma get_text_loop_outcome s x d n : ∀ w r w',
  get_text_loop s x d n w = (r, w') →
  ∃ j evs,
    retried s x (tick w) j ∧ sleeps evs = replicate j d
    ∧ trace w' = trace w ++ evs ∧ heap w' = heap w
    ∧ match r with
      | Ok t =>
          (j < n)%nat ∧ tick w' = (tick w + S j)%nat
          ∧ ∃ raw, text_at s x (tick w + j)%nat = Ok raw ∧ t = PyStr.strip raw
      | Raise e =>
          (j = n ∧ tick w' = (tick w + n)%nat ∧ e = TimeoutException)
          ∨ ((j < n)%nat ∧ tick w' = (tick w + S j)%nat
             ∧ text_at s x (tick w + j)%nat = Raise e ∧ retryable e = false)
      end.
Proof.
  induction n as [|n IH]; intros w r w' Hrun.
  - simpl in Hrun. inversion Hrun; subst. exists 0%nat, [].
    rewrite app_nil_r, Nat.add_0_r. split_and!; [by intros i ?; lia|done..|].
    by left.
  - rewrite get_text_loop_S in Hrun.
    destruct (text_at s x (tick w)) as [raw|e] eqn:Hat.
    + inversion Hrun; subst; clear Hrun. eexists 0%nat, _. simpl.
      split_and!; [by intros i ?; lia| |reflexivity|done|lia|lia|].
      * by case_bool_decide.
      * exists raw. by rewrite Nat.add_0_r.
    + destruct (retryable e) eqn:Hre.
      * apply IH in Hrun as (j & evs & Hj & Hs & Htr & Hh & Hr). simpl in *.
        exists (S j), ([LocateText x; retry_log e; Sleep d] ++ evs).
        split; [by eapply retried_S|].
        split; [destruct e; simpl; by rewrite Hs|].
        split; [by rewrite Htr, <- app_assoc|]. split; [done|].
        destruct r as [t|e'].
        -- destruct Hr as (Hlt & Ht & raw & Hraw & ->).
           split_and!; [lia|lia|]. exists raw.
           by rewrite Nat.add_succ_r.
        -- destruct Hr as [(-> & Ht & ->)|(Hlt & Ht & Hraw & Hne)].
           ++ left. split_and!; [done|lia|done].
           ++ right. rewrite !Nat.add_succ_r. split_and!; [lia|lia|done..].
      * inversion Hrun; subst; clear Hrun. eexists 0%nat, _. simpl.
        split_and!; [by intros i ?; lia| |reflexivity|done|]; [done|].
        right. rewrite Nat.add_0_r. split_and!; [lia|lia|done..].
Qed.

(** ** Events of the browser and the log *)

Lemma reading_ordinary e : reading e → ordinary e.
Proof. by destruct e. Qed.

Lemma retry_log_reading e : reading (retry_log e).
Proof. by destruct e. Qed.

Lemma get_text_loop_reading s x d n : has_post (quiet reading) (get_text_loop s x d n).
Proof.
  induction n as [|n IH]; intros w; [apply quiet_refl|].
  rewrite get_text_loop_S.
  destruct (text_at s x (tick w)) as [raw|e].
  - simpl. split; [done|]. split; [simpl; lia|]. eexists. split; [reflexivity|].
    case_bool_decide; repeat constructor.
  - destruct (retryable e).
    + eapply quiet_trans; [|apply IH].
      split; [done|]. split; [simpl; lia|]. eexists. split; [reflexivity|].
      repeat constructor. apply retry_log_reading.
    + simpl. split; [done|]. split; [simpl; lia|]. eexists. split; [reflexivity|].
      repeat constructor.
Qed.

Lemma get_text_default_reading s x : has_post (quiet reading) (get_text_default s x).
Proof. apply get_text_loop_reading. Qed.

Lemma get_text_default_quiet s x : has_post (quiet ordinary) (get_text_default s x).
Proof.
  intros w. eapply quiet_weaken; [apply reading_ordinary|].
  apply get_text_default_reading.
Qed.

(** C7.  [get_text] with its defaults makes at most three attempts.  Each
    attempt that fails because the element is not yet rendered
    ([TimeoutException]), obscured ([ElementClickInterceptedException]) or
    stale ([StaleElementReferenceException]) is followed by a sleep of one
    second and the next attempt; when all three attempts fail so, the call
    raises [TimeoutException] to its caller and returns no value.  A text is
    returned only by an attempt that found the element. *)
Theorem get_text_bounded_retry (s : session) (x : xpath) (w : world) :
  let r := (get_text_default s x w).1 in
  let w' := (get_text_default s x w).2 in
  ∃ j evs,
    retried s x (tick w) j ∧ (j ≤ 3)%nat
    ∧ trace w' = trace w ++ evs ∧ sleeps evs = replicate j 1
    ∧ (tick w' ≤ tick w + 3)%nat
    ∧ (retried s x (tick w) 3 →
       r = Raise TimeoutException ∧ j = 3%nat ∧ tick w' = (tick w + 3)%nat)
    ∧ (∀ t, r = Ok t →
       (j < 3)%nat ∧ ∃ raw, text_at s x (tick w + j)%nat = Ok raw ∧ t = PyStr.strip raw).
Proof.
  intros r w'. subst r w'. unfold get_text_default, get_text.
  destruct (get_text_loop s x 1 3 w) as [r w'] eqn:Hrun. simpl.
  destruct (get_text_loop_outcome _ _ _ _ _ _ _ Hrun)
    as (j & evs & Hj & Hs & Htr & Hh & Hr).
  exists j, evs. split; [done|].
  assert (j ≤ 3 ∧ tick w' ≤ tick w + 3)%nat as [Hj3 Ht3].
  { destruct r; [lia|]. destruct Hr as [?|?]; lia. }
  split_and!; [done..| |].
  - intros Hall.
    destruct (get_text_loop_exhaust s x 1 3 w Hall)
      as (w2 & evs2 & Hrun2 & _ & Ht2 & Htr2 & Hs2).
    rewrite Hrun in Hrun2. inversion Hrun2; subst r w2.
    split; [done|]. split; [|done].
    rewrite Htr in Htr2. apply app_inv_head in Htr2. subst evs2.
    rewrite Hs in Hs2. apply (f_equal length) in Hs2.
    by rewrite !length_replicate in Hs2.
  - intros t ->. destruct Hr as (? & ? & raw & ? & ?). eauto.
Qed.

(** ** [split_replace_add_time_slice] *)

Lemma ns_per_day_pos : 0 < ns_per_day.
Proof. reflexivity. Qed.

Lemma str_format_date_safe_to_datetime d : str_format_date (safe_to_datetime d) = d.
Proof.
  unfold str_format_date, safe_to_datetime.
  apply Z.div_mul. pose proof ns_per_day_pos. lia.
Qed.

Lemma safe_to_datetime_inj d1 d2 : safe_to_datetime d1 = safe_to_datetime d2 → d1 = d2.
Proof.
  unfold safe_to_datetime. intros H.
  apply Z.mul_cancel_r in H; [done|]. pose proof ns_per_day_pos. lia.
Qed.

Lemma replace_and_insert {A} (pre : list A) old x y post :
  py_insert (length pre + 1) y (<[length pre := x]> (pre ++ old :: post))
  = pre ++ x :: y :: post.
Proof.
  unfold py_insert. induction pre as [|a pre IH]; [done|].
  simpl. f_equal. apply IH.
Qed.

Lemma split_replace_loop_spec updated_dates old_date new_date additional_slice :
  ∀ rest pre w,
    heap w !! updated_dates = Some (pre ++ rest) →
    split_replace_loop updated_dates (safe_to_datetime old_date)
      (safe_to_datetime new_date) additional_slice (length pre) rest w
    = match replace_first old_date new_date additional_slice rest with
      | None => (Ok false, w)
      | Some rest' =>
          (Ok true,
           World (<[updated_dates := pre ++ rest']> (heap w))
             (trace w ++ [Log INFO "Replaced old date with new date and added new slice."])
             (tick w))
      end.
Proof.
  induction rest as [|[start end_] rest IH]; intros pre w Hl; [done|].
  simpl. case_bool_decide as Hend.
  - apply safe_to_datetime_inj in Hend. subst end_.
    rewrite bool_decide_eq_true_2 by done.
    unfold bind, get_list, put_list, logging, emit, ret; simpl.
    rewrite Hl. simpl. rewrite lookup_insert_eq. simpl.
    rewrite insert_insert_eq, !str_format_date_safe_to_datetime.
    by rewrite replace_and_insert.
  - rewrite bool_decide_eq_false_2 by congruence.
    specialize (IH (pre ++ [(start, end_)]) w).
    rewrite length_app, Nat.add_1_r, <- app_assoc in IH. simpl in IH.
    rewrite IH by done.
    destruct (replace_first _ _ _ rest); simpl; [|done].
    by rewrite <- app_assoc.
Qed.

(** [split_replace_add_time_slice] in one equation: the result is a new
    list; the list passed in is read but never written. *)
Lemma split_replace_add_time_slice_spec dates old_date new_date additional_slice w l :
  heap w !! dates = Some l →
  split_replace_add_time_slice dates old_date new_date additional_slice w
  = let updated_dates := fresh (dom (heap w)) in
    match replace_first old_date new_date additional_slice l with
    | None =>
        (Ok (updated_dates, false),
         World (<[updated_dates := l]> (heap w))
           (trace w ++ [Log WARNING "Old date not found in any date range. No modifications made."])
           (tick w))
    | Some l' =>
        (Ok (updated_dates, true),
         World (<[updated_dates := l']> (heap w))
           (trace w ++ [Log INFO "Replaced old date with new date and added new slice."])
           (tick w))
    end.
Proof.
  intros Hl. unfold split_replace_add_time_slice.
  unfold bind at 1. unfold get_list at 1. rewrite Hl.
  unfold bind at 1. unfold new_list, alloc. simpl.
  unfold bind at 1. unfold get_list at 1. simpl. rewrite lookup_insert_eq.
  unfold bind at 1.
  rewrite (split_replace_loop_spec _ _ _ _ l []) by (simpl; apply lookup_insert_eq).
  destruct (replace_first _ _ _ l) as [l'|]; simpl.
  - by rewrite insert_insert_eq.
  - done.
Qed.

Lemma replace_first_None old_date new_date additional_slice l :
  Forall (λ r : DateRange, r.2 ≠ old_date) l →
  replace_first old_date new_date additional_slice l = None.
Proof.
  induction 1 as [|[start end_] l Hne _ IH]; [done|].
  simpl in *. rewrite bool_decide_eq_false_2 by done. by rewrite IH.
Qed.

Lemma fresh_loc_None (h : gmap loc (list DateRange)) : h !! fresh (dom h) = None.
Proof. apply not_elem_of_dom, is_fresh. Qed.

(** C10.  [split_replace_add_time_slice] never writes to the list [dates]
    it is given: it returns a new list object, every list of the store is
    afterwards what it was before, and when no range of [dates] ends on
    [old_date] the returned list equals [dates] and [modified] is [False]. *)
Theorem split_replace_leaves_dates_alone
    (dates : loc) (old_date new_date : date) (additional_slice : DateRange)
    (w : world) (l : list DateRange) :
  heap w !! dates = Some l →
  ∃ updated_dates modified w',
    split_replace_add_time_slice dates old_date new_date additional_slice w
      = (Ok (updated_dates, modified), w')
    ∧ heap w !! updated_dates = None
    ∧ (∀ r, r ≠ updated_dates → heap w' !! r = heap w !! r)
    ∧ heap w' !! dates = Some l
    ∧ (Forall (λ r : DateRange, r.2 ≠ old_date) l →
       modified = false ∧ heap w' !! updated_dates = Some l).
Proof.
  intros Hl. rewrite (split_replace_add_time_slice_spec _ _ _ _ _ _ Hl). simpl.
  pose proof (fresh_loc_None (heap w)) as Hfresh.
  assert (dates ≠ fresh (dom (heap w))) as Hne by congruence.
  destruct (replace_first old_date new_date additional_slice l) as [l'|] eqn:Hrep.
  - eexists _, _, _. split; [reflexivity|]. simpl.
    split_and!; [done| |by rewrite lookup_insert_ne|].
    + intros r Hr. by rewrite lookup_insert_ne.
    + intros Hall. by rewrite (replace_first_None _ _ _ _ Hall) in Hrep.
  - eexists _, _, _. split; [reflexivity|]. simpl.
    split_and!; [done| |by rewrite lookup_insert_ne|].
    + intros r Hr. by rewrite lookup_insert_ne.
    + intros _. by rewrite lookup_insert_eq.
Qed.

Lemma split_replace_leaves_dates_alone_witness :
  ∃ updated_dates modified w',
    split_replace_add_time_slice 1%positive 9 4 (5, 9) two_ranges_world
      = (Ok (updated_dates, modified), w')
    ∧ heap two_ranges_world !! updated_dates = None
    ∧ (∀ r, r ≠ updated_dates → heap w' !! r = heap two_ranges_world !! r)
    ∧ heap w' !! 1%positive = Some [(0, 3); (4, 7)]
    ∧ (Forall (λ r : DateRange, r.2 ≠ 9) [(0, 3); (4, 7)] →
       modified = false ∧ heap w' !! updated_dates = Some [(0, 3); (4, 7)]).
Proof.
  apply (split_replace_leaves_dates_alone 1%positive 9 4 (5, 9)
           two_ranges_world [(0, 3); (4, 7)]).
  reflexivity.
Defined.

(** ** The midpoint of a range *)

Lemma ns_per_day_halves : ns_per_day = ns_per_half_day * 2.
Proof. reflexivity. Qed.

(** The difference of two midnights halves without remainder. *)
Lemma timedelta_half_days start end_ :
  timedelta_half (safe_to_datetime end_ - safe_to_datetime start)
  = (end_ - start) * ns_per_half_day.
Proof.
  unfold timedelta_half, safe_to_datetime. rewrite ns_per_day_halves.
  replace (end_ * (ns_per_half_day * 2) - start * (ns_per_half_day * 2))
    with ((end_ - start) * ns_per_half_day * 2) by lia.
  by apply Z.quot_mul.
Qed.

(** [midpoint_str]: the midpoint falls on day [start + (end - start) / 2],
    the quotient rounded down. *)
Lemma midpoint_day start end_ :
  str_format_date
    (safe_to_datetime start
     + timedelta_half (safe_to_datetime end_ - safe_to_datetime start))
  = start + (end_ - start) / 2.
Proof.
  rewrite timedelta_half_days. unfold str_format_date, safe_to_datetime.
  rewrite ns_per_day_halves.
  replace (start * (ns_per_half_day * 2) + (end_ - start) * ns_per_half_day)
    with ((start * 2 + (end_ - start)) * ns_per_half_day) by lia.
  rewrite (Z.mul_comm ns_per_half_day 2).
  rewrite Z.div_mul_cancel_r by done.
  by rewrite Z.div_add_l.
Qed.

(** The start of [new_slice] is the day after the midpoint's. *)
Lemma midpoint_next_day start end_ :
  str_format_date
    (safe_to_datetime start
     + timedelta_half (safe_to_datetime end_ - safe_to_datetime start)
     + timedelta_days 1)
  = start + (end_ - start) / 2 + 1.
Proof.
  rewrite timedelta_half_days. unfold str_format_date, safe_to_datetime, timedelta_days.
  rewrite ns_per_day_halves.
  replace (start * (ns_per_half_day * 2) + (end_ - start) * ns_per_half_day
           + 1 * (ns_per_half_day * 2))
    with (((start + 1) * 2 + (end_ - start)) * ns_per_half_day) by lia.
  rewrite (Z.mul_comm ns_per_half_day 2).
  rewrite Z.div_mul_cancel_r by done.
  rewrite Z.div_add_l by done. lia.
Qed.

(** For [start <= end] rounding down is truncation toward [start]. *)
Lemma midpoint_truncates start end_ :
  start ≤ end_ → (end_ - start) / 2 = Z.quot (end_ - start) 2.
Proof. intros. symmetry. apply Z.quot_div_nonneg; lia. Qed.

Lemma midpoint_between start end_ :
  start ≤ end_ → start ≤ start + (end_ - start) / 2 ≤ end_.
Proof.
  intros. assert (0 ≤ (end_ - start) / 2 ≤ end_ - start); [|lia].
  split; [apply Z.div_pos; lia|]. apply Z.div_le_upper_bound; lia.
Qed.

(** ** [check_reset_needed] *)

Section CheckReset.

Context (to_numeric : string → result numeric).

Lemma read_total_entries_eq s w :
  read_total_entries to_numeric s w
  = (match (get_text_default s search_results_number w).1 with
     | Ok raw_text =>
         match PyStr.split_on " " raw_text !! 5%nat with
         | Some tok =>
             match to_numeric (PyStr.remove_char "," tok) with
             | Ok n => Ok n
             | Raise _ => Raise ValueError
             end
         | None => Raise ValueError
         end
     | Raise _ => Raise ValueError
     end,
     (get_text_default s search_results_number w).2).
Proof.
  unfold read_total_entries, try_except, bind, entries_token.
  destruct (get_text_default s search_results_number w) as [[raw|e] w1]; simpl; [|done].
  destruct (PyStr.split_on " " raw !! 5%nat) as [tok|]; simpl; [|done].
  by destruct (to_numeric (PyStr.remove_char "," tok)).
Qed.

Lemma read_total_entries_reading s :
  has_post (quiet reading) (read_total_entries to_numeric s).
Proof.
  intros w. rewrite read_total_entries_eq. simpl.
  apply get_text_default_reading.
Qed.

Lemma read_total_entries_raises s w e w1 :
  read_total_entries to_numeric s w = (Raise e, w1) → e = ValueError.
Proof.
  rewrite read_total_entries_eq. intros H. inversion H as [[He Hw]]. clear H Hw.
  destruct (get_text_default s search_results_number w).1 as [raw|]; [|congruence].
  destruct (PyStr.split_on " " raw !! 5%nat) as [tok|]; [|congruence].
  destruct (to_numeric (PyStr.remove_char "," tok)); congruence.
Qed.

Lemma check_reset_needed_raise s start end_ dates w e w1 :
  read_total_entries to_numeric s w = (Raise e, w1) →
  check_reset_needed to_numeric s start end_ dates w = (Raise e, w1).
Proof. intros H. unfold check_reset_needed. by rewrite (bind_Raise _ _ _ _ _ H). Qed.

(** The no-op branch: neither [>= 1000] nor [< 1]. *)
Lemma check_reset_needed_accepted s start end_ dates w n w1 :
  read_total_entries to_numeric s w = (Ok n, w1) →
  num_ge n 1000 = false → num_lt n 1 = false →
  check_reset_needed to_numeric s start end_ dates w
  = (Ok (false, false, dates, n), w1).
Proof.
  intros H Hge Hlt. unfold check_reset_needed.
  rewrite (bind_Ok _ _ _ _ _ H). by rewrite Hge, Hlt.
Qed.

(** The overflow branch. *)
Lemma check_reset_needed_overflow s start end_ dates w n w1 l :
  read_total_entries to_numeric s w = (Ok n, w1) →
  num_ge n 1000 = true →
  heap w1 !! dates = Some l →
  let midpoint := start + (end_ - start) / 2 in
  let updated_dates := fresh (dom (heap w1)) in
  let split_log :=
    Log INFO "Splitting dates further since the entries are greater than or equal to the threshold of 1000." in
  check_reset_needed to_numeric s start end_ dates w
  = match replace_first end_ midpoint (midpoint + 1, end_) l with
    | None =>
        (Ok (true, false, updated_dates, n),
         World (<[updated_dates := l]> (heap w1))
           (trace w1 ++ [split_log;
              Log WARNING "Old date not found in any date range. No modifications made."])
           (tick w1))
    | Some l' =>
        (Ok (true, true, updated_dates, n),
         World (<[updated_dates := l']> (heap w1))
           (trace w1 ++ [split_log;
              Log INFO "Replaced old date with new date and added new slice."])
           (tick w1))
    end.
Proof.
  intros H Hge Hl. simpl. unfold check_reset_needed.
  rewrite (bind_Ok _ _ _ _ _ H), Hge.
  rewrite midpoint_day, midpoint_next_day, str_format_date_safe_to_datetime.
  unfold bind at 1. unfold logging, emit. simpl.
  unfold bind at 1.
  erewrite split_replace_add_time_slice_spec by (simpl; exact Hl). simpl.
  destruct (replace_first _ _ _ l); simpl; by rewrite <- app_assoc.
Qed.

End CheckReset.

Lemma replace_first_middle old_date new_date additional_slice pre start post :
  Forall (λ r : DateRange, r.2 ≠ old_date) pre →
  replace_first old_date new_date additional_slice (pre ++ (start, old_date) :: post)
  = Some (pre ++ (start, new_date) :: additional_slice :: post).
Proof.
  induction 1 as [|[s e] pre Hne _ IH]; simpl in *.
  - by rewrite bool_decide_eq_true_2.
  - rewrite bool_decide_eq_false_2 by done. by rewrite IH.
Qed.

Section CheckResetClaims.

Context (to_numeric : string → result numeric).

(** C1.  When the search of a range [(start, end)] with [start <= end]
    reports at least 1000 entries, and the range is the first of the queue
    that ends on [end], [check_reset_needed] returns a queue in which the
    range is replaced by exactly two ranges, [(start, midpoint)] and
    [(midpoint + 1 day, end)], where [midpoint] is
    [start + (end - start) / 2] truncated toward [start] to a whole day.
    The second range starts the day after the first ends, no day is in
    both, and a day is in one of them exactly when it is in
    [(start, end)]. *)
Theorem overflow_splits_in_two
    (s : session) (start end_ : date) (dates : loc) (w w1 : world)
    (pre post : list DateRange) (n : numeric) :
  start ≤ end_ →
  heap w !! dates = Some (pre ++ (start, end_) :: post) →
  Forall (λ r : DateRange, r.2 ≠ end_) pre →
  read_total_entries to_numeric s w = (Ok n, w1) →
  num_ge n 1000 = true →
  let midpoint := start + Z.quot (end_ - start) 2 in
  ∃ updated_dates w',
    check_reset_needed to_numeric s start end_ dates w
      = (Ok (true, true, updated_dates, n), w')
    ∧ heap w' !! updated_dates
      = Some (pre ++ (start, midpoint) :: (midpoint + 1, end_) :: post)
    ∧ start ≤ midpoint ≤ end_
    ∧ (∀ d, covers (start, end_) d
            ↔ covers (start, midpoint) d ∨ covers (midpoint + 1, end_) d)
    ∧ (∀ d, ¬ (covers (start, midpoint) d ∧ covers (midpoint + 1, end_) d)).
Proof.
  intros Hle Hl Hpre Hread Hge midpoint. subst midpoint.
  rewrite <- midpoint_truncates by done.
  pose proof (read_total_entries_reading to_numeric s w) as Hq.
  rewrite Hread in Hq. destruct Hq as (Hh & _ & _). simpl in Hh.
  rewrite <- Hh in Hl.
  rewrite (check_reset_needed_overflow _ _ _ _ _ _ _ _ _ Hread Hge Hl).
  rewrite replace_first_middle by done.
  pose proof (midpoint_between start end_ Hle) as Hmid.
  eexists _, _. split; [reflexivity|]. simpl.
  split; [by rewrite lookup_insert_eq|]. split; [done|].
  unfold covers; simpl. split; intros d; lia.
Qed.

(** C9.  On a range whose search reports between 1 and 999 entries
    [check_reset_needed] changes nothing: it returns [reset_needed = False],
    [modified = False] and the very list [dates] it was given, the store is
    what it was, and nothing happened but the reading of the count.  Run
    again on the same count it does the same. *)
Theorem accepted_range_is_a_no_op
    (s : session) (start end_ : date) (dates : loc) (w w1 : world) (z : Z) :
  read_total_entries to_numeric s w = (Ok (NInt z), w1) →
  1 ≤ z ≤ 999 →
  check_reset_needed to_numeric s start end_ dates w
    = (Ok (false, false, dates, NInt z), w1)
  ∧ heap w1 = heap w
  ∧ (∃ evs, trace w1 = trace w ++ evs ∧ Forall reading evs)
  ∧ ∀ w2, read_total_entries to_numeric s w1 = (Ok (NInt z), w2) →
          check_reset_needed to_numeric s start end_ dates w1
            = (Ok (false, false, dates, NInt z), w2)
          ∧ heap w2 = heap w.
Proof.
  intros Hread Hz.
  assert (num_ge (NInt z) 1000 = false) as Hge by (simpl; lia).
  assert (num_lt (NInt z) 1 = false) as Hlt by (simpl; lia).
  pose proof (read_total_entries_reading to_numeric s w) as Hq.
  rewrite Hread in Hq. destruct Hq as (Hh & _ & Hevs). simpl in *.
  split; [by apply check_reset_needed_accepted|].
  split; [done|]. split; [done|].
  intros w2 Hread2. split; [by apply check_reset_needed_accepted|].
  pose proof (read_total_entries_reading to_numeric s w1) as Hq.
  rewrite Hread2 in Hq. destruct Hq as (Hh2 & _). simpl in *. congruence.
Qed.

End CheckResetClaims.

(** The year 2020, counted from its first day, with 1,234 entries: the
    queue becomes days 0 to 182 (July 1st) and 183 to 365. *)
Lemma overflow_splits_in_two_witness :
  ∃ updated_dates w',
    check_reset_needed int_literal
      (constant_session "Showing 1 to 10 of 1,234 entries") 0 365 1%positive year_world
      = (Ok (true, true, updated_dates, NInt 1234), w')
    ∧ heap w' !! updated_dates = Some [(0, 182); (183, 365)].
Proof.
  destruct (overflow_splits_in_two int_literal
              (constant_session "Showing 1 to 10 of 1,234 entries") 0 365 1%positive
              year_world
              (read_total_entries int_literal
                 (constant_session "Showing 1 to 10 of 1,234 entries") year_world).2
              [] [] (NInt 1234))
    as (updated_dates & w' & Hrun & Hqueue & _).
  - lia.
  - reflexivity.
  - constructor.
  - reflexivity.
  - reflexivity.
  - exists updated_dates, w'. split; [exact Hrun | exact Hqueue].
Defined.

(** A search that reports 400 entries. *)
Lemma accepted_range_is_a_no_op_witness :
  check_reset_needed int_literal
    (constant_session "Showing 1 to 10 of 400 entries") 0 182 1%positive year_world
  = (Ok (false, false, 1%positive, NInt 400),
     (read_total_entries int_literal
        (constant_session "Showing 1 to 10 of 400 entries") year_world).2).
Proof.
  apply (accepted_range_is_a_no_op int_literal
           (constant_session "Showing 1 to 10 of 400 entries") 0 182 1%positive
           year_world
           (read_total_entries int_literal
              (constant_session "Showing 1 to 10 of 400 entries") year_world).2
           400).
  - reflexivity.
  - lia.
Defined.

(** C8 as stated fails on a results line with two spaces in a row: it has
    six whitespace-separated tokens, the one at index 5 is ["1,234"], and yet
    the count the program reads is 50, the token at index 5 of
    [split(" ")].  And a parse that fails is fatal for more than the range:
    on a results line without a sixth piece the run of the year ends on its
    first pass with [ValueError], the year still in the queue. *)
Lemma entry_count_not_whitespace_split :
  let raw_text := "Showing  rows 1 to 50 1,234"%string in
  length (PyStr.split_whitespace raw_text) = 6%nat
  ∧ PyStr.split_whitespace raw_text !! 5%nat = Some "1,234"%string
  ∧ int_literal (PyStr.remove_char "," "1,234") = Ok (NInt 1234)
  ∧ (read_total_entries int_literal (constant_session raw_text) year_world).1
    = Ok (NInt 50)
  ∧ (check_reset_needed int_literal (constant_session raw_text) 0 365 1%positive
       year_world).1
    = Ok (false, false, 1%positive, NInt 50)
  ∧ ∃ w, steps int_literal true Ok (λ all_data _, Ok all_data)
           (sample_site (constant_session "No results found")) 2
           (year_start (World ∅ [] 0) 0 365)
         = Crashed ValueError w
         ∧ heap w !! 1%positive = Some [(0, 365)]
         ∧ scraped (trace w) = [].
Proof.
  repeat split; try reflexivity.
  eexists. split; [vm_compute; reflexivity|]. split; vm_compute; reflexivity.
Qed.

(** ** [split(" ")] and the whitespace split *)

Lemma append_String c (s t : string) : String c s +:+ t = String c (s +:+ t).
Proof. reflexivity. Qed.

Lemma append_empty_r (s : string) : s +:+ "" = s.
Proof. induction s as [|c s IH]; [done|]. by rewrite append_String, IH. Qed.

Lemma append_char_assoc (w : string) c (t : string) :
  (w +:+ String c "") +:+ t = w +:+ String c t.
Proof. induction w as [|d w IH]; [done|]. by rewrite !append_String, IH. Qed.

Lemma split_on_not_nil sep s : PyStr.split_on sep s ≠ [].
Proof.
  destruct s as [|c s]; simpl; [done|].
  destruct (PyStr.is_char c sep); [done|].
  by destruct (PyStr.split_on sep s).
Qed.

Lemma not_space_not_blank c : PyStr.is_space c = false → PyStr.is_char c " " = false.
Proof.
  intros Hc. unfold PyStr.is_char. case_bool_decide as Heq; [|done].
  subst c. discriminate Hc.
Qed.

(** The whitespace split, in the middle of a word [w] or between words,
    against [split(" ")] on what is left of a single-spaced text. *)
Lemma split_whitespace_aux_single_spaced s :
  (∀ w, single_spaced_from true s = true →
        PyStr.split_whitespace_aux s (Some w)
        = match PyStr.split_on " " s with
          | t :: ts => (w +:+ t) :: ts
          | [] => []
          end)
  ∧ (single_spaced_from false s = true →
     PyStr.split_whitespace_aux s None = PyStr.split_on " " s).
Proof.
  induction s as [|c s [IHword IHgap]]; simpl.
  - split; [|done]. intros w _. by rewrite append_empty_r.
  - destruct (PyStr.is_space c) eqn:Hc; simpl.
    + split; [|done]. intros w Hs.
      apply andb_true_iff in Hs as [Hblank Hs]. rewrite Hblank.
      by rewrite append_empty_r, IHgap.
    + rewrite (not_space_not_blank _ Hc). split.
      * intros w Hs. rewrite IHword by done.
        pose proof (split_on_not_nil " " s).
        destruct (PyStr.split_on " " s); [done|].
        by rewrite append_char_assoc.
      * intros Hs. rewrite IHword by done.
        pose proof (split_on_not_nil " " s).
        by destruct (PyStr.split_on " " s).
Qed.

(** On a single-spaced text, as the results line of the site is when it
    reads "Showing 1 to 10 of 1,234 entries", [split(" ")] and the whitespace
    split give the same tokens. *)
Lemma split_on_space_single_spaced s :
  single_spaced s = true → PyStr.split_on " " s = PyStr.split_whitespace s.
Proof.
  intros Hs. symmetry. by apply split_whitespace_aux_single_spaced.
Qed.

Example results_line_single_spaced :
  single_spaced "Showing 1 to 10 of 1,234 entries" = true
  ∧ single_spaced "Showing  rows 1 to 50 1,234" = false.
Proof. split; reflexivity. Qed.

(** ** Runs that leave the store alone *)

Lemma quiet_ret {A} (a : A) : has_post (quiet ordinary) (ret a).
Proof. apply has_post_ret, quiet_refl. Qed.

Lemma quiet_raise {A} e : has_post (quiet ordinary) (@raise A e).
Proof. apply has_post_raise, quiet_refl. Qed.

Lemma quiet_lift {A} (r : result A) : has_post (quiet ordinary) (lift r).
Proof. apply has_post_lift, quiet_refl. Qed.

Lemma quiet_bind {A B} (m : M A) (k : A → M B) :
  has_post (quiet ordinary) m → (∀ a, has_post (quiet ordinary) (k a)) →
  has_post (quiet ordinary) (bind m k).
Proof. apply has_post_bind, quiet_trans. Qed.

Lemma quiet_try_except {A} (m : M A) (h : exn → M A) :
  has_post (quiet ordinary) m → (∀ e, has_post (quiet ordinary) (h e)) →
  has_post (quiet ordinary) (try_except m h).
Proof. apply has_post_try_except, quiet_trans. Qed.

Lemma quiet_try_finally {A} (m : M A) (f : M ()) :
  has_post (quiet ordinary) m → has_post (quiet ordinary) f →
  has_post (quiet ordinary) (try_finally m f).
Proof. apply has_post_try_finally, quiet_trans. Qed.

Ltac quiet_step :=
  lazymatch goal with
  | |- has_post _ (ret _) => apply quiet_ret
  | |- has_post _ (raise _) => apply quiet_raise
  | |- has_post _ (lift _) => apply quiet_lift
  | |- has_post _ (bind _ _) => apply quiet_bind; [|intros ?]
  | |- has_post _ (try_except _ _) => apply quiet_try_except; [|intros ?]
  | |- has_post _ (try_finally _ _) => apply quiet_try_finally
  | |- has_post _ (emit _) => apply quiet_emit; exact I
  | |- has_post _ (logging _ _) => apply quiet_emit; exact I
  | |- has_post _ (time_sleep _) => apply quiet_emit; exact I
  | |- has_post _ (ask _ _) => apply quiet_ask; exact I
  | |- has_post _ (get_text_default _ _) => apply get_text_default_quiet
  | |- has_post _ (if ?c then _ else _) => destruct c
  | |- has_post _ (match ?x with _ => _ end) => destruct x
  end.

Ltac quiet := repeat quiet_step.

Lemma safe_quit_quiet s : has_post (quiet ordinary) (safe_quit s).
Proof. unfold safe_quit. quiet. Qed.

Lemma next_navigation_quiet s x : has_post (quiet ordinary) (next_navigation s x).
Proof. unfold next_navigation. quiet. Qed.

Lemma scrape_results_page_quiet s : has_post (quiet ordinary) (scrape_results_page s).
Proof. unfold scrape_results_page. quiet. Qed.

Section ScraperQuiet.

Context (to_numeric : string → result numeric).
Context (transform_table : DataFrame → result DataFrame).

Lemma extract_property_details_quiet s :
  has_post (quiet ordinary) (extract_property_details transform_table s).
Proof. unfold extract_property_details. quiet. Qed.

Lemma results_loop_quiet s n : ∀ all_data,
  has_post (quiet ordinary) (results_loop s all_data n).
Proof.
  induction n as [|n IH]; intros all_data; simpl; [apply quiet_ret|].
  quiet_step; [quiet|]. quiet_step; [apply scrape_results_page_quiet|].
  quiet_step; [|quiet]. quiet_step; simpl; [|quiet].
  quiet_step; [apply next_navigation_quiet|]. quiet_step; simpl; [quiet|apply IH].
Qed.

Lemma details_loop_quiet s n : ∀ appraisal_data,
  has_post (quiet ordinary) (details_loop transform_table s appraisal_data n).
Proof.
  induction n as [|n IH]; intros appraisal_data; simpl; [apply quiet_ret|].
  quiet_step; [quiet|]. quiet_step; [apply extract_property_details_quiet|].
  quiet_step; [quiet|]. quiet_step; [quiet|].
  quiet_step; [apply next_navigation_quiet|]. quiet_step; simpl; [quiet|apply IH].
Qed.

Lemma scrape_data_quiet s n :
  has_post (quiet ordinary) (scrape_data to_numeric transform_table s n).
Proof.
  unfold scrape_data.
  quiet_step; [quiet|]. quiet_step; [quiet|]. quiet_step; [quiet|].
  quiet_step; [apply results_loop_quiet|].
  quiet_step; [unfold safe_click, find_click_row; quiet|].
  quiet_step; [quiet|]. quiet_step; [apply details_loop_quiet|]. quiet.
Qed.

End ScraperQuiet.

(** ** What a run adds to the trace *)

Lemma bind_after {A B} (m : M A) (k : A → M B) w :
  (∀ a, has_post (quiet ordinary) (k a)) →
  quiet ordinary (m w).2 (bind m k w).2.
Proof.
  intros Hk. unfold bind. destruct (m w) as [[a|e] w1]; simpl.
  - apply Hk.
  - apply quiet_refl.
Qed.

Lemma try_except_after {A} (m : M A) (h : exn → M A) w :
  (∀ e, has_post (quiet ordinary) (h e)) →
  quiet ordinary (m w).2 (try_except m h w).2.
Proof.
  intros Hh. unfold try_except. destruct (m w) as [[a|e] w1]; simpl.
  - apply quiet_refl.
  - apply Hh.
Qed.

Lemma begins_with_quiet e w w1 w2 :
  begins_with e w w1 → quiet ordinary w1 w2 → begins_with e w w2.
Proof.
  intros (evs1 & H1) (_ & _ & evs2 & H2 & _).
  exists (evs1 ++ evs2). by rewrite H2, H1, <- app_assoc.
Qed.

(** [get_text] starts by looking the element up. *)
Lemma get_text_default_begins s x w :
  begins_with (LocateText x) w (get_text_default s x w).2.
Proof.
  unfold get_text_default, get_text. rewrite get_text_loop_S.
  destruct (text_at s x (tick w)) as [raw|e].
  - simpl. by eexists.
  - destruct (retryable e).
    + eapply begins_with_quiet; [|eapply quiet_weaken;
        [apply reading_ordinary|apply get_text_loop_reading]].
      simpl. by eexists.
    + simpl. by eexists.
Qed.

Section ScraperClaims.

Context (to_numeric : string → result numeric).
Context (transform_table : DataFrame → result DataFrame).

(** Each detail extraction starts by reading the parcel id. *)
Lemma extract_property_details_begins s w :
  begins_with (LocateText parcel_id) w (extract_property_details transform_table s w).2.
Proof.
  unfold extract_property_details.
  eapply begins_with_quiet; [|apply try_except_after; intros; quiet].
  eapply begins_with_quiet; [apply get_text_default_begins|].
  apply bind_after. intros. quiet.
Qed.

(** C5 fails on the code.  When the listing pages gave no rows
    ([all_data] is empty) and the search reported [z >= 1] entries,
    [scrape_data] logs that there is nothing to navigate to and then enters
    the detail loop all the same: it logs the first property and calls
    [extract_property_details], which looks up the parcel id. *)
Theorem details_scraped_without_listing
    (s : session) (w w1 w2 : world) (pages_text : string) (p : numeric)
    (pages : nat) (z : Z) :
  get_text_default s number_pages w = (Ok pages_text, w1) →
  to_numeric pages_text = Ok p →
  py_range p = Ok pages →
  results_loop s [] pages w1 = (Ok [], w2) →
  1 ≤ z →
  ∃ evs,
    trace (scrape_data to_numeric transform_table s (NInt z) w).2
    = trace w2
      ++ [Log WARNING "No all_data to navigate for property details.";
          Log INFO "Scraping property details for property...";
          LocateText parcel_id]
      ++ evs.
Proof.
  intros Htext Hnum Hrange Hloop Hz. unfold scrape_data.
  rewrite (bind_Ok _ _ _ _ _ Htext), Hnum. unfold lift at 1.
  unfold bind at 1, ret at 1. rewrite Hrange. unfold lift at 1.
  unfold bind at 1, ret at 1. rewrite (bind_Ok _ _ _ _ _ Hloop).
  rewrite bool_decide_eq_false_2 by (intros H; by apply H).
  unfold bind at 1, logging at 1, emit at 1.
  unfold py_range, lift at 1. unfold bind at 1, ret at 1.
  destruct (Z.to_nat z) as [|n] eqn:Hn; [lia|].
  set (w3 := World (heap w2)
               (trace w2 ++ [Log WARNING "No all_data to navigate for property details."])
               (tick w2)).
  assert (begins_with (LocateText parcel_id)
            (World (heap w3)
               (trace w3 ++ [Log INFO "Scraping property details for property..."])
               (tick w3))
            (bind (details_loop transform_table s [] (S n))
               (λ appraisal_data, ret (([] : list DataFrame), appraisal_data)) w3).2)
    as (evs & Hevs).
  { eapply begins_with_quiet; [|apply bind_after; intros; quiet].
    simpl. unfold bind at 1, logging at 1, emit at 1.
    eapply begins_with_quiet; [apply extract_property_details_begins|].
    apply bind_after. intros t.
    quiet_step; [quiet|]. quiet_step; [quiet|].
    quiet_step; [apply next_navigation_quiet|].
    quiet_step; [quiet|apply details_loop_quiet]. }
  exists evs. rewrite Hevs. simpl. by rewrite <- !app_assoc.
Qed.

End ScraperClaims.

(** Three entries reported, one page, no listing table: the parcel id is
    looked up all the same. *)
Lemma details_scraped_without_listing_witness :
  ∃ evs,
    trace (scrape_data int_literal Ok
             (sample_session "Showing 1 to 3 of 3 entries" "1" None None)
             (NInt 3) year_world).2
    = trace (results_loop
               (sample_session "Showing 1 to 3 of 3 entries" "1" None None) [] 1
               (get_text_default
                  (sample_session "Showing 1 to 3 of 3 entries" "1" None None)
                  number_pages year_world).2).2
      ++ [Log WARNING "No all_data to navigate for property details.";
          Log INFO "Scraping property details for property...";
          LocateText parcel_id]
      ++ evs.
Proof.
  apply (details_scraped_without_listing int_literal Ok
           (sample_session "Showing 1 to 3 of 3 entries" "1" None None)
           year_world
           (get_text_default
              (sample_session "Showing 1 to 3 of 3 entries" "1" None None)
              number_pages year_world).2
           (results_loop
              (sample_session "Showing 1 to 3 of 3 entries" "1" None None) [] 1
              (get_text_default
                 (sample_session "Showing 1 to 3 of 3 entries" "1" None None)
                 number_pages year_world).2).2
           "1" (NInt 1) 1 3); try reflexivity.
  lia.
Defined.

(** On that input [scrape_data] returns no listing and makes three detail
    extractions, one for each reported entry. *)
Example details_scraped_three_times :
  (scrape_data int_literal Ok
     (sample_session "Showing 1 to 3 of 3 entries" "1" None None)
     (NInt 3) year_world).1 = Ok ([], [])
  ∧ lookups parcel_id
      (trace (scrape_data int_literal Ok
                (sample_session "Showing 1 to 3 of 3 entries" "1" None None)
                (NInt 3) year_world).2) = 3%nat.
Proof. split; reflexivity. Qed.

(** ** Inversion of runs *)

Lemma bind_Ok_inv {A B} (m : M A) (k : A → M B) w b w' :
  bind m k w = (Ok b, w') →
  ∃ a w1, m w = (Ok a, w1) ∧ k a w1 = (Ok b, w').
Proof.
  unfold bind. destruct (m w) as [[a|e] w1]; [|done]. eauto.
Qed.

Lemma lift_Ok_inv {A} (r : result A) w a w' :
  lift r w = (Ok a, w') → r = Ok a ∧ w' = w.
Proof. destruct r; simpl; unfold ret, raise; intros H; by inversion H. Qed.

Lemma py_assert_Ok_inv c w u w' :
  py_assert c w = (Ok u, w') → c = true ∧ w' = w.
Proof. destruct c; simpl; unfold ret, raise; intros H; by inversion H. Qed.

Lemma safe_quit_returns s w : (safe_quit s w).1 = Ok ().
Proof.
  unfold safe_quit, try_except, bind, ask, logging, emit. simpl.
  by destruct (quit_at s (tick w)) as [[]|].
Qed.

(** [try: ... finally: safe_quit(driver)] passes the outcome of the [try]
    block on. *)
Lemma try_finally_safe_quit {A} (m : M A) s w :
  try_finally m (safe_quit s) w = ((m w).1, (safe_quit s (m w).2).2).
Proof.
  unfold try_finally. destruct (m w) as [r w1]. simpl.
  pose proof (safe_quit_returns s w1) as Hq.
  destruct (safe_quit s w1) as [[[]|e] w2]; simpl in *; [done|congruence].
Qed.

Section ScrapeResults.

Context (to_numeric : string → result numeric).
Context (transform_table : DataFrame → result DataFrame).

(** The detail loop only adds tables to [appraisal_data]; with no entry to
    visit it adds none. *)
Lemma details_loop_zero s appraisal_data w :
  details_loop transform_table s appraisal_data 0 w = (Ok appraisal_data, w).
Proof. reflexivity. Qed.

(** With a count below 1 [scrape_data] brings no detail table back. *)
Lemma scrape_data_no_entries s n w all_data appraisal_data w' :
  num_lt n 1 = true →
  scrape_data to_numeric transform_table s n w = (Ok (all_data, appraisal_data), w') →
  appraisal_data = [].
Proof.
  intros Hlt Hrun. unfold scrape_data in Hrun.
  apply bind_Ok_inv in Hrun as (pages_text & w1 & _ & Hrun).
  apply bind_Ok_inv in Hrun as (p & w2 & _ & Hrun).
  apply bind_Ok_inv in Hrun as (pages & w3 & _ & Hrun).
  apply bind_Ok_inv in Hrun as (all_data' & w4 & _ & Hrun).
  apply bind_Ok_inv in Hrun as (u & w5 & _ & Hrun).
  apply bind_Ok_inv in Hrun as (entries & w6 & Hentries & Hrun).
  apply bind_Ok_inv in Hrun as (app & w7 & Hloop & Hrun).
  apply lift_Ok_inv in Hentries as [Hentries ->].
  destruct n as [z| | |]; simpl in *; try done.
  inversion Hentries; subst entries.
  replace (Z.to_nat z) with 0%nat in Hloop by lia.
  rewrite details_loop_zero in Hloop.
  unfold ret in Hrun. inversion Hloop; inversion Hrun; by subst.
Qed.

End ScrapeResults.

(** ** [main] *)

Lemma safe_quit_eq s w :
  safe_quit s w = (Ok (), called w [DriverQuit; quit_log s w]).
Proof.
  unfold safe_quit, try_except, bind, ask, logging, emit, called, quit_log. simpl.
  destruct (quit_at s (tick w)) as [[]|]; simpl; by rewrite <- app_assoc.
Qed.

Section MainClaims.

Context (to_numeric : string → result numeric).
Context (transform_table : DataFrame → result DataFrame).

Lemma scrape_data_begins s n w :
  begins_with (LocateText number_pages) w
    (scrape_data to_numeric transform_table s n w).2.
Proof.
  unfold scrape_data. eapply begins_with_quiet; [apply get_text_default_begins|].
  apply bind_after. intros pages_text.
  quiet_step; [quiet|]. quiet_step; [quiet|].
  quiet_step; [apply results_loop_quiet|].
  quiet_step; [unfold safe_click, find_click_row; quiet|].
  quiet_step; [quiet|]. quiet_step; [apply details_loop_quiet|]. quiet.
Qed.

(** [main_try] up to the count. *)
Lemma main_try_searched s start end_ dates w :
  search_at s (tick w) = Ok () →
  main_try to_numeric transform_table s start end_ dates w
  = bind (check_reset_needed to_numeric s start end_ dates)
      (λ '(reset_needed, modified, dates, NUM_ENTRIES),
         if reset_needed : bool then
           bind (logging INFO "Reset needed, closing WebDriver.")
             (λ _, ret ([], [], dates, modified))
         else
           bind (emit (ScrapeData start end_)) (λ _,
           bind (scrape_data to_numeric transform_table s NUM_ENTRIES)
             (λ '(all_data, appraisal_data),
           bind (py_assert (bool_decide (all_data ≠ []))) (λ _,
           bind (py_assert (bool_decide (appraisal_data ≠ []))) (λ _,
           if bool_decide (all_data = []) then
             bind (logging ERROR "No data scraped from the website.")
               (λ _, ret ([], [], dates, modified))
           else
             bind (lift (set_columns result_columns (pd_concat all_data)))
               (λ all_data_df,
             bind (logging INFO "Completed the main scraping of property data.")
               (λ _, ret (all_data_df, pd_concat appraisal_data, dates, modified))))))))
      (searched w start end_).
Proof.
  intros Hsearch. unfold main_try.
  unfold bind at 1, ask at 1. rewrite Hsearch.
  unfold bind at 1, time_sleep at 1, emit at 1. simpl.
  by rewrite <- app_assoc.
Qed.

(** The rest of [main_try] once the count is accepted and [scrape_data]
    has returned. *)
Lemma main_try_scraped s start end_ dates w w1 w2 n all_data appraisal_data :
  search_at s (tick w) = Ok () →
  check_reset_needed to_numeric s start end_ dates (searched w start end_)
    = (Ok (false, false, dates, n), w1) →
  scrape_data to_numeric transform_table s n (scraping w1 start end_)
    = (Ok (all_data, appraisal_data), w2) →
  main_try to_numeric transform_table s start end_ dates w
  = if bool_decide (all_data ≠ []) then
      if bool_decide (appraisal_data ≠ []) then
        match set_columns result_columns (pd_concat all_data) with
        | Ok all_data_df =>
            (Ok (all_data_df, pd_concat appraisal_data, dates, false),
             World (heap w2)
               (trace w2 ++ [Log INFO "Completed the main scraping of property data."])
               (tick w2))
        | Raise e => (Raise e, w2)
        end
      else (Raise AssertionError, w2)
    else (Raise AssertionError, w2).
Proof.
  intros Hsearch Hcheck Hscrape.
  rewrite main_try_searched by done.
  rewrite (bind_Ok _ _ _ _ _ Hcheck).
  unfold bind at 1, emit at 1. fold (scraping w1 start end_).
  rewrite (bind_Ok _ _ _ _ _ Hscrape).
  unfold py_assert, bind, ret, raise, logging, emit.
  case_bool_decide as Hall; simpl; [|done].
  case_bool_decide as Happ; simpl; [|done].
  rewrite bool_decide_eq_false_2 by done.
  by destruct (set_columns result_columns (pd_concat all_data)).
Qed.

(** When the count is accepted and [scrape_data] raises, so does
    [main_try]. *)
Lemma main_try_scrape_raises s start end_ dates w w1 w2 n e :
  search_at s (tick w) = Ok () →
  check_reset_needed to_numeric s start end_ dates (searched w start end_)
    = (Ok (false, false, dates, n), w1) →
  scrape_data to_numeric transform_table s n (scraping w1 start end_) = (Raise e, w2) →
  main_try to_numeric transform_table s start end_ dates w = (Raise e, w2).
Proof.
  intros Hsearch Hcheck Hscrape.
  rewrite main_try_searched by done.
  rewrite (bind_Ok _ _ _ _ _ Hcheck).
  unfold bind at 1, emit at 1. fold (scraping w1 start end_).
  by rewrite (bind_Raise _ _ _ _ _ Hscrape).
Qed.

End MainClaims.

Section EmptyAndFailedRanges.

Context (to_numeric : string → result numeric).
Context (transform_table : DataFrame → result DataFrame).

(** The empty branch: a count below 1. *)
Lemma check_reset_needed_empty s start end_ dates w n w1 :
  read_total_entries to_numeric s w = (Ok n, w1) →
  num_ge n 1000 = false → num_lt n 1 = true →
  check_reset_needed to_numeric s start end_ dates w
  = (Ok (false, false, dates, n), gave_up s w1).
Proof.
  intros H Hge Hlt. unfold check_reset_needed.
  rewrite (bind_Ok _ _ _ _ _ H), Hge, Hlt.
  unfold bind at 1, logging at 1, emit at 1.
  unfold bind at 1. rewrite safe_quit_eq.
  unfold ret, called, gave_up, quit_log. simpl. by rewrite <- app_assoc.
Qed.

(** C3 fails on the code.  When the search of a range reports a count
    below 1, [check_reset_needed] logs that it moves to the next range and
    quits the driver, but [main] goes on as for an accepted range: it calls
    [scrape_data] on the range, which starts reading the number of pages
    from the driver that was quit, and [main] ends in an exception whatever
    the browser answers (with no entry to visit no detail table comes back,
    so an assertion fails when nothing else did).  The store, and with it
    the queue, is as it was: the range is not removed. *)
Theorem empty_range_is_scraped_and_raises
    (s : session) (start end_ : date) (dates : loc) (w w1 : world) (n : numeric) :
  search_at s (tick w) = Ok () →
  read_total_entries to_numeric s (searched w start end_) = (Ok n, w1) →
  num_ge n 1000 = false →
  num_lt n 1 = true →
  ∃ e w' evs,
    main_try to_numeric transform_table s start end_ dates w = (Raise e, w')
    ∧ heap w' = heap w
    ∧ trace w'
      = trace w1
        ++ [Log WARNING "Search parameters yielded no results. Moving to next date range.";
            DriverQuit; quit_log s w1;
            ScrapeData start end_; LocateText number_pages]
        ++ evs.
Proof.
  intros Hsearch Hread Hge Hlt.
  pose proof (check_reset_needed_empty s start end_ dates _ _ _ Hread Hge Hlt) as Hcheck.
  pose proof (scrape_data_quiet to_numeric transform_table s n
                (scraping (gave_up s w1) start end_)) as (Hh & _ & _).
  pose proof (scrape_data_begins to_numeric transform_table s n
                (scraping (gave_up s w1) start end_)) as (evs & Hevs).
  pose proof (read_total_entries_reading to_numeric s (searched w start end_)) as Hq.
  rewrite Hread in Hq. destruct Hq as (Hh1 & _). simpl in Hh1, Hh, Hevs.
  destruct (scrape_data to_numeric transform_table s n
              (scraping (gave_up s w1) start end_))
    as [[[all_data appraisal_data]|e] w2] eqn:Hscrape; simpl in *.
  - pose proof (scrape_data_no_entries _ _ _ _ _ _ _ _ Hlt Hscrape) as ->.
    exists AssertionError, w2, evs.
    rewrite (main_try_scraped _ _ _ _ _ _ _ _ _ _ _ _ Hsearch Hcheck Hscrape).
    split.
    + case_bool_decide; [|done]. by rewrite bool_decide_eq_false_2 by (intros H'; by apply H').
    + split; [congruence|]. rewrite Hevs. by rewrite <- !app_assoc.
  - exists e, w2, evs.
    rewrite (main_try_scrape_raises _ _ _ _ _ _ _ _ _ _ _ Hsearch Hcheck Hscrape).
    split; [done|]. split; [congruence|]. rewrite Hevs. by rewrite <- !app_assoc.
Qed.

(** C6 fails on the code.  When the count of a range is accepted and
    [scrape_data] comes back with no listing table at all, [main] fails the
    assertion [assert all_data, "No all_data returned!"]: it raises
    [AssertionError] in the world [scrape_data] left, so that the branch
    that logs "No data scraped from the website." and returns empty frames
    is never reached. *)
Theorem no_listing_fails_the_assertion
    (s : session) (start end_ : date) (dates : loc) (w w1 w2 : world)
    (n : numeric) (appraisal_data : list DataFrame) :
  search_at s (tick w) = Ok () →
  check_reset_needed to_numeric s start end_ dates (searched w start end_)
    = (Ok (false, false, dates, n), w1) →
  scrape_data to_numeric transform_table s n (scraping w1 start end_)
    = (Ok ([], appraisal_data), w2) →
  main_try to_numeric transform_table s start end_ dates w
    = (Raise AssertionError, w2)
  ∧ try_finally (main_try to_numeric transform_table s start end_ dates)
      (safe_quit s) w
    = (Raise AssertionError, called w2 [DriverQuit; quit_log s w2]).
Proof.
  intros Hsearch Hcheck Hscrape.
  assert (main_try to_numeric transform_table s start end_ dates w
          = (Raise AssertionError, w2)) as Hmain.
  { rewrite (main_try_scraped _ _ _ _ _ _ _ _ _ _ _ _ Hsearch Hcheck Hscrape).
    by rewrite bool_decide_eq_false_2 by (intros H'; by apply H'). }
  split; [done|].
  rewrite try_finally_safe_quit, Hmain. simpl. by rewrite safe_quit_eq.
Qed.

End EmptyAndFailedRanges.

(** The second half of 2020 with no entry at all. *)
Lemma empty_range_is_scraped_and_raises_witness :
  ∃ e w' evs,
    main_try int_literal Ok
      (sample_session "Showing 0 to 0 of 0 entries" "1" None None)
      183 365 1%positive year_world
    = (Raise e, w')
    ∧ heap w' = heap year_world
    ∧ trace w'
      = trace (read_total_entries int_literal
                 (sample_session "Showing 0 to 0 of 0 entries" "1" None None)
                 (searched year_world 183 365)).2
        ++ [Log WARNING "Search parameters yielded no results. Moving to next date range.";
            DriverQuit;
            quit_log (sample_session "Showing 0 to 0 of 0 entries" "1" None None)
              (read_total_entries int_literal
                 (sample_session "Showing 0 to 0 of 0 entries" "1" None None)
                 (searched year_world 183 365)).2;
            ScrapeData 183 365; LocateText number_pages]
        ++ evs.
Proof.
  apply (empty_range_is_scraped_and_raises int_literal Ok
           (sample_session "Showing 0 to 0 of 0 entries" "1" None None)
           183 365 1%positive year_world
           (read_total_entries int_literal
              (sample_session "Showing 0 to 0 of 0 entries" "1" None None)
              (searched year_world 183 365)).2
           (NInt 0)); reflexivity.
Defined.

(** The whole loop on a year with no entry: the first pass ends the run
    with [AssertionError]; the range is still in the queue and no file was
    written. *)
Example empty_year_crashes :
  ∃ w,
    steps int_literal true Ok (λ all_data _, Ok all_data)
      (sample_site (sample_session "Showing 0 to 0 of 0 entries" "1" None None))
      2 (year_start (World ∅ [] 0) 0 365)
    = Crashed AssertionError w
    ∧ heap w !! 1%positive = Some [(0, 365)]
    ∧ saved (trace w) = [].
Proof. eexists. split; [|split]; vm_compute; reflexivity. Qed.

(** Three entries reported and no listing table. *)
Lemma no_listing_fails_the_assertion_witness :
  main_try int_literal Ok
    (sample_session "Showing 1 to 3 of 3 entries" "1" None None)
    0 365 1%positive year_world
  = (Raise AssertionError,
     (scrape_data int_literal Ok
        (sample_session "Showing 1 to 3 of 3 entries" "1" None None) (NInt 3)
        (scraping
           (check_reset_needed int_literal
              (sample_session "Showing 1 to 3 of 3 entries" "1" None None)
              0 365 1%positive (searched year_world 0 365)).2
           0 365)).2).
Proof.
  apply (no_listing_fails_the_assertion int_literal Ok
           (sample_session "Showing 1 to 3 of 3 entries" "1" None None)
           0 365 1%positive year_world
           (check_reset_needed int_literal
              (sample_session "Showing 1 to 3 of 3 entries" "1" None None)
              0 365 1%positive (searched year_world 0 365)).2
           (scrape_data int_literal Ok
              (sample_session "Showing 1 to 3 of 3 entries" "1" None None) (NInt 3)
              (scraping
                 (check_reset_needed int_literal
                    (sample_session "Showing 1 to 3 of 3 entries" "1" None None)
                    0 365 1%positive (searched year_world 0 365)).2
                 0 365)).2
           (NInt 3) []); vm_compute; reflexivity.
Defined.

(** The whole loop on that input: the run ends with [AssertionError], the
    failure "No data scraped from the website." is not logged, the range is
    still in the queue. *)
Example no_listing_crashes :
  ∃ w,
    steps int_literal true Ok (λ all_data _, Ok all_data)
      (sample_site (sample_session "Showing 1 to 3 of 3 entries" "1" None None))
      2 (year_start (World ∅ [] 0) 0 365)
    = Crashed AssertionError w
    ∧ heap w !! 1%positive = Some [(0, 365)]
    ∧ Log ERROR "No data scraped from the website." ∉ trace w.
Proof.
  eexists. split; [vm_compute; reflexivity|]. split; [vm_compute; reflexivity|].
  intros H. repeat (apply elem_of_cons in H as [H|H]; [discriminate H|]).
  by apply elem_of_nil in H.
Qed.

(** ** The queue as a partition *)

Lemma scraped_app tr1 tr2 : scraped (tr1 ++ tr2) = scraped tr1 ++ scraped tr2.
Proof.
  induction tr1 as [|e tr1 IH]; [done|].
  destruct e; simpl; by rewrite ?IH.
Qed.

Lemma scraped_ordinary evs : Forall ordinary evs → scraped evs = [].
Proof. induction 1 as [|e evs He _ IH]; [done|]. by destruct e. Qed.

Lemma quiet_scraped w w' :
  quiet ordinary w w' → scraped (trace w') = scraped (trace w).
Proof.
  intros (_ & _ & evs & -> & Hevs).
  by rewrite scraped_app, (scraped_ordinary _ Hevs), app_nil_r.
Qed.

Lemma chain_le from l to : chain from l to → from ≤ to + 1.
Proof.
  revert from. induction l as [|[s e] l IH]; simpl; intros from.
  - lia.
  - intros (_ & Hle & Hl). apply IH in Hl. lia.
Qed.

Lemma chain_app from l1 l2 to :
  chain from (l1 ++ l2) to ↔ ∃ mid, chain from l1 (mid - 1) ∧ chain mid l2 to.
Proof.
  revert from. induction l1 as [|[s e] l1 IH]; simpl; intros from.
  - split.
    + intros H. exists from. split; [lia|done].
    + intros (mid & Hm & H). by replace from with mid by lia.
  - rewrite IH. split.
    + intros (? & ? & mid & ? & ?). eauto 10.
    + intros (mid & (? & ? & ?) & ?). eauto 10.
Qed.

(** Splitting the first range of a chain at its midpoint keeps the chain. *)
Lemma chain_split from start end_ rest to :
  chain from ((start, end_) :: rest) to →
  let midpoint := start + (end_ - start) / 2 in
  chain from ((start, midpoint) :: (midpoint + 1, end_) :: rest) to.
Proof.
  simpl. intros (-> & Hle & Hrest).
  assert (-1 ≤ (end_ - from) / 2 ≤ end_ - from).
  { split.
    - apply Z.div_le_lower_bound; lia.
    - destruct (decide (end_ - from = -1)) as [->|]; [done|].
      apply Z.div_le_upper_bound; lia. }
  split_and!; [done|lia|done|lia|done].
Qed.

(** A chain covers each day from [from] to [to] once and no other day. *)
Lemma chain_covering from l to d :
  chain from l to →
  covering d l = if bool_decide (from ≤ d ≤ to) then 1%nat else 0%nat.
Proof.
  unfold covering. revert from. induction l as [|[s e] l IH]; simpl; intros from.
  - intros ->. rewrite bool_decide_eq_false_2 by lia. done.
  - intros (-> & Hle & Hl). pose proof (chain_le _ _ _ Hl) as Hto.
    rewrite filter_cons. specialize (IH _ Hl).
    unfold covers at 1. simpl.
    destruct (decide (from ≤ d ≤ e)) as [Hd|Hd]; simpl; rewrite IH.
    + rewrite bool_decide_eq_false_2 by lia.
      by rewrite bool_decide_eq_true_2 by lia.
    + destruct (decide (e + 1 ≤ d ≤ to)).
      * rewrite !bool_decide_eq_true_2 by lia. done.
      * rewrite !bool_decide_eq_false_2 by lia. done.
Qed.

(** ** Detail tables are not empty *)

Lemma set_cell_not_nil name value r : set_cell name value r ≠ [].
Proof.
  unfold set_cell. case_bool_decide as Hin.
  - destruct r; [by apply elem_of_nil in Hin|done].
  - by destruct r.
Qed.

Lemma assign_column_not_empty name value df :
  df ≠ [] → df_empty (assign_column name value df) = false.
Proof.
  destruct df as [|r df]; [done|]. intros _. simpl.
  rewrite bool_decide_eq_false_2; [done|]. apply set_cell_not_nil.
Qed.

Lemma assign_column_not_nil name value df :
  df ≠ [] → assign_column name value df ≠ [].
Proof. by destruct df. Qed.

Lemma df_empty_concat (frames : list DataFrame) :
  frames ≠ [] → Forall (λ t, df_empty t = false) frames →
  df_empty (pd_concat frames) = false.
Proof.
  intros Hne Hall. destruct Hall as [|t frames Ht _]; [done|].
  unfold pd_concat, df_empty in *. simpl. rewrite forallb_app, Ht. done.
Qed.

Section DetailTables.

Context (to_numeric : string → result numeric).
Context (transform_table : DataFrame → result DataFrame).

(** A detail page transformed has at least one row: it is one detail
    record. *)
Hypothesis transform_table_rows :
  ∀ t t', transform_table t = Ok t' → t' ≠ [].

Lemma extract_property_details_not_empty s w t w' :
  extract_property_details transform_table s w = (Ok (Some t), w') →
  df_empty t = false.
Proof.
  unfold extract_property_details, try_except.
  match goal with |- context [match ?m w with _ => _ end] =>
    destruct (m w) as [[r|e] w1] eqn:Hrun end.
  2: { unfold bind, logging, emit, ret. simpl. intros H. inversion H. }
  intros H. inversion H; subst r w1. clear H.
  apply bind_Ok_inv in Hrun as (parcel_text & w1 & _ & Hrun).
  destruct (_ || _) in Hrun.
  { apply bind_Ok_inv in Hrun as (? & ? & _ & Hrun). inversion Hrun. }
  apply bind_Ok_inv in Hrun as (table & w2 & _ & Hrun).
  destruct table as [table|].
  2: { apply bind_Ok_inv in Hrun as (? & ? & _ & Hrun). inversion Hrun. }
  destruct (df_empty table).
  { apply bind_Ok_inv in Hrun as (? & ? & _ & Hrun). inversion Hrun. }
  apply bind_Ok_inv in Hrun as (table' & w3 & Htrans & Hrun).
  apply lift_Ok_inv in Htrans as [Htrans ->].
  apply bind_Ok_inv in Hrun as (district & w4 & _ & Hrun).
  apply bind_Ok_inv in Hrun as (owner_text & w5 & _ & Hrun).
  inversion Hrun; subst. clear Hrun.
  apply assign_column_not_empty, assign_column_not_nil, assign_column_not_nil.
  apply transform_table_rows in Htrans.
  unfold rename_column, drop_columns. by destruct table'.
Qed.

Lemma details_loop_not_empty s n : ∀ appraisal_data w appraisal_data' w',
  Forall (λ t, df_empty t = false) appraisal_data →
  details_loop transform_table s appraisal_data n w = (Ok appraisal_data', w') →
  Forall (λ t, df_empty t = false) appraisal_data'.
Proof.
  induction n as [|n IH]; intros app w app' w' Hall Hrun; simpl in Hrun.
  - inversion Hrun. by subst.
  - apply bind_Ok_inv in Hrun as (? & w1 & _ & Hrun).
    apply bind_Ok_inv in Hrun as (table & w2 & Hext & Hrun).
    apply bind_Ok_inv in Hrun as (app1 & w3 & Happ & Hrun).
    apply bind_Ok_inv in Hrun as (? & w4 & _ & Hrun).
    apply bind_Ok_inv in Hrun as (more & w5 & _ & Hrun).
    assert (Forall (λ t, df_empty t = false) app1) as Hall1.
    { destruct table as [t|].
      - inversion Happ; subst. apply Forall_app. split; [done|].
        apply Forall_singleton. by eapply extract_property_details_not_empty.
      - apply bind_Ok_inv in Happ as (? & ? & _ & Happ).
        inversion Happ. by subst. }
    destruct more; simpl in Hrun.
    + by eapply IH.
    + inversion Hrun. by subst.
Qed.

Lemma scrape_data_not_empty s n w all_data appraisal_data w' :
  scrape_data to_numeric transform_table s n w = (Ok (all_data, appraisal_data), w') →
  Forall (λ t, df_empty t = false) appraisal_data.
Proof.
  intros Hrun. unfold scrape_data in Hrun.
  apply bind_Ok_inv in Hrun as (pages_text & w1 & _ & Hrun).
  apply bind_Ok_inv in Hrun as (p & w2 & _ & Hrun).
  apply bind_Ok_inv in Hrun as (pages & w3 & _ & Hrun).
  apply bind_Ok_inv in Hrun as (all_data' & w4 & _ & Hrun).
  apply bind_Ok_inv in Hrun as (u & w5 & _ & Hrun).
  apply bind_Ok_inv in Hrun as (entries & w6 & _ & Hrun).
  apply bind_Ok_inv in Hrun as (app & w7 & Hloop & Hrun).
  inversion Hrun; subst. by eapply details_loop_not_empty.
Qed.

End DetailTables.

(** ** One pass of [main] *)

Lemma scraped_searched w start end_ :
  scraped (trace (searched w start end_)) = scraped (trace w).
Proof. simpl. by rewrite scraped_app, app_nil_r. Qed.

Lemma scraped_scraping w start end_ :
  scraped (trace (scraping w start end_)) = scraped (trace w) ++ [(start, end_)].
Proof. simpl. by rewrite scraped_app. Qed.

Lemma gave_up_quiet s w : quiet ordinary w (gave_up s w).
Proof.
  split; [done|]. split; [simpl; lia|]. eexists. split; [reflexivity|].
  repeat constructor. unfold quit_log. by destruct (quit_at s (tick w)).
Qed.

Section OnePass.

Context (to_numeric : string → result numeric).
Context (base_url_valid : bool).
Context (transform_table : DataFrame → result DataFrame).

Hypothesis transform_table_rows :
  ∀ t t', transform_table t = Ok t' → t' ≠ [].

Lemma check_reset_needed_not_overflow s start end_ dates w n w1 :
  read_total_entries to_numeric s w = (Ok n, w1) →
  num_ge n 1000 = false →
  ∃ w2, check_reset_needed to_numeric s start end_ dates w
        = (Ok (false, false, dates, n), w2)
        ∧ quiet ordinary w1 w2.
Proof.
  intros Hread Hge. destruct (num_lt n 1) eqn:Hlt.
  - exists (gave_up s w1). split; [by apply check_reset_needed_empty|].
    apply gave_up_quiet.
  - exists w1. split; [by apply check_reset_needed_accepted|]. apply quiet_refl.
Qed.

Lemma main_try_cases s start end_ dates rest w :
  heap w !! dates = Some ((start, end_) :: rest) →
  pass_result start end_ dates rest w
    (main_try to_numeric transform_table s start end_ dates w).1
    (main_try to_numeric transform_table s start end_ dates w).2.
Proof.
  intros Hl.
  destruct (search_at s (tick w)) as [[]|e] eqn:Hsearch.
  2: { unfold main_try, bind at 1, ask at 1. rewrite Hsearch. simpl. done. }
  pose proof (read_total_entries_reading to_numeric s (searched w start end_)) as Hq.
  destruct (read_total_entries to_numeric s (searched w start end_))
    as [[n|e] w1] eqn:Hread.
  2: { rewrite main_try_searched by done.
       erewrite bind_Raise by (by apply check_reset_needed_raise). done. }
  apply (quiet_weaken _ ordinary) in Hq; [|apply reading_ordinary].
  pose proof (quiet_scraped _ _ Hq) as Hs1. destruct Hq as (Hh1 & _).
  simpl in Hh1, Hs1. rewrite scraped_app, app_nil_r in Hs1.
  destruct (num_ge n 1000) eqn:Hge.
  - rewrite main_try_searched by done.
    assert (heap w1 !! dates = Some ((start, end_) :: rest)) as Hl1 by by rewrite Hh1.
    pose proof (check_reset_needed_overflow to_numeric s start end_ dates _ _ _ _
                  Hread Hge Hl1) as Hcheck.
    simpl in Hcheck. rewrite bool_decide_eq_true_2 in Hcheck by done.
    rewrite (bind_Ok _ _ _ _ _ Hcheck). simpl. left.
    split; [done|]. split; [by rewrite lookup_insert_eq|].
    by rewrite !scraped_app, !app_nil_r.
  - destruct (check_reset_needed_not_overflow s start end_ dates _ _ _ Hread Hge)
      as (w2 & Hcheck & Hq2).
    pose proof (quiet_scraped _ _ Hq2) as Hs2. destruct Hq2 as (Hh2 & _).
    pose proof (scrape_data_quiet to_numeric transform_table s n
                  (scraping w2 start end_)) as Hq3.
    pose proof (quiet_scraped _ _ Hq3) as Hs3. destruct Hq3 as (Hh3 & _).
    rewrite scraped_scraping in Hs3. simpl in Hh3.
    destruct (scrape_data to_numeric transform_table s n (scraping w2 start end_))
      as [[[all_data appraisal_data]|e] w3] eqn:Hscrape; simpl in *.
    2: { by erewrite main_try_scrape_raises by eassumption. }
    erewrite main_try_scraped by eassumption.
    case_bool_decide as Hall; [|done].
    case_bool_decide as Happ; [|done].
    destruct (set_columns result_columns (pd_concat all_data)); [|done].
    simpl. right. split_and!; [done|done|congruence| |].
    + rewrite scraped_app, app_nil_r. congruence.
    + apply df_empty_concat; [done|].
      by eapply scrape_data_not_empty.
Qed.

End OnePass.

(** ** The loop of a year *)

Section Loop.

Context (to_numeric : string → result numeric).
Context (base_url_valid : bool).
Context (transform_table : DataFrame → result DataFrame).
Context (consolidate : DataFrame → DataFrame → result DataFrame).

Hypothesis transform_table_rows :
  ∀ t t', transform_table t = Ok t' → t' ≠ [].

Lemma init_driver_loop_quiet b n : ∀ driver,
  has_post (quiet ordinary) (init_driver_loop b driver n).
Proof.
  induction n as [|n IH]; intros driver; simpl.
  - quiet_step; [|quiet]. destruct driver; [apply safe_quit_quiet|quiet].
  - quiet_step; [quiet|]. destruct a as [s|s e|e].
    + quiet.
    + destruct (is_WebDriverException e); [|quiet].
      quiet_step; [quiet|]. quiet_step; [quiet|]. apply IH.
    + destruct (is_WebDriverException e); [|quiet].
      quiet_step; [quiet|]. quiet_step; [quiet|]. apply IH.
Qed.

Lemma init_driver_quiet b : has_post (quiet ordinary) (init_driver base_url_valid b).
Proof.
  unfold init_driver. destruct base_url_valid; cbn [negb].
  - apply init_driver_loop_quiet.
  - quiet.
Qed.

Lemma pass_result_quiet start end_ dates rest w w0 r w1 w' :
  quiet ordinary w w0 → quiet ordinary w1 w' →
  pass_result start end_ dates rest w0 r w1 →
  pass_result start end_ dates rest w r w'.
Proof.
  intros Hq0 Hq1. pose proof (quiet_scraped _ _ Hq0) as Hs0.
  pose proof (quiet_scraped _ _ Hq1) as Hs1.
  destruct Hq0 as (Hh0 & _), Hq1 as (Hh1 & _).
  destruct r as [[[[all_df app_df] dates'] modified]|e]; [|done]. simpl.
  intros [(-> & Hl & Hs)|(-> & -> & Hh & Hs & Hne)]; [left|right].
  - split_and!; [done| |congruence]. by rewrite Hh1.
  - split_and!; [done|done|congruence|congruence|done].
Qed.

Lemma main_cases b allowed start end_ dates rest w r w' :
  heap w !! dates = Some ((start, end_) :: rest) →
  main to_numeric base_url_valid transform_table b allowed start end_ dates w
    = (r, w') →
  pass_result start end_ dates rest w r w'.
Proof.
  intros Hl Hrun. unfold main in Hrun.
  pose proof (init_driver_quiet b w) as Hq0. unfold bind at 1 in Hrun.
  destruct (init_driver base_url_valid b w) as [[s|e] w0]; simpl in Hq0.
  2: { inversion Hrun. done. }
  set (check := if negb allowed
                then bind (ask CheckAllowed (allowed_at s)) (λ _, ret ())
                else ret ()) in Hrun.
  assert (has_post (quiet ordinary) check) as Hcheck.
  { subst check. destruct allowed; simpl; quiet. }
  specialize (Hcheck w0). unfold bind at 1 in Hrun.
  destruct (check w0) as [[[]|e] w1]; simpl in Hcheck.
  2: { inversion Hrun. done. }
  rewrite try_finally_safe_quit in Hrun. inversion Hrun; subst r w'. clear Hrun.
  eapply pass_result_quiet; [eapply quiet_trans; eassumption|apply safe_quit_quiet|].
  apply main_try_cases; [done|].
  destruct Hq0 as (Hh0 & _), Hcheck as (Hh1 & _). by rewrite Hh1, Hh0.
Qed.

Lemma final_csv_conversion_cases b all_data_df appraisal_data_df dates
    start_date end_date (rest : list DateRange) w :
  df_empty appraisal_data_df = false →
  heap w !! dates = Some ((start_date, end_date) :: rest) →
  match final_csv_conversion consolidate b all_data_df appraisal_data_df dates
          start_date end_date w with
  | (Ok _, w') =>
      heap w' !! dates = Some rest ∧ scraped (trace w') = scraped (trace w)
  | (Raise _, _) => True
  end.
Proof.
  intros Hne Hl. unfold final_csv_conversion. rewrite Hne.
  unfold bind, logging, emit, lift, get_list, put_list, save_to_csv, try_except,
    bind, ask, logging, emit, ret, raise. cbn [heap trace tick].
  destruct (consolidate all_data_df appraisal_data_df); cbn [heap trace tick]; [|done].
  unfold DateRange in *. rewrite Hl. cbn [py_remove heap trace tick].
  rewrite bool_decide_eq_true_2 by done. cbn [heap trace tick].
  destruct (save_at b (tick w)); cbn [heap trace tick]; [|done].
  destruct (save_at b (S (tick w))); cbn [heap trace tick]; [|done].
  split; [by rewrite lookup_insert_eq|].
  by rewrite !scraped_app, !app_nil_r.
Qed.

Lemma step_inv first last b c :
  queue_inv first last c →
  outcome_inv first last
    (step to_numeric base_url_valid transform_table consolidate b c).
Proof.
  intros (queue & Hl & Hpending & Hchain).
  destruct c as [w dates pend]. simpl in *. unfold step. simpl.
  destruct Hpending as [->| ->].
  - unfold get_list. rewrite Hl. destruct queue as [|r queue].
    + simpl. by rewrite app_nil_r in Hchain.
    + simpl. exists (r :: queue). split_and!; [done|by right|].
      simpl. by rewrite scraped_app, app_nil_r.
  - destruct queue as [|[start_date end_date] rest].
    + simpl. exists []. auto.
    + destruct (main to_numeric base_url_valid transform_table b false
                  start_date end_date dates w)
        as [[[[[all_data appraisal_data] dates'] modified]|e] w1] eqn:Hmain; [|done].
      apply (main_cases _ _ _ _ _ rest) in Hmain as Hpass; [|done].
      simpl in Hpass.
      destruct Hpass as [(-> & Hl1 & Hs1)|(-> & -> & Hh1 & Hs1 & Hne)].
      * simpl. eexists. split_and!; [exact Hl1|by left|].
        simpl. rewrite Hs1. apply chain_app in Hchain as (mid & Hc1 & Hc2).
        apply chain_app. exists mid. split; [done|]. by apply chain_split.
      * unfold pd_concat. simpl. rewrite !app_nil_r.
        assert (heap w1 !! dates = Some ((start_date, end_date) :: rest)) as Hl1
          by by rewrite Hh1.
        pose proof (final_csv_conversion_cases b all_data appraisal_data dates
                      start_date end_date rest w1 Hne Hl1) as Hfinal.
        destruct (final_csv_conversion consolidate b all_data appraisal_data dates
                    start_date end_date w1) as [[[]|e] w2]; [|done].
        destruct Hfinal as (Hl2 & Hs2). simpl.
        exists rest. split_and!; [done|by right|].
        simpl. by rewrite Hs2, Hs1, <- app_assoc.
Qed.

Lemma steps_inv first last b n : ∀ c,
  queue_inv first last c →
  outcome_inv first last
    (steps to_numeric base_url_valid transform_table consolidate b n c).
Proof.
  induction n as [|n IH]; intros c Hinv; [done|]. simpl.
  pose proof (step_inv first last b c Hinv) as Hstep.
  destruct (step to_numeric base_url_valid transform_table consolidate b c); [|done..].
  by apply IH.
Qed.

Lemma year_start_inv first last h t :
  first ≤ last → queue_inv first last (year_start (World h [] t) first last).
Proof.
  intros Hle. exists [(first, last)]. simpl.
  split; [by rewrite lookup_insert_eq|]. split; [by left|]. simpl. lia.
Qed.

End Loop.

(** How often a range occurs in a list of ranges, and how often a day is
    covered, compare: a range that covers a day cannot occur more often
    than the day is covered. *)
Lemma occurrences_covering (r : DateRange) (d : date) (l : list DateRange) :
  covers r d → (occurrences r l ≤ covering d l)%nat.
Proof.
  intros Hd. unfold occurrences, covering.
  induction l as [|x l IH]; [done|].
  rewrite !filter_cons.
  destruct (decide (x = r)) as [->|Hne].
  - rewrite decide_True by done. simpl. lia.
  - destruct (decide (covers x d)); simpl; lia.
Qed.

Lemma chain_occurrences from l to (r : DateRange) :
  chain from l to → r.1 ≤ r.2 → (occurrences r l ≤ 1)%nat.
Proof.
  intros Hchain Hr.
  pose proof (occurrences_covering r r.1 l) as Hle.
  rewrite (chain_covering _ _ _ r.1 Hchain) in Hle.
  assert (covers r r.1) as Hc by (unfold covers; lia).
  specialize (Hle Hc). case_bool_decide; lia.
Qed.

(** C4, as the code has it.  Take the loop of a year that runs from day
    [first] to day [last], and a detail transformation that never yields a
    table without rows.  After any number of steps, whatever the browser and
    the disk answer, as long as the loop is running the ranges scraped so
    far followed by the queue of pending ranges run from [first] to [last]
    without gap or overlap: each day of the year lies in exactly one of them
    (so no day is scraped twice, none is both scraped and pending, none is
    lost), no other day lies in any, and no range that holds a day occurs
    twice among them.  When the loop has finished, the same holds of the
    scraped ranges alone.  (A range that holds no day, [(d + 1, d)], can
    occur more than once.) *)
Theorem queue_partitions_the_year
    (to_numeric : string → result numeric) (base_url_valid : bool)
    (transform_table : DataFrame → result DataFrame)
    (consolidate : DataFrame → DataFrame → result DataFrame)
    (b : site) (h : gmap loc (list DateRange)) (t : nat)
    (first last : date) (n : nat) :
  (∀ t t', transform_table t = Ok t' → t' ≠ []) →
  first ≤ last →
  match steps to_numeric base_url_valid transform_table consolidate b n
          (year_start (World h [] t) first last) with
  | Running c =>
      ∃ queue,
        heap (cw c) !! dates_var c = Some queue
        ∧ chain first (scraped (trace (cw c)) ++ queue) last
        ∧ (∀ d, covering d (scraped (trace (cw c)) ++ queue)
                = if bool_decide (first ≤ d ≤ last) then 1%nat else 0%nat)
        ∧ (∀ r : DateRange, r.1 ≤ r.2 →
             (occurrences r (scraped (trace (cw c)) ++ queue) ≤ 1)%nat)
  | Finished w =>
      chain first (scraped (trace w)) last
      ∧ (∀ d, covering d (scraped (trace w))
              = if bool_decide (first ≤ d ≤ last) then 1%nat else 0%nat)
      ∧ (∀ r : DateRange, r.1 ≤ r.2 → (occurrences r (scraped (trace w)) ≤ 1)%nat)
  | Crashed _ _ => True
  end.
Proof.
  intros Hrows Hle.
  pose proof (steps_inv to_numeric base_url_valid transform_table consolidate
                Hrows first last b n _ (year_start_inv first last h t Hle)) as Hinv.
  destruct (steps to_numeric base_url_valid transform_table consolidate b n
              (year_start (World h [] t) first last)) as [c|w|e w]; simpl in Hinv.
  - destruct Hinv as (queue & Hl & _ & Hchain). exists queue.
    split_and!; [done..| |].
    + intros d. by apply chain_covering.
    + intros r Hr. by eapply chain_occurrences.
  - split_and!; [done| |].
    + intros d. by apply chain_covering.
    + intros r Hr. by eapply chain_occurrences.
  - done.
Qed.

(** ** A sample year *)

Lemma one_record_rows t t' : one_record t = Ok t' → t' ≠ [].
Proof. unfold one_record. intros H. inversion H. done. Qed.

Lemma queue_partitions_the_year_witness :
  match steps int_literal true one_record (λ all_data _, Ok all_data)
          sample_year_site 4 (year_start (World ∅ [] 0) 0 365) with
  | Running c =>
      ∃ queue,
        heap (cw c) !! dates_var c = Some queue
        ∧ chain 0 (scraped (trace (cw c)) ++ queue) 365
        ∧ (∀ d, covering d (scraped (trace (cw c)) ++ queue)
                = if bool_decide (0 ≤ d ≤ 365) then 1%nat else 0%nat)
        ∧ (∀ r : DateRange, r.1 ≤ r.2 →
             (occurrences r (scraped (trace (cw c)) ++ queue) ≤ 1)%nat)
  | Finished w =>
      chain 0 (scraped (trace w)) 365
      ∧ (∀ d, covering d (scraped (trace w))
              = if bool_decide (0 ≤ d ≤ 365) then 1%nat else 0%nat)
      ∧ (∀ r : DateRange, r.1 ≤ r.2 → (occurrences r (scraped (trace w)) ≤ 1)%nat)
  | Crashed _ _ => True
  end.
Proof.
  apply (queue_partitions_the_year int_literal true one_record
           (λ all_data _, Ok all_data) sample_year_site ∅ 0 0 365 4).
  - apply one_record_rows.
  - lia.
Defined.

(** C4 as stated fails in two ways.  On a machine that reports 1,234
    entries until the first day of the year stands alone and is split once,
    and once more for the empty range [(1, 0)] that the split leaves, the
    queue comes to hold [(1, 0)] twice, and the year finishes with [(1, 0)]
    scraped twice.  And when the detail transformation yields a table
    without rows, the year is scraped again and again while it stays in the
    queue. *)
Lemma range_scraped_twice :
  (∃ c, steps int_literal true one_record (λ all_data _, Ok all_data)
          flaky_site 23 (year_start (World ∅ [] 0) 0 365) = Running c
        ∧ heap (cw c) !! dates_var c
          = Some [(1, 0); (1, 0); (1, 1); (2, 2); (3, 5); (6, 11); (12, 22);
                  (23, 45); (46, 91); (92, 182); (183, 365)]
        ∧ scraped (trace (cw c)) = [(0, 0)])
  ∧ (∃ w, steps int_literal true one_record (λ all_data _, Ok all_data)
            flaky_site 37 (year_start (World ∅ [] 0) 0 365) = Finished w
          ∧ scraped (trace w)
            = [(0, 0); (1, 0); (1, 0); (1, 1); (2, 2); (3, 5); (6, 11); (12, 22);
               (23, 45); (46, 91); (92, 182); (183, 365)]
          ∧ occurrences (1, 0) (scraped (trace w)) = 2%nat)
  ∧ (∃ c, steps int_literal true (λ _, Ok []) (λ all_data _, Ok all_data)
            (sample_site sample_detail_session) 5 (year_start (World ∅ [] 0) 0 365)
          = Running c
          ∧ heap (cw c) !! dates_var c = Some [(0, 365)]
          ∧ scraped (trace (cw c)) = [(0, 365); (0, 365)]
          ∧ saved (trace (cw c)) = []).
Proof.
  split_and!; eexists; (split; [vm_compute; reflexivity|]);
    split_and!; vm_compute; reflexivity.
Qed.

(** The sample year step by step: the year is split at July 1st, the first
    half is scraped and leaves the queue, then the second; the loop
    finishes with both halves scraped and four files written. *)
Example sample_year_runs :
  (∃ c, steps int_literal true one_record (λ all_data _, Ok all_data)
          sample_year_site 4 (year_start (World ∅ [] 0) 0 365) = Running c
        ∧ heap (cw c) !! dates_var c = Some [(183, 365)]
        ∧ scraped (trace (cw c)) = [(0, 182)])
  ∧ (∃ w, steps int_literal true one_record (λ all_data _, Ok all_data)
            sample_year_site 7 (year_start (World ∅ [] 0) 0 365) = Finished w
          ∧ scraped (trace w) = [(0, 182); (183, 365)]
          ∧ length (saved (trace w)) = 4%nat).
Proof.
  split; eexists; (split; [|split]); vm_compute; reflexivity.
Qed.

(** ** A range that stays over the threshold *)

Section Overflow.

Context (to_numeric : string → result numeric).
Context (transform_table : DataFrame → result DataFrame).
Context (consolidate : DataFrame → DataFrame → result DataFrame).

Lemma init_driver_started b w s :
  launch_at b (tick w) = Started s →
  init_driver true b w
  = (Ok s, called w [Launch; Log INFO "Driver initialized and navigated to the base URL."]).
Proof.
  intros Hs. unfold init_driver. cbn [negb init_driver_loop].
  unfold bind at 1, ask at 1. rewrite Hs.
  unfold bind, logging, emit, ret, called. simpl. by rewrite <- app_assoc.
Qed.

Lemma read_total_entries_overflows s w :
  overflows to_numeric s →
  ∃ n w1, read_total_entries to_numeric s w = (Ok n, w1)
          ∧ num_ge n 1000 = true ∧ heap w1 = heap w.
Proof.
  intros (_ & _ & Htext). destruct (Htext (tick w)) as (raw & tok & n & Hraw & Htok & Hn & Hge).
  exists n, (get_text_default s search_results_number w).2.
  rewrite read_total_entries_eq.
  pose proof (get_text_default_reading s search_results_number w) as (Hh & _).
  unfold get_text_default, get_text in *. rewrite get_text_loop_S, Hraw in *.
  simpl in *. rewrite Htok, Hn. split; [reflexivity|]. split; [exact Hge|reflexivity].
Qed.

(** On such a machine a pass on the first range of the queue raises
    nothing: it comes back with [modified = True] and a new queue in which
    the range is split in two. *)
Lemma overflow_pass b start end_ dates (rest : list DateRange) w :
  always_overflows to_numeric b →
  heap w !! dates = Some ((start, end_) :: rest) →
  ∃ updated_dates w',
    main to_numeric true transform_table b false start end_ dates w
    = (Ok ([], [], updated_dates, true), w')
    ∧ heap w' !! updated_dates
      = Some ((start, start + (end_ - start) / 2)
              :: (start + (end_ - start) / 2 + 1, end_) :: rest).
Proof.
  intros Hb Hl. destruct (Hb (tick w)) as (s & Hs & Hover).
  unfold main. rewrite (bind_Ok _ _ _ _ _ (init_driver_started _ _ _ Hs)).
  cbn [negb]. destruct Hover as (Hallowed & Hsearch & Htext).
  unfold bind at 1, bind at 1, ask at 1.
  destruct (Hallowed (tick (called w [Launch;
              Log INFO "Driver initialized and navigated to the base URL."])))
    as (a & ->).
  unfold ret at 1. rewrite try_finally_safe_quit.
  rewrite main_try_searched by apply Hsearch.
  match goal with |- context [searched ?w0 start end_] => set (w1 := searched w0 start end_) end.
  destruct (read_total_entries_overflows s w1 (conj Hallowed (conj Hsearch Htext)))
    as (n & w2 & Hread & Hge & Hh2).
  assert (heap w2 !! dates = Some ((start, end_) :: rest)) as Hl2
    by (rewrite Hh2; exact Hl).
  pose proof (check_reset_needed_overflow to_numeric s start end_ dates _ _ _ _
                Hread Hge Hl2) as Hcheck.
  simpl in Hcheck. rewrite bool_decide_eq_true_2 in Hcheck by done.
  rewrite (bind_Ok _ _ _ _ _ Hcheck). rewrite safe_quit_eq. simpl.
  eexists _, _. split; [reflexivity|]. simpl. by rewrite lookup_insert_eq.
Qed.

(** A single-day range splits into itself and the empty range after it. *)
Lemma single_day_midpoint day :
  day + (day - day) / 2 = day.
Proof. rewrite Z.sub_diag. change (0 / 2) with 0. lia. Qed.

Lemma single_day_step b day c :
  always_overflows to_numeric b →
  single_day_first day c →
  ∃ c', step to_numeric true transform_table consolidate b c = Running c'
        ∧ single_day_first day c'.
Proof.
  intros Hb [(rest & Hl) Hpending]. destruct c as [w dates pend]. simpl in *.
  unfold step. simpl. destruct Hpending as [->|(p & ->)].
  - unfold get_list. unfold DateRange in *. rewrite Hl. simpl.
    eexists. split; [reflexivity|]. split; simpl; eauto.
  - destruct (overflow_pass b day day dates rest w Hb Hl) as (upd & w' & -> & Hl').
    rewrite single_day_midpoint in Hl'.
    eexists. split; [reflexivity|]. split; simpl; eauto.
Qed.

(** The loop never leaves the states in which [(day, day)] is first: it
    neither finishes nor raises. *)
Lemma single_day_steps b day n : ∀ c,
  always_overflows to_numeric b →
  single_day_first day c →
  ∃ c', steps to_numeric true transform_table consolidate b n c = Running c'
        ∧ single_day_first day c'.
Proof.
  induction n as [|n IH]; intros c Hb Hc; [by exists c|].
  simpl. destruct (single_day_step b day c Hb Hc) as (c1 & -> & Hc1).
  by apply IH.
Qed.

End Overflow.

(** C8, as the code has it.  In a pass on a range, the entry count is read
    from the text of the results line split at every single space
    ([split(" ")], so that two spaces in a row give an empty token and other
    whitespace does not separate): the token at index 5, its commas removed,
    goes through [pd.to_numeric], and the result is the count that
    [check_reset_needed] goes on with.  When the text cannot be read, has no
    token at index 5, or the conversion raises, the pass does not go on with
    the range: [check_reset_needed] raises [ValueError], [main] quits the
    driver and raises it in turn without having scraped anything, and, as
    nothing catches it, the loop ends there and with it the run; the store
    is as it was, so the range is still in the queue. *)
Theorem entry_count_is_token_five
    (to_numeric : string → result numeric) (base_url_valid : bool)
    (transform_table : DataFrame → result DataFrame)
    (consolidate : DataFrame → DataFrame → result DataFrame)
    (b : site) (start end_ : date) (dates : loc) (p : list DateRange) (w : world)
    (s : session) (w0 : world) (a : bool) :
  init_driver base_url_valid b w = (Ok s, w0) →
  allowed_at s (tick w0) = Ok a →
  search_at s (S (tick w0)) = Ok () →
  let w_search := searched (called w0 [CheckAllowed]) start end_ in
  let r := (get_text_default s search_results_number w_search).1 in
  let w1 := (get_text_default s search_results_number w_search).2 in
  heap w1 = heap w
  ∧ match parsed_count to_numeric r with
    | Some n => read_total_entries to_numeric s w_search = (Ok n, w1)
    | None =>
        let w' := called w1 [DriverQuit; quit_log s w1] in
        check_reset_needed to_numeric s start end_ dates w_search
        = (Raise ValueError, w1)
        ∧ main to_numeric base_url_valid transform_table b false start end_ dates w
          = (Raise ValueError, w')
        ∧ step to_numeric base_url_valid transform_table consolidate b
            (Config w dates (Some ((start, end_) :: p)))
          = Crashed ValueError w'
        ∧ heap w' = heap w
        ∧ scraped (trace w') = scraped (trace w)
    end.
Proof.
  intros Hinit Hallowed Hsearch. cbv zeta.
  pose proof (init_driver_quiet base_url_valid b w) as Hq0.
  rewrite Hinit in Hq0. simpl in Hq0.
  pose proof (quiet_scraped _ _ Hq0) as Hs0. destruct Hq0 as (Hh0 & _).
  set (w_search := searched (called w0 [CheckAllowed]) start end_).
  pose proof (get_text_default_reading s search_results_number w_search) as Hq1.
  pose proof (read_total_entries_eq to_numeric s w_search) as Heq.
  destruct (get_text_default s search_results_number w_search) as [r w1] eqn:Hget.
  simpl in *.
  assert (quiet ordinary w_search w1) as Hq1'
    by (eapply quiet_weaken; [apply reading_ordinary|done]).
  pose proof (quiet_scraped _ _ Hq1') as Hs1. destruct Hq1 as (Hh1 & _).
  split; [by rewrite Hh1|].
  assert (∀ e, read_total_entries to_numeric s w_search = (Raise e, w1) →
    let w' := called w1 [DriverQuit; quit_log s w1] in
    check_reset_needed to_numeric s start end_ dates w_search = (Raise ValueError, w1)
    ∧ main to_numeric base_url_valid transform_table b false start end_ dates w
      = (Raise ValueError, w')
    ∧ step to_numeric base_url_valid transform_table consolidate b
        (Config w dates (Some ((start, end_) :: p)))
      = Crashed ValueError w'
    ∧ heap w' = heap w
    ∧ scraped (trace w') = scraped (trace w)) as Hfail.
  { intros e Hread. cbv zeta.
    pose proof (read_total_entries_raises _ _ _ _ _ Hread) as ->.
    pose proof (check_reset_needed_raise to_numeric s start end_ dates _ _ _ Hread)
      as Hcheck.
    assert (main to_numeric base_url_valid transform_table b false start end_ dates w
            = (Raise ValueError, called w1 [DriverQuit; quit_log s w1])) as Hmain.
    { unfold main. rewrite (bind_Ok _ _ _ _ _ Hinit). cbn [negb].
      unfold bind at 1, bind at 1, ask at 1. rewrite Hallowed. unfold ret at 1.
      rewrite try_finally_safe_quit. fold (called w0 [CheckAllowed]).
      rewrite main_try_searched by exact Hsearch. fold w_search.
      rewrite (bind_Raise _ _ _ _ _ Hcheck). simpl. by rewrite safe_quit_eq. }
    split_and!; [done|done| | |].
    - unfold step. cbn [pending cw dates_var]. by rewrite Hmain.
    - simpl. by rewrite Hh1.
    - simpl. rewrite scraped_app, Hs1. unfold w_search.
      rewrite scraped_searched. simpl. rewrite scraped_app, Hs0. unfold quit_log.
      destruct (quit_at s (tick w1)); simpl; by rewrite !app_nil_r. }
  unfold parsed_count.
  destruct r as [raw|e]; [|by eapply Hfail].
  destruct (PyStr.split_on " " raw !! 5%nat) as [tok|]; [|by eapply Hfail].
  destruct (to_numeric (PyStr.remove_char "," tok)); [done|by eapply Hfail].
Qed.

(** A year whose results line cannot be parsed: the run ends on the first
    pass. *)
Lemma entry_count_is_token_five_witness :
  let s := constant_session "No results found" in
  let w0 := called year_world
              [Launch; Log INFO "Driver initialized and navigated to the base URL."] in
  let w_search := searched (called w0 [CheckAllowed]) 0 365 in
  let r := (get_text_default s search_results_number w_search).1 in
  let w1 := (get_text_default s search_results_number w_search).2 in
  heap w1 = heap year_world
  ∧ match parsed_count int_literal r with
    | Some n => read_total_entries int_literal s w_search = (Ok n, w1)
    | None =>
        let w' := called w1 [DriverQuit; quit_log s w1] in
        check_reset_needed int_literal s 0 365 1%positive w_search
        = (Raise ValueError, w1)
        ∧ main int_literal true Ok (sample_site s) false 0 365 1%positive year_world
          = (Raise ValueError, w')
        ∧ step int_literal true Ok (λ all_data _, Ok all_data) (sample_site s)
            (Config year_world 1%positive (Some ((0, 365) :: [])))
          = Crashed ValueError w'
        ∧ heap w' = heap year_world
        ∧ scraped (trace w') = scraped (trace year_world)
    end.
Proof.
  apply (entry_count_is_token_five int_literal true Ok (λ all_data _, Ok all_data)
           (sample_site (constant_session "No results found")) 0 365 1%positive []
           year_world (constant_session "No results found")
           (called year_world
              [Launch; Log INFO "Driver initialized and navigated to the base URL."])
           true).
  - reflexivity.
  - reflexivity.
  - reflexivity.
Defined.

(** C2, as the code has it.  The code has no notion of a range that cannot
    be split.  Take a pass on a single-day range [(day, day)] that is first
    in the queue, in which the browser starts, the permission check and the
    search go through and the count that is read for the range is 1000 or
    more.  The pass raises nothing and reports no error: after the count it
    logs the split, the replacement and the reset at level [INFO], and quits
    the driver; [main] returns with [modified = True], empty frames and a
    new queue in which the range is replaced by [(day, day)] and the empty
    range [(day + 1 day, day)], and the loop goes back to the test of its
    [while] with that queue.  Nothing is assumed of what the site reports
    in any other pass. *)
Theorem single_day_overflow_is_split
    (to_numeric : string → result numeric) (base_url_valid : bool)
    (transform_table : DataFrame → result DataFrame)
    (consolidate : DataFrame → DataFrame → result DataFrame)
    (b : site) (day : date) (dates : loc) (rest p : list DateRange) (w : world)
    (s : session) (w0 : world) (a : bool) (n : numeric) (w1 : world) :
  init_driver base_url_valid b w = (Ok s, w0) →
  allowed_at s (tick w0) = Ok a →
  search_at s (S (tick w0)) = Ok () →
  read_total_entries to_numeric s (searched (called w0 [CheckAllowed]) day day)
    = (Ok n, w1) →
  num_ge n 1000 = true →
  heap w !! dates = Some ((day, day) :: rest) →
  ∃ updated_dates w',
    main to_numeric base_url_valid transform_table b false day day dates w
    = (Ok ([], [], updated_dates, true), w')
    ∧ heap w !! updated_dates = None
    ∧ heap w' !! updated_dates = Some ((day, day) :: (day + 1, day) :: rest)
    ∧ trace w'
      = trace w1 ++
        [Log INFO "Splitting dates further since the entries are greater than or equal to the threshold of 1000.";
         Log INFO "Replaced old date with new date and added new slice.";
         Log INFO "Reset needed, closing WebDriver.";
         DriverQuit; quit_log s w1]
    ∧ step to_numeric base_url_valid transform_table consolidate b
        (Config w dates (Some ((day, day) :: p)))
      = Running (Config w' updated_dates None).
Proof.
  intros Hinit Hallowed Hsearch Hread Hge Hl.
  pose proof (init_driver_quiet base_url_valid b w) as Hq0.
  rewrite Hinit in Hq0. destruct Hq0 as (Hh0 & _). simpl in Hh0.
  pose proof (read_total_entries_reading to_numeric s
                (searched (called w0 [CheckAllowed]) day day)) as Hq1.
  rewrite Hread in Hq1. destruct Hq1 as (Hh1 & _). simpl in Hh1.
  assert (heap w1 !! dates = Some ((day, day) :: rest)) as Hl1
    by by rewrite Hh1, Hh0.
  pose proof (check_reset_needed_overflow to_numeric s day day dates _ n w1 _
                Hread Hge Hl1) as Hcheck.
  cbv zeta in Hcheck. simpl in Hcheck.
  rewrite bool_decide_eq_true_2 in Hcheck by done.
  rewrite single_day_midpoint in Hcheck.
  assert (main to_numeric base_url_valid transform_table b false day day dates w
          = (Ok ([], [], fresh (dom (heap w1)), true),
             called
               (World (<[fresh (dom (heap w1)) := (day, day) :: (day + 1, day) :: rest]>
                         (heap w1))
                  (trace w1 ++
                   [Log INFO "Splitting dates further since the entries are greater than or equal to the threshold of 1000.";
                    Log INFO "Replaced old date with new date and added new slice.";
                    Log INFO "Reset needed, closing WebDriver."])
                  (tick w1))
               [DriverQuit; quit_log s w1])) as Hmain.
  { unfold main. rewrite (bind_Ok _ _ _ _ _ Hinit). cbn [negb].
    unfold bind at 1, bind at 1, ask at 1. rewrite Hallowed. unfold ret at 1.
    rewrite try_finally_safe_quit.
    fold (called w0 [CheckAllowed]).
    rewrite main_try_searched by exact Hsearch.
    rewrite (bind_Ok _ _ _ _ _ Hcheck). rewrite safe_quit_eq.
    unfold bind, logging, emit, ret, quit_log. cbn [heap trace tick fst snd].
    by rewrite <- !app_assoc. }
  eexists _, _. split; [exact Hmain|].
  split_and!.
  - rewrite <- Hh0, <- Hh1. apply fresh_loc_None.
  - cbn [called heap]. by rewrite lookup_insert_eq.
  - cbn [called trace]. by rewrite <- !app_assoc.
  - unfold step. cbn [pending cw dates_var]. by rewrite Hmain.
Qed.

Lemma sample_site_always_overflows :
  always_overflows int_literal
    (sample_site (constant_session "Showing 1 to 10 of 1,234 entries")).
Proof.
  intros t. eexists. split; [reflexivity|]. split_and!.
  - intros ?. by eexists.
  - done.
  - intros ?. exists "Showing 1 to 10 of 1,234 entries"%string, "1,234"%string, (NInt 1234).
    split_and!; reflexivity.
Qed.

Lemma single_day_year_first day :
  single_day_first day (year_start (World ∅ [] 0) day day).
Proof.
  split; [|by left]. exists []. simpl. by rewrite lookup_insert_eq.
Qed.

(** Day 7 alone in the queue, on a machine whose first browser reports
    1,234 entries and every later one 2. *)
Lemma single_day_overflow_is_split_witness :
  ∃ updated_dates w',
    main int_literal true Ok sample_year_site false 7 7 1%positive day_world
    = (Ok ([], [], updated_dates, true), w')
    ∧ heap day_world !! updated_dates = None
    ∧ heap w' !! updated_dates = Some [(7, 7); (7 + 1, 7)]
    ∧ trace w'
      = trace (called (searched (called (called day_world
                 [Launch; Log INFO "Driver initialized and navigated to the base URL."])
                 [CheckAllowed]) 7 7) [LocateText search_results_number]) ++
        [Log INFO "Splitting dates further since the entries are greater than or equal to the threshold of 1000.";
         Log INFO "Replaced old date with new date and added new slice.";
         Log INFO "Reset needed, closing WebDriver.";
         DriverQuit;
         quit_log (constant_session "Showing 1 to 10 of 1,234 entries")
           (called (searched (called (called day_world
              [Launch; Log INFO "Driver initialized and navigated to the base URL."])
              [CheckAllowed]) 7 7) [LocateText search_results_number])]
    ∧ step int_literal true Ok (λ all_data _, Ok all_data) sample_year_site
        (Config day_world 1%positive (Some [(7, 7)]))
      = Running (Config w' updated_dates None).
Proof.
  apply (single_day_overflow_is_split int_literal true Ok (λ all_data _, Ok all_data)
           sample_year_site 7 1%positive [] [] day_world
           (constant_session "Showing 1 to 10 of 1,234 entries")
           (called day_world
              [Launch; Log INFO "Driver initialized and navigated to the base URL."])
           true (NInt 1234)
           (called (searched (called (called day_world
              [Launch; Log INFO "Driver initialized and navigated to the base URL."])
              [CheckAllowed]) 7 7) [LocateText search_results_number])).
  - reflexivity.
  - reflexivity.
  - reflexivity.
  - vm_compute. reflexivity.
  - reflexivity.
  - reflexivity.
Defined.

(** C2 as stated fails on that year: the splitting of day 7 reports no
    error (it returns [reset_needed = True], [modified = True] and the queue
    [(7, 7); (8, 7)]), and no number of steps brings the loop to an end,
    finished or crashed. *)
Lemma single_day_overflow_never_reported :
  (∃ w', check_reset_needed int_literal
           (constant_session "Showing 1 to 10 of 1,234 entries") 7 7 1%positive
           day_world
         = (Ok (true, true, 2%positive, NInt 1234), w')
         ∧ heap w' !! 2%positive = Some [(7, 7); (8, 7)])
  ∧ ¬ (∃ n w, steps int_literal true Ok (λ all_data _, Ok all_data)
                (sample_site (constant_session "Showing 1 to 10 of 1,234 entries")) n
                (year_start (World ∅ [] 0) 7 7)
              = Finished w)
  ∧ ¬ (∃ n e w, steps int_literal true Ok (λ all_data _, Ok all_data)
                  (sample_site (constant_session "Showing 1 to 10 of 1,234 entries")) n
                  (year_start (World ∅ [] 0) 7 7)
                = Crashed e w).
Proof.
  split; [eexists; split; vm_compute; reflexivity|].
  split.
  - intros (n & w & Hrun).
    destruct (single_day_steps int_literal Ok (λ all_data _, Ok all_data)
                (sample_site (constant_session "Showing 1 to 10 of 1,234 entries"))
                7 n (year_start (World ∅ [] 0) 7 7)
                sample_site_always_overflows (single_day_year_first 7))
      as (c' & Hrun' & _).
    congruence.
  - intros (n & e & w & Hrun).
    destruct (single_day_steps int_literal Ok (λ all_data _, Ok all_data)
                (sample_site (constant_session "Showing 1 to 10 of 1,234 entries"))
                7 n (year_start (World ∅ [] 0) 7 7)
                sample_site_always_overflows (single_day_year_first 7))
      as (c' & Hrun' & _).
    congruence.
Qed.

(** * Further properties *)

(** ** [get_text] for any number of retries *)

Lemma world_eta w : World (heap w) (trace w ++ []) (tick w + 0) = w.
Proof. destruct w. simpl. by rewrite app_nil_r, Nat.add_0_r. Qed.

Lemma lookups_app x tr1 tr2 : lookups x (tr1 ++ tr2) = (lookups x tr1 + lookups x tr2)%nat.
Proof.
  induction tr1 as [|e tr1 IH]; [done|].
  destruct e; simpl; rewrite ?IH; lia.
Qed.

Lemma retry_log_not_lookup x e : lookups x [retry_log e] = 0%nat.
Proof. by destruct e. Qed.

(** [j] retried attempts take the loop [j] calls further, with one sleep
    each. *)
Lemma get_text_loop_skip s x d j : ∀ n w,
  retried s x (tick w) j → (j ≤ n)%nat →
  ∃ evs, sleeps evs = replicate j d ∧ lookups x evs = j
    ∧ get_text_loop s x d n w =
      get_text_loop s x d (n - j) (World (heap w) (trace w ++ evs) (tick w + j)).
Proof.
  induction j as [|j IH]; intros n w Hj Hn.
  - exists []. rewrite world_eta, Nat.sub_0_r. done.
  - destruct n as [|n]; [lia|].
    destruct (Hj 0%nat) as (e & He & Hr); [lia|]. rewrite Nat.add_0_r in He.
    rewrite get_text_loop_S, He, Hr.
    destruct (IH n (called w [LocateText x; retry_log e; Sleep d])) as (evs & Hs & Hl & Hrun).
    { intros i Hi. destruct (Hj (S i)) as (e' & He' & Hr'); [lia|].
      exists e'. simpl. by rewrite <- Nat.add_succ_r. }
    { lia. }
    exists ([LocateText x; retry_log e; Sleep d] ++ evs). split_and!.
    + destruct e; simpl; by rewrite Hs.
    + change (lookups x ([LocateText x] ++ [retry_log e] ++ [Sleep d] ++ evs) = S j).
      rewrite !lookups_app, retry_log_not_lookup, Hl. simpl.
      rewrite bool_decide_eq_true_2 by done. lia.
    + rewrite Hrun. simpl. by rewrite <- app_assoc, Nat.add_succ_r.
Qed.

(** X1.  [get_text] returns the stripped text of the first attempt that
    finds the element, whatever [retries] and the delay (a number of seconds
    that is not negative) are: when [j] attempts fail on a retried exception
    and attempt [j + 1] is still within [retries] and finds the element, the
    call returns its text without the whitespace at its ends, after [j + 1]
    look-ups and [j] sleeps of [delay] seconds, and leaves the store
    alone. *)
Theorem get_text_returns_first_found (s : session) (x : xpath) (retries : nat)
    (delay : Z) (w : world) (j : nat) (raw : string) :
  0 ≤ delay →
  retried s x (tick w) j → (j < retries)%nat →
  text_at s x (tick w + j)%nat = Ok raw →
  ∃ w' evs,
    get_text s x retries delay w = (Ok (PyStr.strip raw), w')
    ∧ heap w' = heap w ∧ tick w' = (tick w + S j)%nat
    ∧ trace w' = trace w ++ evs
    ∧ sleeps evs = replicate j delay ∧ lookups x evs = S j.
Proof.
  intros _ Hj Hlt Hraw. unfold get_text.
  destruct (get_text_loop_skip s x delay j retries w Hj) as (evs & Hs & Hl & ->); [lia|].
  replace (retries - j)%nat with (S (retries - S j)) by lia.
  rewrite get_text_loop_S. simpl. rewrite Hraw.
  eexists _, (evs ++ _). split; [reflexivity|]. simpl.
  split_and!; [done|lia|by rewrite <- app_assoc| |].
  - rewrite sleeps_app. case_bool_decide; simpl; by rewrite app_nil_r.
  - rewrite lookups_app, Hl. case_bool_decide; simpl;
      rewrite bool_decide_eq_true_2 by done; lia.
Qed.

Lemma get_text_returns_first_found_witness :
  ∃ w' evs,
    get_text (stale_twice_session padded_text) number_pages 3 1 empty_world
      = (Ok "12 of 40"%string, w')
    ∧ heap w' = heap empty_world ∧ tick w' = 3%nat
    ∧ trace w' = trace empty_world ++ evs
    ∧ sleeps evs = replicate 2 1 ∧ lookups number_pages evs = 3%nat.
Proof.
  apply (get_text_returns_first_found (stale_twice_session padded_text)
           number_pages 3 1 empty_world 2 padded_text).
  - lia.
  - intros i Hi. exists StaleElementReferenceException.
    destruct i as [|[|i]]; [done|done|lia].
  - lia.
  - reflexivity.
Defined.



(** ** The text [get_text] returns is stripped *)

Lemma lstrip_head s :
  PyStr.lstrip s = ""%string
  ∨ ∃ c t, PyStr.lstrip s = String c t ∧ PyStr.is_space c = false.
Proof.
  induction s as [|c s IH]; [by left|]. simpl.
  destruct (PyStr.is_space c) eqn:Hc; [done|]. right. eauto.
Qed.

Lemma rstrip_head c s :
  PyStr.is_space c = false → ∃ t, PyStr.rstrip (String c s) = String c t.
Proof.
  intros Hc. simpl. destruct (PyStr.rstrip s); rewrite ?Hc; eauto.
Qed.

Lemma rstrip_last s c :
  last_char (PyStr.rstrip s) = Some c → PyStr.is_space c = false.
Proof.
  induction s as [|c0 s IH]; [done|]. simpl.
  destruct (PyStr.rstrip s) as [|a u] eqn:Hr.
  - destruct (PyStr.is_space c0) eqn:Hc0; [done|]. simpl. by intros [= <-].
  - exact IH.
Qed.

Lemma strip_stripped s : stripped (PyStr.strip s).
Proof.
  unfold stripped, PyStr.strip. split; [|apply rstrip_last].
  destruct (lstrip_head s) as [->|(c & t & -> & Hc)]; [done|].
  destruct (rstrip_head c t Hc) as (u & ->). simpl. by intros ? [= <-].
Qed.

(** X3.  Whatever text [get_text] returns (on a delay that is not
    negative) has no whitespace at either end: it is empty, or neither its
    first nor its last character is whitespace. *)
Theorem get_text_result_is_stripped (s : session) (x : xpath) (retries : nat)
    (delay : Z) (w : world) (t : string) (w' : world) :
  0 ≤ delay →
  get_text s x retries delay w = (Ok t, w') → stripped t.
Proof.
  intros _ Hrun. apply get_text_loop_outcome in Hrun as (j & evs & _ & _ & _ & _ & Hr).
  destruct Hr as (_ & _ & raw & _ & ->). apply strip_stripped.
Qed.

Lemma get_text_result_is_stripped_witness :
  stripped "12 of 40".
Proof.
  apply (get_text_result_is_stripped (stale_twice_session padded_text)
           number_pages 3 1 empty_world "12 of 40"
           (World ∅ [LocateText number_pages; Log WARNING "Stale element encountered. Retrying..."; Sleep 1;
                     LocateText number_pages; Log WARNING "Stale element encountered. Retrying..."; Sleep 1;
                     LocateText number_pages] 3)).
  - lia.
  - vm_compute. reflexivity.
Defined.

(** ** [fill_form_field] *)

Lemma fill_form_field_loop_S f field_id value d clear_field n w :
  fill_form_field_loop f field_id value d clear_field (S n) w =
  match f field_id value clear_field (tick w) with
  | Ok _ =>
      (Ok true, called_silently w [Log INFO "Successfully filled form field."])
  | Raise e =>
      if is_timeout e
      then fill_form_field_loop f field_id value d clear_field n
             (called_silently w [Log WARNING "Attempt to locate form field timed out."; Sleep d])
      else (Raise e,
            called_silently w
              [Log ERROR "Unexpected error while interacting with form field."])
  end.
Proof.
  unfold called_silently. cbn [fill_form_field_loop].
  unfold bind at 1, try_except, bind, call; cbn.
  destruct (f field_id value clear_field (tick w)) as [[]|e]; cbn; [done|].
  destruct e; cbn; by rewrite <- ?app_assoc.
Qed.

Lemma is_timeout_true e : is_timeout e = true → e = TimeoutException.
Proof. by destruct e. Qed.

(** Every outcome of the loop. *)
Lemma fill_form_field_loop_outcome f field_id value d clear_field n : ∀ w r w',
  fill_form_field_loop f field_id value d clear_field n w = (r, w') →
  ∃ j evs,
    timed_out f field_id value clear_field (tick w) j
    ∧ sleeps evs = replicate j d
    ∧ trace w' = trace w ++ evs ∧ heap w' = heap w
    ∧ match r with
      | Ok true =>
          (j < n)%nat ∧ tick w' = (tick w + S j)%nat
          ∧ f field_id value clear_field (tick w + j)%nat = Ok ()
      | Ok false => j = n ∧ tick w' = (tick w + n)%nat
      | Raise e =>
          (j < n)%nat ∧ tick w' = (tick w + S j)%nat
          ∧ f field_id value clear_field (tick w + j)%nat = Raise e
          ∧ is_timeout e = false
      end.
Proof.
  induction n as [|n IH]; intros w r w' Hrun.
  - cbn in Hrun. inversion Hrun; subst; clear Hrun.
    exists 0%nat, [Log ERROR "Failed to fill form field after all attempts."]. simpl.
    split_and!; [by intros i ?; lia|done|done|done|done|lia].
  - rewrite fill_form_field_loop_S in Hrun.
    destruct (f field_id value clear_field (tick w)) as [[]|e] eqn:Hat.
    + inversion Hrun; subst; clear Hrun.
      exists 0%nat, [Log INFO "Successfully filled form field."]. simpl.
      rewrite Nat.add_0_r.
      split_and!; [by intros i ?; lia|done|done|done|lia|lia|done].
    + destruct (is_timeout e) eqn:Hto.
      * apply is_timeout_true in Hto as ->.
        apply IH in Hrun as (j & evs & Hj & Hs & Htr & Hh & Hr). simpl in *.
        exists (S j), ([Log WARNING "Attempt to locate form field timed out."; Sleep d] ++ evs).
        split.
        { intros [|i] Hi; [by rewrite Nat.add_0_r|].
          rewrite <- Nat.add_succ_comm. apply Hj. lia. }
        split; [simpl; by rewrite Hs|].
        split; [by rewrite Htr, <- app_assoc|]. split; [done|].
        destruct r as [[]|e'].
        -- destruct Hr as (Hlt & Ht & Hok). rewrite !Nat.add_succ_r.
           split_and!; [lia|lia|done].
        -- destruct Hr as (-> & Ht). split; [done|lia].
        -- destruct Hr as (Hlt & Ht & He & Hne). rewrite !Nat.add_succ_r.
           split_and!; [lia|lia|done..].
      * inversion Hrun; subst; clear Hrun.
        exists 0%nat, [Log ERROR "Unexpected error while interacting with form field."]. simpl.
        rewrite Nat.add_0_r.
        split_and!; [by intros i ?; lia|done|done|done|lia|lia|done..].
Qed.

(** When every attempt times out the loop runs out and returns [False]. *)
Lemma fill_form_field_loop_exhaust f field_id value d clear_field n : ∀ w,
  timed_out f field_id value clear_field (tick w) n →
  ∃ w' evs,
    fill_form_field_loop f field_id value d clear_field n w = (Ok false, w')
    ∧ heap w' = heap w ∧ tick w' = (tick w + n)%nat
    ∧ trace w' = trace w ++ evs ∧ sleeps evs = replicate n d.
Proof.
  induction n as [|n IH]; intros w Hto.
  - eexists _, [Log ERROR "Failed to fill form field after all attempts."]. cbn.
    split; [reflexivity|]. simpl. split_and!; [done|lia|done..].
  - rewrite fill_form_field_loop_S.
    pose proof (Hto 0%nat ltac:(lia)) as H0. rewrite Nat.add_0_r in H0. rewrite H0. simpl.
    destruct (IH (called_silently w
                    [Log WARNING "Attempt to locate form field timed out."; Sleep d]))
      as (w' & evs & Hrun & Hh & Ht & Htr & Hs).
    { intros i Hi. simpl. rewrite <- Nat.add_succ_r. apply Hto. lia. }
    exists w', ([Log WARNING "Attempt to locate form field timed out."; Sleep d] ++ evs).
    split; [done|]. simpl in *.
    split_and!; [done|lia|by rewrite Htr, <- app_assoc|by rewrite Hs].
Qed.

(** X4.  [fill_form_field] checks its arguments before it touches the
    browser: a field id that is empty or all whitespace, or the value
    [None], is logged as an error and raises [ValueError] with no call made
    and no sleep. *)
Theorem fill_form_field_rejects_bad_arguments (f : form) (field_id : string)
    (value : option string) (retries : nat) (delay : Z) (clear_field : bool)
    (w : world) :
  PyStr.strip field_id = ""%string ∨ value = None →
  ∃ msg,
    fill_form_field f field_id value retries delay clear_field w
    = (Raise ValueError, World (heap w) (trace w ++ [Log ERROR msg]) (tick w)).
Proof.
  intros Hbad. unfold fill_form_field. case_bool_decide as Hid.
  - eexists. reflexivity.
  - destruct Hbad as [?| ->]; [done|]. eexists. reflexivity.
Qed.

Lemma fill_form_field_rejects_bad_arguments_witness :
  ∃ msg,
    fill_form_field absent_form blank_field_id (Some "150000"%string) 3 1 true empty_world
    = (Raise ValueError, World (heap empty_world) (trace empty_world ++ [Log ERROR msg])
                           (tick empty_world)).
Proof.
  apply (fill_form_field_rejects_bad_arguments absent_form blank_field_id
           (Some "150000"%string) 3 1 true empty_world).
  left. reflexivity.
Defined.

(** X5.  When the field cannot be located, [fill_form_field] does not
    raise: on a field id that is not blank and a delay that is not
    negative, if each of its [retries] attempts times out, it sleeps [delay]
    seconds after each of them and returns [False], having made exactly
    [retries] attempts. *)
Theorem fill_form_field_gives_up_with_false (f : form) (field_id value : string)
    (retries : nat) (delay : Z) (clear_field : bool) (w : world) :
  PyStr.strip field_id ≠ ""%string →
  0 ≤ delay →
  timed_out f field_id value clear_field (tick w) retries →
  ∃ w' evs,
    fill_form_field f field_id (Some value) retries delay clear_field w = (Ok false, w')
    ∧ heap w' = heap w ∧ tick w' = (tick w + retries)%nat
    ∧ trace w' = trace w ++ evs ∧ sleeps evs = replicate retries delay.
Proof.
  intros Hid _ Hto. unfold fill_form_field.
  rewrite bool_decide_eq_false_2 by done.
  by apply fill_form_field_loop_exhaust.
Qed.

Lemma fill_form_field_gives_up_with_false_witness :
  ∃ w' evs,
    fill_form_field absent_form "sale_price_low" (Some "150000"%string) 3 1 true empty_world
    = (Ok false, w')
    ∧ heap w' = heap empty_world ∧ tick w' = (tick empty_world + 3)%nat
    ∧ trace w' = trace empty_world ++ evs ∧ sleeps evs = replicate 3 1.
Proof.
  apply (fill_form_field_gives_up_with_false absent_form "sale_price_low" "150000"
           3 1 true empty_world).
  - vm_compute. discriminate.
  - lia.
  - intros i Hi. reflexivity.
Defined.

(** X6.  What a call of [fill_form_field] with sound arguments (a field id
    that is not blank, a value, a delay that is not negative) comes to.
    It makes at most [retries] attempts, and the attempts before the last
    one all timed out and were each followed by a sleep of [delay] seconds.
    It returns [True] only from an attempt that filled the field, returns
    [False] only when all [retries] attempts timed out, and raises only what
    an attempt raised that is no time-out: it never raises
    [TimeoutException] itself. *)
Theorem fill_form_field_outcomes (f : form) (field_id value : string)
    (retries : nat) (delay : Z) (clear_field : bool) (w : world)
    (r : result bool) (w' : world) :
  PyStr.strip field_id ≠ ""%string →
  0 ≤ delay →
  fill_form_field f field_id (Some value) retries delay clear_field w = (r, w') →
  ∃ j evs,
    timed_out f field_id value clear_field (tick w) j
    ∧ sleeps evs = replicate j delay
    ∧ trace w' = trace w ++ evs ∧ heap w' = heap w
    ∧ (tick w' ≤ tick w + retries)%nat
    ∧ match r with
      | Ok true =>
          (j < retries)%nat ∧ f field_id value clear_field (tick w + j)%nat = Ok ()
      | Ok false => j = retries
      | Raise e =>
          (j < retries)%nat
          ∧ f field_id value clear_field (tick w + j)%nat = Raise e
          ∧ e ≠ TimeoutException
      end.
Proof.
  intros Hid _. unfold fill_form_field. rewrite bool_decide_eq_false_2 by done.
  intros Hrun.
  apply fill_form_field_loop_outcome in Hrun as (j & evs & Hj & Hs & Htr & Hh & Hr).
  exists j, evs. split_and!; [done..| |].
  - destruct r as [[]|e]; [destruct Hr as (? & ? & ?)|destruct Hr as (? & ?)
                          |destruct Hr as (? & ? & ?)]; lia.
  - destruct r as [[]|e].
    + destruct Hr as (? & ? & ?). done.
    + by destruct Hr.
    + destruct Hr as (? & ? & ? & Hne). split_and!; [done..|].
      intros ->. done.
Qed.

Lemma fill_form_field_outcomes_witness :
  ∃ j evs,
    timed_out slow_form "sale_price_low" "150000" true (tick empty_world) j
    ∧ sleeps evs = replicate j 1
    ∧ trace (World ∅ [Log WARNING "Attempt to locate form field timed out."; Sleep 1;
                      Log INFO "Successfully filled form field."] 2)
      = trace empty_world ++ evs
    ∧ heap (World ∅ [Log WARNING "Attempt to locate form field timed out."; Sleep 1;
                     Log INFO "Successfully filled form field."] 2)
      = heap empty_world
    ∧ (2 ≤ tick empty_world + 3)%nat
    ∧ (j < 3)%nat
    ∧ slow_form "sale_price_low" "150000" true (tick empty_world + j)%nat = Ok ().
Proof.
  apply (fill_form_field_outcomes slow_form "sale_price_low" "150000" 3 1 true
           empty_world (Ok true)
           (World ∅ [Log WARNING "Attempt to locate form field timed out."; Sleep 1;
                     Log INFO "Successfully filled form field."] 2)).
  - vm_compute. discriminate.
  - lia.
  - vm_compute. reflexivity.
Defined.

(** ** [format_column_name] and [clean_and_format_columns] *)

Lemma str_forall_filter p s : str_forall p (str_filter p s) = true.
Proof.
  induction s as [|c s IH]; [done|]. simpl.
  destruct (p c) eqn:Hc; [simpl; by rewrite Hc|done].
Qed.

Lemma str_forall_impl (p q : ascii → bool) s :
  (∀ c, p c = true → q c = true) → str_forall p s = true → str_forall q s = true.
Proof.
  intros Hpq. induction s as [|c s IH]; [done|]. simpl.
  intros [Hc Hs]%andb_true_iff. by rewrite (Hpq c Hc), IH.
Qed.

Lemma str_forall_map (p q : ascii → bool) f s :
  (∀ c, p c = true → q (f c) = true) →
  str_forall p s = true → str_forall q (str_map f s) = true.
Proof.
  intros Hpq. induction s as [|c s IH]; [done|]. simpl.
  intros [Hc Hs]%andb_true_iff. by rewrite (Hpq c Hc), IH.
Qed.

Lemma str_forall_lstrip_char p c s :
  str_forall p s = true → str_forall p (lstrip_char c s) = true.
Proof.
  induction s as [|d s IH]; [done|]. simpl.
  destruct (PyStr.is_char d c); [|done].
  intros [_ Hs]%andb_true_iff. by apply IH.
Qed.

Lemma str_forall_rstrip_char p c s :
  str_forall p s = true → str_forall p (rstrip_char c s) = true.
Proof.
  induction s as [|d s IH]; [done|]. simpl.
  intros [Hd Hs]%andb_true_iff. specialize (IH Hs).
  destruct (rstrip_char c s) as [|a t].
  - destruct (PyStr.is_char d c); [done|]. simpl. by rewrite Hd.
  - simpl in *. by rewrite Hd, IH.
Qed.

Lemma str_forall_strip_char p c s :
  str_forall p s = true → str_forall p (strip_char c s) = true.
Proof.
  intros Hs. by apply str_forall_rstrip_char, str_forall_lstrip_char.
Qed.

Lemma lower_char_name c : is_word_char c = true → is_name_char (lower_char c) = true.
Proof.
  destruct c as [[] [] [] [] [] [] [] []]; vm_compute; congruence.
Qed.

Lemma name_char_word c : is_name_char c = true → is_word_char c = true.
Proof. unfold is_name_char. by intros [? _]%andb_true_iff. Qed.





Lemma lstrip_char_head c s :
  lstrip_char c s = ""%string
  ∨ ∃ d t, lstrip_char c s = String d t ∧ PyStr.is_char d c = false.
Proof.
  induction s as [|d s IH]; [by left|]. simpl.
  destruct (PyStr.is_char d c) eqn:Hd; [done|]. right. eauto.
Qed.

Lemma rstrip_char_idem c s : rstrip_char c (rstrip_char c s) = rstrip_char c s.
Proof.
  induction s as [|d s IH]; [done|]. simpl.
  destruct (rstrip_char c s) as [|a t] eqn:Hr.
  - destruct (PyStr.is_char d c) eqn:Hd; [done|]. simpl. by rewrite Hd.
  - change (rstrip_char c (String d (String a t))) with
      (match rstrip_char c (String a t) with
       | EmptyString => if PyStr.is_char d c then EmptyString else String d EmptyString
       | u => String d u
       end).
    by rewrite IH.
Qed.

Lemma rstrip_char_head c d s :
  PyStr.is_char d c = false → ∃ t, rstrip_char c (String d s) = String d t.
Proof.
  intros Hd. simpl. destruct (rstrip_char c s); rewrite ?Hd; eauto.
Qed.

Lemma lstrip_char_strip_char c s : lstrip_char c (strip_char c s) = strip_char c s.
Proof.
  unfold strip_char.
  destruct (lstrip_char_head c s) as [->|(d & t & -> & Hd)]; [done|].
  destruct (rstrip_char_head c d t Hd) as (u & ->). simpl. by rewrite Hd.
Qed.


(** The text [format_column_name] returns when it is given no prefix. *)
Lemma format_column_name_eq name to_lower strip_underscores w :
  name ≠ ""%string →
  format_column_name name to_lower strip_underscores None w =
  (Ok (let name := str_filter is_word_char
                     (str_map (λ c, if PyStr.is_char c " " then "_"%char else c) name) in
       let name := if to_lower then str_map lower_char name else name in
       if strip_underscores then strip_char "_" name else name), w).
Proof.
  intros Hne. unfold format_column_name. by rewrite bool_decide_eq_false_2.
Qed.

Lemma format_column_name_Ok name to_lower strip_underscores w r w' :
  format_column_name name to_lower strip_underscores None w = (Ok r, w') →
  name ≠ ""%string.
Proof.
  unfold format_column_name. case_bool_decide; [|done].
  cbn. discriminate.
Qed.

Lemma format_column_name_chars name to_lower strip_underscores w r w' :
  format_column_name name to_lower strip_underscores None w = (Ok r, w') →
  w' = w
  ∧ str_forall is_word_char r = true
  ∧ (to_lower = true → str_forall is_name_char r = true).
Proof.
  intros Hrun. pose proof (format_column_name_Ok _ _ _ _ _ _ Hrun) as Hne.
  rewrite format_column_name_eq in Hrun by done.
  inversion Hrun; subst; clear Hrun. split; [done|].
  set (u := str_filter is_word_char _).
  assert (str_forall is_word_char u = true) as Hu by apply str_forall_filter.
  split.
  - destruct to_lower, strip_underscores; cbn;
      repeat (first [apply str_forall_strip_char
                    |apply (str_forall_map is_word_char);
                       [intros c Hc; apply name_char_word, lower_char_name, Hc|]]);
      done.
  - intros ->. destruct strip_underscores; cbn;
      repeat (first [apply str_forall_strip_char
                    |apply (str_forall_map is_word_char);
                       [intros c Hc; apply lower_char_name, Hc|]]);
      done.
Qed.

(** X7.  A column name formatted without a prefix is made of letters,
    digits and underscores only, with [to_lower] (the default) of
    lower-case letters, digits and underscores, and with
    [strip_underscores] it neither begins nor ends with an underscore;
    formatting logs nothing and leaves the world as it is. *)
Theorem format_column_name_alphabet (name : string) (to_lower strip_underscores : bool)
    (w : world) (r : string) (w' : world) :
  format_column_name name to_lower strip_underscores None w = (Ok r, w') →
  w' = w
  ∧ str_forall is_word_char r = true
  ∧ (to_lower = true → str_forall is_name_char r = true)
  ∧ (strip_underscores = true → lstrip_char "_" r = r ∧ rstrip_char "_" r = r).
Proof.
  intros Hrun.
  destruct (format_column_name_chars _ _ _ _ _ _ Hrun) as (Hw & Hword & Hname).
  split_and!; [done..|]. intros ->.
  pose proof (format_column_name_Ok _ _ _ _ _ _ Hrun) as Hne.
  rewrite format_column_name_eq in Hrun by done. cbv zeta in Hrun.
  injection Hrun as <- _. split.
  - apply lstrip_char_strip_char.
  - unfold strip_char. apply rstrip_char_idem.
Qed.

Lemma format_column_name_alphabet_witness :
  empty_world = empty_world
  ∧ str_forall is_word_char "of_parcels_sold" = true
  ∧ (true = true → str_forall is_name_char "of_parcels_sold" = true)
  ∧ (true = true → lstrip_char "_" "of_parcels_sold" = "of_parcels_sold"%string
                   ∧ rstrip_char "_" "of_parcels_sold" = "of_parcels_sold"%string).
Proof.
  apply (format_column_name_alphabet "# of Parcels Sold" true true empty_world
           "of_parcels_sold" empty_world).
  vm_compute. reflexivity.
Defined.










(** ** [clean_and_format_columns] *)

Lemma format_columns_spec cols : ∀ w names w',
  format_columns cols w = (Ok names, w') →
  w' = w ∧ length names = length cols
  ∧ Forall (λ n, str_forall is_name_char n = true) names.
Proof.
  induction cols as [|col cols IH]; intros w names w' Hrun.
  - inversion Hrun; subst. by split_and!.
  - cbn [format_columns] in Hrun.
    apply bind_Ok_inv in Hrun as (name & w1 & Hname & Hrun).
    apply bind_Ok_inv in Hrun as (names' & w2 & Hnames & Hrun).
    inversion Hrun; subst; clear Hrun.
    apply format_column_name_chars in Hname as (-> & _ & Hname).
    apply IH in Hnames as (-> & Hlen & Hall).
    split_and!; [done|simpl; by rewrite Hlen|]. constructor; [by apply Hname|done].
Qed.

Lemma set_columns_spec names df df' :
  set_columns names df = Ok df' →
  length df' = length df ∧ Forall (λ r : row, r.*1 = names) df'.
Proof.
  unfold set_columns. destruct (forallb _ df) eqn:Hall; [|done].
  intros [= <-]. split; [by rewrite length_fmap|].
  apply Forall_fmap, Forall_forall. intros r Hr. simpl.
  rewrite forallb_forall in Hall. specialize (Hall r).
  rewrite <- list_elem_of_In in Hall. specialize (Hall Hr).
  apply bool_decide_eq_true_1 in Hall.
  apply fst_zip. rewrite length_fmap. lia.
Qed.

(** X10.  When [clean_and_format_columns] returns, the table has as many
    rows as before, none of its columns is named in [drop_cols], and every
    column name is one that [format_column_name] gives: lower-case letters,
    digits and underscores only.  (The columns are dropped by the names they
    have after the formatting.) *)
Theorem clean_and_format_columns_result (df : DataFrame) (drop_cols : list string)
    (w : world) (df' : DataFrame) (w' : world) :
  clean_and_format_columns df drop_cols w = (Ok df', w') →
  w' = w ∧ length df' = length df
  ∧ (∀ r, r ∈ df' → ∀ c, c ∈ r.*1 →
       (c ∉ drop_cols) ∧ str_forall is_name_char c = true).
Proof.
  unfold clean_and_format_columns. intros Hrun.
  apply bind_Ok_inv in Hrun as (names & w1 & Hnames & Hrun).
  apply bind_Ok_inv in Hrun as (df1 & w2 & Hset & Hrun).
  inversion Hrun; subst; clear Hrun.
  apply format_columns_spec in Hnames as (-> & _ & Hall).
  apply lift_Ok_inv in Hset as (Hset & ->).
  apply set_columns_spec in Hset as (Hlen & Hcols).
  split; [done|]. split; [unfold drop_columns; by rewrite length_fmap|].
  intros r Hr c Hc. unfold drop_columns in Hr.
  apply list_elem_of_fmap in Hr as (r1 & -> & Hr1).
  apply list_elem_of_fmap in Hc as ([c' v] & -> & Hc).
  apply list_elem_of_filter in Hc as (Hdrop & Hc). simpl in *.
  split; [done|].
  rewrite Forall_forall in Hcols. specialize (Hcols r1 Hr1).
  rewrite Forall_forall in Hall. apply Hall. rewrite <- Hcols.
  apply list_elem_of_fmap. by exists (c', v).
Qed.

Lemma clean_and_format_columns_result_witness :
  empty_world = empty_world
  ∧ length [[("parcel_number", "550-0031"); ("address", "12 ELM ST")]%string]
    = length [[("Parcel Number", "550-0031"); ("Address", "12 ELM ST");
               ("parcel_id", "550-0031")]%string]
  ∧ (∀ r, r ∈ [[("parcel_number", "550-0031"); ("address", "12 ELM ST")]%string] →
       ∀ c, c ∈ r.*1 →
         (c ∉ ["last_transfer_date"; "last_sale_amount"; "parcel_id"]%string)
         ∧ str_forall is_name_char c = true).
Proof.
  apply (clean_and_format_columns_result
           [[("Parcel Number", "550-0031"); ("Address", "12 ELM ST");
             ("parcel_id", "550-0031")]%string]
           ["last_transfer_date"; "last_sale_amount"; "parcel_id"]%string
           empty_world _ empty_world).
  vm_compute. reflexivity.
Defined.

(** ** [split_replace_add_time_slice] when the date is found *)

(** X11.  [split_replace_add_time_slice] changes the first range that ends
    on [old_date] and no other: in the list it returns, that range ends on
    [new_date] and is followed by [additional_slice]; the ranges before and
    after it, also those that end on [old_date] too, are as they were.
    [modified] is [True], one line is logged and the browser is not
    touched. *)
Theorem split_replace_changes_first_match
    (dates : loc) (old_date new_date : date) (additional_slice : DateRange)
    (w : world) (pre : list DateRange) (start : date) (post : list DateRange) :
  heap w !! dates = Some (pre ++ (start, old_date) :: post) →
  Forall (λ r : DateRange, r.2 ≠ old_date) pre →
  ∃ updated_dates w',
    split_replace_add_time_slice dates old_date new_date additional_slice w
      = (Ok (updated_dates, true), w')
    ∧ heap w' !! updated_dates
      = Some (pre ++ (start, new_date) :: additional_slice :: post)
    ∧ heap w' !! dates = Some (pre ++ (start, old_date) :: post)
    ∧ tick w' = tick w
    ∧ trace w' = trace w ++ [Log INFO "Replaced old date with new date and added new slice."].
Proof.
  intros Hl Hpre. rewrite (split_replace_add_time_slice_spec _ _ _ _ _ _ Hl). simpl.
  rewrite replace_first_middle by done.
  pose proof (fresh_loc_None (heap w)) as Hfresh.
  assert (dates ≠ fresh (dom (heap w))) as Hne by congruence.
  eexists _, _. split; [reflexivity|]. simpl.
  split_and!; [by rewrite lookup_insert_eq|by rewrite lookup_insert_ne|done..].
Qed.

Lemma split_replace_changes_first_match_witness :
  ∃ updated_dates w',
    split_replace_add_time_slice 1%positive 7 5 (6, 7) two_ranges_world
      = (Ok (updated_dates, true), w')
    ∧ heap w' !! updated_dates = Some ([(0, 3)] ++ (4, 5) :: (6, 7) :: [])
    ∧ heap w' !! 1%positive = Some ([(0, 3)] ++ (4, 7) :: [])
    ∧ tick w' = tick two_ranges_world
    ∧ trace w' = trace two_ranges_world
                 ++ [Log INFO "Replaced old date with new date and added new slice."].
Proof.
  apply (split_replace_changes_first_match 1%positive 7 5 (6, 7) two_ranges_world
           [(0, 3)] 4 []).
  - reflexivity.
  - repeat constructor. simpl. lia.
Defined.

(** ** The failures of [check_reset_needed] *)

(** X12.  Whatever goes wrong while the count is read (the results line
    cannot be located, it has fewer than six pieces, the sixth is no
    number), [check_reset_needed] raises [ValueError] and nothing else; the
    store is as it was and the trace got only look-ups, log lines and
    sleeps: no range is split and the driver is not quit. *)
Theorem check_reset_needed_raises_only_ValueError
    (to_numeric : string → result numeric) (s : session) (start end_ : date)
    (dates : loc) (w : world) (l : list DateRange) (e : exn) (w' : world) :
  heap w !! dates = Some l →
  check_reset_needed to_numeric s start end_ dates w = (Raise e, w') →
  e = ValueError ∧ quiet reading w w'.
Proof.
  intros Hl Hrun.
  pose proof (read_total_entries_reading to_numeric s w) as Hq.
  destruct (read_total_entries to_numeric s w) as [[n|e'] w1] eqn:Hread; simpl in Hq.
  - destruct Hq as (Hh & _).
    destruct (num_ge n 1000) eqn:Hge.
    + assert (heap w1 !! dates = Some l) as Hl1 by by rewrite Hh.
      pose proof (check_reset_needed_overflow to_numeric s start end_ dates w n w1 l
                    Hread Hge Hl1) as Heq.
      simpl in Heq. rewrite Heq in Hrun.
      by destruct (replace_first _ _ _ l).
    + destruct (num_lt n 1) eqn:Hlt.
      * rewrite (check_reset_needed_empty to_numeric s start end_ dates w n w1
                   Hread Hge Hlt) in Hrun. done.
      * rewrite (check_reset_needed_accepted to_numeric s start end_ dates w n w1
                   Hread Hge Hlt) in Hrun. done.
  - rewrite (check_reset_needed_raise to_numeric s start end_ dates w e' w1 Hread) in Hrun.
    inversion Hrun; subst. split; [|done].
    by eapply read_total_entries_raises.
Qed.

Lemma check_reset_needed_raises_only_ValueError_witness :
  ValueError = ValueError
  ∧ quiet reading year_world
      (check_reset_needed int_literal (constant_session "No results found") 0 365
         1%positive year_world).2.
Proof.
  apply (check_reset_needed_raises_only_ValueError int_literal
           (constant_session "No results found") 0 365 1%positive year_world [(0, 365)]).
  - reflexivity.
  - vm_compute. reflexivity.
Defined.

(** ** [final_csv_conversion] *)


Lemma py_remove_middle x pre post :
  x ∉ pre → py_remove x (pre ++ x :: post) = Ok (pre ++ post).
Proof.
  induction pre as [|y pre IH]; intros Hx; simpl.
  - by rewrite bool_decide_eq_true_2.
  - apply not_elem_of_cons in Hx as [Hne Hx].
    rewrite bool_decide_eq_false_2 by done. by rewrite IH.
Qed.

Lemma writes_app tr1 tr2 : writes (tr1 ++ tr2) = writes tr1 ++ writes tr2.
Proof.
  induction tr1 as [|e tr1 IH]; [done|].
  destruct e; simpl; by rewrite ?IH.
Qed.

(** [final_csv_conversion] on appraisal data that is not empty, step by
    step. *)
Lemma final_csv_conversion_eq consolidate b all_data_df appraisal_data_df dates
    start_date end_date w (l : list DateRange) :
  df_empty appraisal_data_df = false →
  heap w !! dates = Some l →
  final_csv_conversion consolidate b all_data_df appraisal_data_df dates
    start_date end_date w
  = match consolidate all_data_df appraisal_data_df with
    | Raise e =>
        (Raise e,
         World (heap w) (trace w ++ [Log INFO "These are the dates in the list."]) (tick w))
    | Ok final_df =>
        let logs := [Log INFO "These are the dates in the list.";
                     Log INFO "Removing these dates."] in
        match py_remove (start_date, end_date) l with
        | Raise e => (Raise e, World (heap w) (trace w ++ logs) (tick w))
        | Ok l' =>
            let h := <[dates := l']> (heap w) in
            match save_at b (tick w) with
            | Raise e =>
                (Raise e,
                 World h (trace w ++ logs ++ [SaveCsv "Homes.csv" final_df;
                                              Log ERROR "Error saving CSV."])
                   (S (tick w)))
            | Ok _ =>
                match save_at b (S (tick w)) with
                | Raise e =>
                    (Raise e,
                     World h (trace w ++ logs ++
                                [SaveCsv "Homes.csv" final_df;
                                 Log INFO "Saved rows and columns to file.";
                                 SaveCsv "All Homes.csv" final_df;
                                 Log ERROR "Error saving CSV."])
                       (S (S (tick w))))
                | Ok _ =>
                    (Ok (),
                     World h (trace w ++ logs ++
                                [SaveCsv "Homes.csv" final_df;
                                 Log INFO "Saved rows and columns to file.";
                                 SaveCsv "All Homes.csv" final_df;
                                 Log INFO "Saved rows and columns to file."])
                       (S (S (tick w))))
                end
            end
        end
    end.
Proof.
  intros Hne Hl. unfold final_csv_conversion. rewrite Hne.
  unfold bind, logging, emit, lift, get_list, put_list, save_to_csv, try_except,
    bind, ask, logging, emit, ret, raise. cbn [heap trace tick].
  destruct (consolidate all_data_df appraisal_data_df) as [final_df|e];
    cbn [heap trace tick]; [|done].
  unfold DateRange in *. rewrite Hl. cbn [heap trace tick].
  destruct (py_remove (start_date, end_date) l) as [l'|e]; cbn [heap trace tick];
    [|by rewrite <- !app_assoc].
  destruct (save_at b (tick w)) as [[]|e]; cbn [heap trace tick];
    [|by rewrite <- !app_assoc].
  destruct (save_at b (S (tick w))) as [[]|e]; cbn [heap trace tick];
    by rewrite <- !app_assoc.
Qed.

(** X13.  When the appraisal data is not empty, the merge and cleaning
    succeed, the range is in the queue and the disk takes both files,
    [final_csv_conversion] removes the first occurrence of the range from
    the list [dates] itself (no copy is made) and then writes the same rows
    to two files, [Homes.csv] of the year first and [All Homes.csv]
    second, and nothing else. *)
Theorem final_csv_conversion_removes_then_saves
    (consolidate : DataFrame → DataFrame → result DataFrame) (b : site)
    (all_data_df appraisal_data_df final_df : DataFrame) (dates : loc)
    (start_date end_date : date) (w : world) (pre post : list DateRange) :
  df_empty appraisal_data_df = false →
  consolidate all_data_df appraisal_data_df = Ok final_df →
  heap w !! dates = Some (pre ++ (start_date, end_date) :: post) →
  (start_date, end_date) ∉ pre →
  save_at b (tick w) = Ok () → save_at b (S (tick w)) = Ok () →
  ∃ w' evs,
    final_csv_conversion consolidate b all_data_df appraisal_data_df dates
      start_date end_date w = (Ok (), w')
    ∧ heap w' = <[dates := pre ++ post]> (heap w)
    ∧ trace w' = trace w ++ evs
    ∧ writes evs = [("Homes.csv"%string, final_df); ("All Homes.csv"%string, final_df)].
Proof.
  intros Hne Hcons Hl Hpre Hs1 Hs2.
  rewrite (final_csv_conversion_eq _ _ _ _ _ _ _ _ _ Hne Hl), Hcons.
  cbv zeta. rewrite py_remove_middle, Hs1, Hs2 by done.
  eexists _, _. split; [reflexivity|]. simpl. split_and!; reflexivity.
Qed.

Lemma final_csv_conversion_removes_then_saves_witness :
  ∃ w' evs,
    final_csv_conversion (λ all_data _, Ok all_data)
      (sample_site (constant_session "")) sample_listing sample_details 1%positive
      0 365 year_world = (Ok (), w')
    ∧ heap w' = <[1%positive := [] ++ []]> (heap year_world)
    ∧ trace w' = trace year_world ++ evs
    ∧ writes evs = [("Homes.csv"%string, sample_listing);
                    ("All Homes.csv"%string, sample_listing)].
Proof.
  apply (final_csv_conversion_removes_then_saves (λ all_data _, Ok all_data)
           (sample_site (constant_session "")) sample_listing sample_details
           sample_listing 1%positive 0 365 year_world [] []).
  - reflexivity.
  - reflexivity.
  - reflexivity.
  - apply not_elem_of_nil.
  - reflexivity.
  - reflexivity.
Defined.



(** X15.  The range is removed from the queue before the files are
    written.  When the writing of the first file fails, or of the second
    after the first went through, [final_csv_conversion] raises what the
    writing raised, and the range is already gone from the list [dates]
    although its rows are not in both files. *)
Theorem final_csv_conversion_failed_write_drops_range
    (consolidate : DataFrame → DataFrame → result DataFrame) (b : site)
    (all_data_df appraisal_data_df final_df : DataFrame) (dates : loc)
    (start_date end_date : date) (w : world) (pre post : list DateRange) (e : exn) :
  df_empty appraisal_data_df = false →
  consolidate all_data_df appraisal_data_df = Ok final_df →
  heap w !! dates = Some (pre ++ (start_date, end_date) :: post) →
  (start_date, end_date) ∉ pre →
  save_at b (tick w) = Raise e
  ∨ (save_at b (tick w) = Ok () ∧ save_at b (S (tick w)) = Raise e) →
  ∃ w',
    final_csv_conversion consolidate b all_data_df appraisal_data_df dates
      start_date end_date w = (Raise e, w')
    ∧ heap w' !! dates = Some (pre ++ post).
Proof.
  intros Hne Hcons Hl Hpre Hsave.
  rewrite (final_csv_conversion_eq _ _ _ _ _ _ _ _ _ Hne Hl), Hcons.
  cbv zeta. rewrite py_remove_middle by done.
  destruct Hsave as [->|[-> ->]]; eexists; (split; [reflexivity|]);
    simpl; by rewrite lookup_insert_eq.
Qed.

Lemma final_csv_conversion_failed_write_drops_range_witness :
  ∃ w',
    final_csv_conversion (λ all_data _, Ok all_data)
      (full_disk_site (constant_session "")) sample_listing sample_details 1%positive
      0 365 year_world = (Raise (OtherException "No space left on device"), w')
    ∧ heap w' !! 1%positive = Some ([] ++ []).
Proof.
  apply (final_csv_conversion_failed_write_drops_range (λ all_data _, Ok all_data)
           (full_disk_site (constant_session "")) sample_listing sample_details
           sample_listing 1%positive 0 365 year_world [] []).
  - reflexivity.
  - reflexivity.
  - reflexivity.
  - apply not_elem_of_nil.
  - left. reflexivity.
Defined.

(** ** [scrape_data]: pages that cannot be read *)

Lemma extract_property_details_returns transform_table s w :
  ∃ r w', extract_property_details transform_table s w = (Ok r, w').
Proof.
  unfold extract_property_details, try_except.
  match goal with |- context [match ?m w with _ => _ end] =>
    destruct (m w) as [[r|e] w1] end; [eauto|].
  unfold bind, logging, emit, ret. eauto.
Qed.

Lemma scrape_results_page_returns s w :
  ∃ r w', scrape_results_page s w = (Ok r, w').
Proof.
  unfold scrape_results_page, try_except, ask. simpl.
  destruct (table_at s results_table (tick w)); [eauto|].
  unfold bind, logging, emit, ret. eauto.
Qed.

Lemma results_loop_returns s n :
  (∀ t, ∃ more, next_at s next_page_button t = Ok more) →
  ∀ all_data w, ∃ data w', results_loop s all_data n w = (Ok data, w').
Proof.
  intros Hnext. induction n as [|n IH]; intros all_data w; [by eexists _, _|].
  cbn [results_loop]. erewrite (bind_Ok (logging _ _)) by reflexivity.
  match goal with |- context [bind (scrape_results_page s) _ ?w1] =>
    destruct (scrape_results_page_returns s w1) as (r & w2 & Hr) end.
  rewrite (bind_Ok _ _ _ _ _ Hr).
  destruct r as [df|]; [destruct (df_empty df); cbn [negb]|].
  - erewrite (bind_Ok (logging _ _)) by reflexivity. by eexists _, _.
  - destruct (Hnext (tick w2)) as (more & Hmore).
    unfold bind at 1, next_navigation, ask. rewrite Hmore.
    destruct more; cbn [negb]; [apply IH|by eexists _, _].
  - erewrite (bind_Ok (logging _ _)) by reflexivity. by eexists _, _.
Qed.

Lemma details_loop_returns transform_table s n :
  (∀ t, ∃ more, next_at s next_property t = Ok more) →
  ∀ appraisal_data w,
    ∃ data w', details_loop transform_table s appraisal_data n w = (Ok data, w').
Proof.
  intros Hnext. induction n as [|n IH]; intros appraisal_data w; [by eexists _, _|].
  cbn [details_loop]. erewrite (bind_Ok (logging _ _)) by reflexivity.
  match goal with |- context [bind (extract_property_details transform_table s) _ ?w1] =>
    destruct (extract_property_details_returns transform_table s w1) as (r & w2 & Hr) end.
  rewrite (bind_Ok _ _ _ _ _ Hr).
  destruct r as [t|].
  - unfold bind at 1, ret at 1. erewrite (bind_Ok (emit _)) by reflexivity.
    match goal with |- context [bind (next_navigation s next_property) _ ?w3] =>
      destruct (Hnext (tick w3)) as (more & Hmore) end.
    unfold bind at 1, next_navigation, ask. rewrite Hmore.
    destruct more; cbn [negb]; [apply IH|by eexists _, _].
  - unfold bind at 1, bind at 1, logging at 1, emit at 1, ret at 1.
    erewrite (bind_Ok (emit _)) by reflexivity.
    match goal with |- context [bind (next_navigation s next_property) _ ?w3] =>
      destruct (Hnext (tick w3)) as (more & Hmore) end.
    unfold bind at 1, next_navigation, ask. rewrite Hmore.
    destruct more; cbn [negb]; [apply IH|by eexists _, _].
Qed.

(** X16.  A page that cannot be read does not stop [scrape_data].  When
    the number of pages is read as an integer, the count handed in is an
    integer, and the clicks and the moves to the next page and the next
    property go through, [scrape_data] returns, whatever the tables and the
    texts of the detail pages do: a results table that fails to load ends
    the listing, and a detail page that fails is logged and skipped. *)
Theorem scrape_data_survives_unreadable_pages
    (to_numeric : string → result numeric)
    (transform_table : DataFrame → result DataFrame)
    (s : session) (z : Z) (w : world) (raw : string) (p : Z) :
  text_at s number_pages (tick w) = Ok raw →
  to_numeric (PyStr.strip raw) = Ok (NInt p) →
  (∀ x t, click_at s x t = Ok ()) →
  (∀ x t, ∃ more, next_at s x t = Ok more) →
  ∃ all_data appraisal_data w',
    scrape_data to_numeric transform_table s (NInt z) w
    = (Ok (all_data, appraisal_data), w').
Proof.
  intros Hraw Hnum Hclick Hnext. unfold scrape_data.
  assert (∃ w1, get_text_default s number_pages w = (Ok (PyStr.strip raw), w1))
    as (w1 & Hget).
  { unfold get_text_default, get_text. rewrite get_text_loop_S, Hraw. eauto. }
  rewrite (bind_Ok _ _ _ _ _ Hget), Hnum. unfold py_range, lift.
  unfold bind at 1, ret at 1. unfold bind at 1, ret at 1.
  destruct (results_loop_returns s (Z.to_nat p) (Hnext next_page_button) [] w1)
    as (all_data & w2 & Hres).
  rewrite (bind_Ok _ _ _ _ _ Hres).
  assert (∃ w3,
    (if bool_decide (all_data ≠ [])
     then bind (safe_click s first_results_table_page)
            (λ _, find_click_row s first_row_results_table)
     else logging WARNING "No all_data to navigate for property details.") w2
    = (Ok (), w3)) as (w3 & Hnav).
  { case_bool_decide.
    - unfold bind, safe_click, find_click_row, ask. rewrite !Hclick. eauto.
    - unfold logging, emit. eauto. }
  rewrite (bind_Ok _ _ _ _ _ Hnav).
  unfold bind at 1, ret at 1.
  destruct (details_loop_returns transform_table s (Z.to_nat z) (Hnext next_property) [] w3)
    as (appraisal_data & w4 & Hdet).
  rewrite (bind_Ok _ _ _ _ _ Hdet). by eexists _, _, _.
Qed.

Lemma scrape_data_survives_unreadable_pages_witness :
  ∃ all_data appraisal_data w',
    scrape_data int_literal one_record (unreadable_session " 4 ") (NInt 25) empty_world
    = (Ok (all_data, appraisal_data), w').
Proof.
  apply (scrape_data_survives_unreadable_pages int_literal one_record
           (unreadable_session " 4 ") 25 empty_world " 4 " 4).
  - reflexivity.
  - reflexivity.
  - intros x t. reflexivity.
  - intros x t. exists true. reflexivity.
Defined.

(** ** [scrape_data]: how much it returns *)

Lemma results_loop_bounds s n : ∀ all_data w data w',
  results_loop s all_data n w = (Ok data, w') →
  ∃ new, data = all_data ++ new ∧ (length new ≤ n)%nat
         ∧ Forall (λ df, df_empty df = false) new.
Proof.
  induction n as [|n IH]; intros all_data w data w' Hrun.
  - inversion Hrun; subst. exists []. by rewrite app_nil_r.
  - cbn [results_loop] in Hrun.
    apply bind_Ok_inv in Hrun as (u & w1 & _ & Hrun).
    apply bind_Ok_inv in Hrun as (r & w2 & _ & Hrun).
    destruct r as [df|]; [destruct (df_empty df) eqn:Hdf; cbn [negb] in Hrun|].
    + apply bind_Ok_inv in Hrun as (u' & w3 & _ & Hrun).
      inversion Hrun; subst. exists []. rewrite app_nil_r. split_and!; [done|simpl; lia|done].
    + apply bind_Ok_inv in Hrun as (more & w3 & _ & Hrun).
      destruct more; cbn [negb] in Hrun.
      * apply IH in Hrun as (new & -> & Hlen & Hall). exists (df :: new).
        rewrite <- app_assoc. split_and!; [done|simpl; lia|by constructor].
      * inversion Hrun; subst. exists [df].
        split_and!; [done|simpl; lia|by repeat constructor].
    + apply bind_Ok_inv in Hrun as (u' & w3 & _ & Hrun).
      inversion Hrun; subst. exists []. rewrite app_nil_r. split_and!; [done|simpl; lia|done].
Qed.

Lemma details_loop_bounds transform_table s n : ∀ appraisal_data w data w',
  details_loop transform_table s appraisal_data n w = (Ok data, w') →
  ∃ new, data = appraisal_data ++ new ∧ (length new ≤ n)%nat.
Proof.
  induction n as [|n IH]; intros appraisal_data w data w' Hrun.
  - inversion Hrun; subst. exists []. by rewrite app_nil_r.
  - cbn [details_loop] in Hrun.
    apply bind_Ok_inv in Hrun as (u & w1 & _ & Hrun).
    apply bind_Ok_inv in Hrun as (r & w2 & _ & Hrun).
    apply bind_Ok_inv in Hrun as (acc & w3 & Hacc & Hrun).
    apply bind_Ok_inv in Hrun as (u' & w4 & _ & Hrun).
    apply bind_Ok_inv in Hrun as (more & w5 & _ & Hrun).
    assert (∃ one, acc = appraisal_data ++ one ∧ (length one ≤ 1)%nat) as (one & -> & Hone).
    { destruct r as [t|].
      - inversion Hacc; subst. exists [t]. done.
      - apply bind_Ok_inv in Hacc as (? & ? & _ & Hacc). inversion Hacc; subst.
        exists []. rewrite app_nil_r. split; [done|simpl; lia]. }
    destruct more; cbn [negb] in Hrun.
    + apply IH in Hrun as (new & -> & Hlen). exists (one ++ new).
      rewrite <- app_assoc, length_app. split; [done|lia].
    + inversion Hrun; subst. exists one. split; [done|lia].
Qed.

(** X17.  What [scrape_data] returns is bounded by what the site
    announces: there are at most as many listing tables as the number of
    pages it read from the site at its start, none of them empty, and at
    most [NUM_ENTRIES] detail tables. *)
Theorem scrape_data_bounds
    (to_numeric : string → result numeric)
    (transform_table : DataFrame → result DataFrame)
    (s : session) (NUM_ENTRIES : numeric) (w : world)
    (all_data appraisal_data : list DataFrame) (w' : world) :
  scrape_data to_numeric transform_table s NUM_ENTRIES w
    = (Ok (all_data, appraisal_data), w') →
  (∃ pages_text pages,
     (get_text_default s number_pages w).1 = Ok pages_text
     ∧ to_numeric pages_text = Ok (NInt pages)
     ∧ (length all_data ≤ Z.to_nat pages)%nat)
  ∧ Forall (λ df, df_empty df = false) all_data
  ∧ ∃ entries, NUM_ENTRIES = NInt entries
               ∧ (length appraisal_data ≤ Z.to_nat entries)%nat.
Proof.
  unfold scrape_data. intros Hrun.
  apply bind_Ok_inv in Hrun as (pages_text & w1 & Hget & Hrun).
  apply bind_Ok_inv in Hrun as (PAGE_NUMBER & w2 & [Hnum ->]%lift_Ok_inv & Hrun).
  apply bind_Ok_inv in Hrun as (pages & w3 & [Hpages ->]%lift_Ok_inv & Hrun).
  apply bind_Ok_inv in Hrun as (all & w4 & Hres & Hrun).
  apply bind_Ok_inv in Hrun as (u & w5 & _ & Hrun).
  apply bind_Ok_inv in Hrun as (entries & w6 & [Hentries ->]%lift_Ok_inv & Hrun).
  apply bind_Ok_inv in Hrun as (app & w7 & Hdet & Hrun).
  inversion Hrun; subst; clear Hrun.
  apply results_loop_bounds in Hres as (new & -> & Hlen & Hall).
  apply details_loop_bounds in Hdet as (new' & -> & Hlen').
  destruct PAGE_NUMBER as [p| | |]; try done. inversion Hpages; subst.
  destruct NUM_ENTRIES as [z| | |]; try done. inversion Hentries; subst.
  split_and!; [|done|by exists z].
  exists pages_text, p. by rewrite Hget.
Qed.

Lemma scrape_data_bounds_witness :
  (∃ pages_text pages,
     (get_text_default
        (sample_session "Showing 1 to 2 of 2 entries" "1"
           (Some sample_listing) (Some sample_details))
        number_pages empty_world).1 = Ok pages_text
     ∧ int_literal pages_text = Ok (NInt pages)
     ∧ (length [sample_listing] ≤ Z.to_nat pages)%nat)
  ∧ Forall (λ df, df_empty df = false) [sample_listing]
  ∧ ∃ entries, NInt 2 = NInt entries
               ∧ (length [sample_detail_record; sample_detail_record]
                  ≤ Z.to_nat entries)%nat.
Proof.
  apply (scrape_data_bounds int_literal one_record
           (sample_session "Showing 1 to 2 of 2 entries" "1"
              (Some sample_listing) (Some sample_details))
           (NInt 2) empty_world
           [sample_listing] [sample_detail_record; sample_detail_record]
           (scrape_data int_literal one_record
              (sample_session "Showing 1 to 2 of 2 entries" "1"
                 (Some sample_listing) (Some sample_details))
              (NInt 2) empty_world).2).
  vm_compute. reflexivity.
Defined.

(** ** [main]: the driver and the try block *)

(** X18.  Once the browser is started and the permission check has
    returned (whatever it answered: the answer is not looked at), [main]
    returns or raises exactly what its [try] block returns or raises, and in
    either case quits the driver last. *)
Theorem main_quits_the_driver
    (to_numeric : string → result numeric) (base_url_valid : bool)
    (transform_table : DataFrame → result DataFrame)
    (b : site) (allowed : bool) (start end_ : date) (dates : loc)
    (w : world) (s : session) (w0 : world) :
  init_driver base_url_valid b w = (Ok s, w0) →
  allowed = true ∨ (∃ a, allowed_at s (tick w0) = Ok a) →
  let w1 := if allowed then w0 else called w0 [CheckAllowed] in
  let r := main_try to_numeric transform_table s start end_ dates w1 in
  main to_numeric base_url_valid transform_table b allowed start end_ dates w
  = (r.1, called r.2 [DriverQuit; quit_log s r.2]).
Proof.
  intros Hinit Hallowed. cbv zeta. unfold main.
  rewrite (bind_Ok _ _ _ _ _ Hinit).
  destruct allowed; cbn [negb].
  - unfold bind at 1, ret at 1.
    by rewrite try_finally_safe_quit, safe_quit_eq.
  - destruct Hallowed as [?|[a Ha]]; [done|].
    unfold bind at 1, bind at 1, ask at 1. rewrite Ha. unfold ret at 1.
    by rewrite try_finally_safe_quit, safe_quit_eq.
Qed.

Lemma main_quits_the_driver_witness :
  let w1 := called (called empty_world
                      [Launch; Log INFO "Driver initialized and navigated to the base URL."])
              [CheckAllowed] in
  let r := main_try int_literal one_record refusing_session 0 365 1%positive w1 in
  main int_literal true one_record (sample_site refusing_session) false 0 365
    1%positive empty_world
  = (r.1, called r.2 [DriverQuit; quit_log refusing_session r.2]).
Proof.
  apply (main_quits_the_driver int_literal true one_record
           (sample_site refusing_session) false 0 365 1%positive empty_world
           refusing_session
           (called empty_world
              [Launch; Log INFO "Driver initialized and navigated to the base URL."])).
  - reflexivity.
  - right. exists false. reflexivity.
Defined.

(** X19.  The permission check runs before the [try] block.  When
    [check_allowed_webscraping] raises, [main] raises the same exception at
    once: no search is made, and the driver that was started is not
    quit. *)
Theorem main_failed_check_leaves_driver
    (to_numeric : string → result numeric) (base_url_valid : bool)
    (transform_table : DataFrame → result DataFrame)
    (b : site) (start end_ : date) (dates : loc)
    (w : world) (s : session) (w0 : world) (e : exn) :
  init_driver base_url_valid b w = (Ok s, w0) →
  allowed_at s (tick w0) = Raise e →
  main to_numeric base_url_valid transform_table b false start end_ dates w
  = (Raise e, called w0 [CheckAllowed]).
Proof.
  intros Hinit He. unfold main. rewrite (bind_Ok _ _ _ _ _ Hinit). cbn [negb].
  unfold bind at 1, bind at 1, ask at 1. by rewrite He.
Qed.

Lemma main_failed_check_leaves_driver_witness :
  main int_literal true one_record (sample_site dead_session) false 0 365
    1%positive empty_world
  = (Raise WebDriverException,
     called (called empty_world
               [Launch; Log INFO "Driver initialized and navigated to the base URL."])
       [CheckAllowed]).
Proof.
  apply (main_failed_check_leaves_driver int_literal true one_record
           (sample_site dead_session) 0 365 1%positive empty_world dead_session
           (called empty_world
              [Launch; Log INFO "Driver initialized and navigated to the base URL."])
           WebDriverException).
  - reflexivity.
  - reflexivity.
Defined.

(** ** [main]: a count at the threshold *)

(** X20.  When the count read for the search is 1000 or more, the [try]
    block of [main] returns two empty frames together with what
    [check_reset_needed] returned: its new list object and its [modified].
    That list is the queue with the first range that ends on [end_] split at
    the midpoint ([modified] is [True]), or a copy of the queue when no range
    ends on [end_] ([modified] is [False]).  After the count, nothing happens
    but lines written to the log: no further call into the browser, nothing
    scraped. *)
Theorem main_returns_empty_on_overflow
    (to_numeric : string → result numeric)
    (transform_table : DataFrame → result DataFrame)
    (s : session) (start end_ : date) (dates : loc) (w : world)
    (l : list DateRange) (n : numeric) (w1 : world) :
  search_at s (tick w) = Ok () →
  heap w !! dates = Some l →
  read_total_entries to_numeric s (searched w start end_) = (Ok n, w1) →
  num_ge n 1000 = true →
  let midpoint := start + (end_ - start) / 2 in
  let split := replace_first end_ midpoint (midpoint + 1, end_) l in
  ∃ updated_dates modified w2 evs,
    check_reset_needed to_numeric s start end_ dates (searched w start end_)
    = (Ok (true, modified, updated_dates, n), w2)
    ∧ main_try to_numeric transform_table s start end_ dates w
      = (Ok ([], [], updated_dates, modified),
         World (heap w2) (trace w2 ++ [Log INFO "Reset needed, closing WebDriver."])
           (tick w2))
    ∧ heap w !! updated_dates = None
    ∧ heap w2 = <[updated_dates := default l split]> (heap w)
    ∧ modified = bool_decide (is_Some split)
    ∧ tick w2 = tick w1
    ∧ trace w2 = trace w1 ++ evs ∧ Forall is_log evs
    ∧ scraped (trace w2) = scraped (trace w).
Proof.
  intros Hsearch Hl Hread Hge. cbv zeta.
  pose proof (read_total_entries_reading to_numeric s (searched w start end_)) as Hq.
  rewrite Hread in Hq. simpl in Hq.
  assert (scraped (trace w1) = scraped (trace w)) as Hs1.
  { rewrite (quiet_scraped (searched w start end_) w1).
    - apply scraped_searched.
    - eapply quiet_weaken; [apply reading_ordinary|done]. }
  destruct Hq as (Hh & _). simpl in Hh.
  assert (heap w1 !! dates = Some l) as Hl1 by by rewrite Hh.
  rewrite main_try_searched by done.
  pose proof (check_reset_needed_overflow to_numeric s start end_ dates _ n w1 l
                Hread Hge Hl1) as Hcheck.
  cbv zeta in Hcheck. rewrite Hh in Hcheck.
  pose proof (fresh_loc_None (heap w)) as Hfresh.
  destruct (replace_first _ _ _ l) as [l'|];
    rewrite Hcheck; rewrite (bind_Ok _ _ _ _ _ Hcheck);
    unfold bind, logging, emit, ret; cbn [heap trace tick];
    eexists _, _, _, _; (split; [reflexivity|]); cbn [heap trace tick default];
    (split_and!; [reflexivity|done|done| |done|reflexivity|repeat constructor|]);
    [by rewrite bool_decide_eq_true_2 by eauto
    |by rewrite !scraped_app, Hs1, !app_nil_r
    |by rewrite bool_decide_eq_false_2 by (by intros [? ?])
    |by rewrite !scraped_app, Hs1, !app_nil_r].
Qed.

Lemma main_returns_empty_on_overflow_witness :
  let split := replace_first 365 (0 + (365 - 0) / 2) (0 + (365 - 0) / 2 + 1, 365)
                 [(0, 365)] in
  ∃ updated_dates modified w2 evs,
    check_reset_needed int_literal (constant_session "Showing 1 to 10 of 1,234 entries")
      0 365 1%positive (searched year_world 0 365)
    = (Ok (true, modified, updated_dates, NInt 1234), w2)
    ∧ main_try int_literal one_record (constant_session "Showing 1 to 10 of 1,234 entries")
        0 365 1%positive year_world
      = (Ok ([], [], updated_dates, modified),
         World (heap w2) (trace w2 ++ [Log INFO "Reset needed, closing WebDriver."])
           (tick w2))
    ∧ heap year_world !! updated_dates = None
    ∧ heap w2 = <[updated_dates := default [(0, 365)] split]> (heap year_world)
    ∧ modified = bool_decide (is_Some split)
    ∧ tick w2 = tick (called (searched year_world 0 365) [LocateText search_results_number])
    ∧ trace w2 = trace (called (searched year_world 0 365)
                          [LocateText search_results_number]) ++ evs
    ∧ Forall is_log evs
    ∧ scraped (trace w2) = scraped (trace year_world).
Proof.
  apply (main_returns_empty_on_overflow int_literal one_record
           (constant_session "Showing 1 to 10 of 1,234 entries") 0 365 1%positive
           year_world [(0, 365)] (NInt 1234)
           (called (searched year_world 0 365) [LocateText search_results_number])).
  - reflexivity.
  - reflexivity.
  - vm_compute. reflexivity.
  - reflexivity.
Defined.

(** ** [main]: the columns of the listing *)

(** X21.  Every row of the listing that the [try] block of [main] returns
    has exactly the eight columns that [main] names, in their order. *)
Theorem main_names_the_listing_columns
    (to_numeric : string → result numeric)
    (transform_table : DataFrame → result DataFrame)
    (s : session) (start end_ : date) (dates : loc) (w : world)
    (all_data_df appraisal_data_df : DataFrame) (dates' : loc) (modified : bool)
    (w' : world) :
  main_try to_numeric transform_table s start end_ dates w
    = (Ok (all_data_df, appraisal_data_df, dates', modified), w') →
  Forall (λ r : row, r.*1 = result_columns) all_data_df.
Proof.
  unfold main_try. intros Hrun.
  apply bind_Ok_inv in Hrun as (u1 & w1 & _ & Hrun).
  apply bind_Ok_inv in Hrun as (u2 & w2 & _ & Hrun).
  apply bind_Ok_inv in Hrun as ([[[reset_needed modified'] dates''] n] & w3 & _ & Hrun).
  destruct reset_needed.
  - apply bind_Ok_inv in Hrun as (u3 & w4 & _ & Hrun). inversion Hrun; subst. done.
  - apply bind_Ok_inv in Hrun as (u3 & w4 & _ & Hrun).
    apply bind_Ok_inv in Hrun as ([all_data appraisal_data] & w5 & _ & Hrun).
    apply bind_Ok_inv in Hrun as (u4 & w6 & _ & Hrun).
    apply bind_Ok_inv in Hrun as (u5 & w7 & _ & Hrun).
    case_bool_decide.
    + apply bind_Ok_inv in Hrun as (u6 & w8 & _ & Hrun). inversion Hrun; subst. done.
    + apply bind_Ok_inv in Hrun as (df & w8 & [Hset ->]%lift_Ok_inv & Hrun).
      apply bind_Ok_inv in Hrun as (u6 & w9 & _ & Hrun). inversion Hrun; subst.
      by apply set_columns_spec in Hset as [_ ?].
Qed.

Lemma main_names_the_listing_columns_witness :
  Forall (λ r : row, r.*1 = result_columns) sample_listing_named.
Proof.
  apply (main_names_the_listing_columns int_literal one_record
           (sample_session "Showing 1 to 2 of 2 entries" "1"
              (Some sample_listing) (Some sample_details))
           0 365 1%positive year_world
           sample_listing_named (sample_detail_record ++ sample_detail_record)
           1%positive false
           (main_try int_literal one_record
              (sample_session "Showing 1 to 2 of 2 entries" "1"
                 (Some sample_listing) (Some sample_details))
              0 365 1%positive year_world).2).
  vm_compute. reflexivity.
Defined.

(** ** [init_driver] *)

Lemma quits_app tr1 tr2 : quits (tr1 ++ tr2) = (quits tr1 + quits tr2)%nat.
Proof.
  induction tr1 as [|e tr1 IH]; [done|].
  destruct e; simpl; by rewrite ?IH.
Qed.

Lemma launches_app tr1 tr2 : launches (tr1 ++ tr2) = (launches tr1 + launches tr2)%nat.
Proof.
  induction tr1 as [|e tr1 IH]; [done|].
  destruct e; simpl; by rewrite ?IH.
Qed.

(** One failed attempt of the loop. *)
Lemma init_driver_loop_failed b driver n w :
  launch_failed (launch_at b (tick w)) = true →
  init_driver_loop b driver (S n) w
  = init_driver_loop b (last_started b (tick w) 1 driver) n
      (called w [Launch; Log WARNING "Attempt failed."; Sleep 2]).
Proof.
  intros Hfail. cbn [init_driver_loop last_started].
  unfold bind at 1, ask at 1.
  destruct (launch_at b (tick w)) as [s|s e|e]; [done|..]; simpl in Hfail;
    rewrite Hfail; unfold bind, logging, time_sleep, emit, called; cbn [heap trace tick];
    by rewrite <- !app_assoc.
Qed.

(** [j] failed attempts take the loop [j] calls further, with a sleep of
    two seconds each and no driver quit. *)
Lemma init_driver_loop_skip b j : ∀ n driver w,
  (∀ i, (i < j)%nat → launch_failed (launch_at b (tick w + i)%nat) = true) →
  (j ≤ n)%nat →
  ∃ evs, sleeps evs = replicate j 2 ∧ launches evs = j ∧ quits evs = 0%nat
    ∧ init_driver_loop b driver n w =
      init_driver_loop b (last_started b (tick w) j driver) (n - j)
        (World (heap w) (trace w ++ evs) (tick w + j)).
Proof.
  induction j as [|j IH]; intros n driver w Hfail Hn.
  - exists []. rewrite world_eta, Nat.sub_0_r. done.
  - destruct n as [|n]; [lia|].
    pose proof (Hfail 0%nat ltac:(lia)) as H0. rewrite Nat.add_0_r in H0.
    rewrite (init_driver_loop_failed _ _ _ _ H0).
    destruct (IH n (last_started b (tick w) 1 driver)
                (called w [Launch; Log WARNING "Attempt failed."; Sleep 2]))
      as (evs & Hs & Hl & Hq & Hrun).
    { intros i Hi. simpl. rewrite <- Nat.add_succ_r. apply Hfail. lia. }
    { lia. }
    exists ([Launch; Log WARNING "Attempt failed."; Sleep 2] ++ evs).
    split_and!; [simpl; by rewrite Hs|simpl; by rewrite Hl|simpl; by rewrite Hq|].
    rewrite Hrun. simpl. by rewrite <- app_assoc, Nat.add_succ_r.
Qed.

(** X22.  [init_driver] returns the driver of the first attempt that
    starts a browser and loads the page: when [j] attempts fail on an
    exception of Selenium and attempt [j + 1] is one of the three and
    succeeds, its driver is returned after [j] sleeps of two seconds.  No
    driver is quit on the way: a browser that an earlier attempt started
    and could not load the page with is left running. *)
Theorem init_driver_returns_first_started
    (b : site) (w : world) (j : nat) (s : session) :
  (∀ i, (i < j)%nat → launch_failed (launch_at b (tick w + i)%nat) = true) →
  (j < 3)%nat →
  launch_at b (tick w + j)%nat = Started s →
  ∃ w' evs,
    init_driver true b w = (Ok s, w')
    ∧ heap w' = heap w ∧ tick w' = (tick w + S j)%nat
    ∧ trace w' = trace w ++ evs
    ∧ sleeps evs = replicate j 2 ∧ launches evs = S j ∧ quits evs = 0%nat.
Proof.
  intros Hfail Hj Hs. unfold init_driver. cbn [negb].
  destruct (init_driver_loop_skip b j 3 None w Hfail) as (evs & Hsl & Hl & Hq & ->); [lia|].
  replace (3 - j)%nat with (S (2 - j)) by lia.
  cbn [init_driver_loop]. unfold bind at 1, ask at 1. cbn [heap trace tick].
  rewrite Hs. unfold bind, logging, emit, ret. cbn [heap trace tick].
  eexists _, (evs ++ [Launch; Log INFO "Driver initialized and navigated to the base URL."]).
  split; [reflexivity|]. cbn [heap trace tick].
  split_and!; [done|lia|by rewrite <- !app_assoc| | |].
  - by rewrite sleeps_app, Hsl, app_nil_r.
  - rewrite launches_app, Hl. simpl. lia.
  - rewrite quits_app, Hq. done.
Qed.

Lemma init_driver_returns_first_started_witness :
  ∃ w' evs,
    init_driver true (third_time_site dead_session (constant_session "")) empty_world
    = (Ok (constant_session ""), w')
    ∧ heap w' = heap empty_world ∧ tick w' = (tick empty_world + 3)%nat
    ∧ trace w' = trace empty_world ++ evs
    ∧ sleeps evs = replicate 2 2 ∧ launches evs = 3%nat ∧ quits evs = 0%nat.
Proof.
  apply (init_driver_returns_first_started
           (third_time_site dead_session (constant_session "")) empty_world 2
           (constant_session "")).
  - intros i Hi. destruct i as [|[|i]]; [reflexivity|reflexivity|lia].
  - lia.
  - reflexivity.
Defined.

(** X23.  When all three attempts fail on an exception of Selenium,
    [init_driver] sleeps two seconds after each and quits no driver
    meanwhile; then it quits the driver of the last attempt that started a
    browser, and no other ([safe_quit] runs on that driver: the line that
    follows [DriverQuit] in the log is what the quit of that very driver
    answers), or quits nothing when no attempt started one; it logs the
    failure and raises [WebDriverException]. *)
Theorem init_driver_gives_up_after_three (b : site) (w : world) :
  (∀ i, (i < 3)%nat → launch_failed (launch_at b (tick w + i)%nat) = true) →
  ∃ w3 evs,
    heap w3 = heap w ∧ tick w3 = (tick w + 3)%nat
    ∧ trace w3 = trace w ++ evs
    ∧ sleeps evs = [2; 2; 2] ∧ launches evs = 3%nat ∧ quits evs = 0%nat
    ∧ init_driver true b w
      = (Raise WebDriverException,
         match last_started b (tick w) 3 None with
         | Some s =>
             World (heap (safe_quit s w3).2)
               (trace (safe_quit s w3).2 ++ [Log ERROR "Failed to initialize WebDriver."])
               (tick (safe_quit s w3).2)
         | None =>
             World (heap w3) (trace w3 ++ [Log ERROR "Failed to initialize WebDriver."])
               (tick w3)
         end)
    ∧ ∀ s, last_started b (tick w) 3 None = Some s →
        (safe_quit s w3).2 = called w3 [DriverQuit; quit_log s w3]
        ∧ ∃ i e, (i < 3)%nat ∧ launch_at b (tick w + i)%nat = LoadFailed s e
                 ∧ ∀ k, (i < k < 3)%nat →
                     ∃ e', launch_at b (tick w + k)%nat = StartFailed e'.
Proof.
  intros Hfail. unfold init_driver. cbn [negb].
  destruct (init_driver_loop_skip b 3 3 None w Hfail) as (evs & Hsl & Hl & Hq & Hrun); [lia|].
  exists (World (heap w) (trace w ++ evs) (tick w + 3)), evs.
  split_and!; [reflexivity..|done|done|done| |].
  - rewrite Hrun. cbn [Nat.sub init_driver_loop heap trace tick].
    destruct (last_started b (tick w) 3 None) as [s|].
    + unfold bind at 1. rewrite safe_quit_eq.
      unfold bind, logging, emit, raise, called. cbn [heap trace tick]. done.
    + unfold bind, ret, logging, emit, raise. cbn [heap trace tick]. done.
  - intros s Hs. split; [by rewrite safe_quit_eq|].
    pose proof (Hfail 0%nat ltac:(lia)) as H0.
    pose proof (Hfail 1%nat ltac:(lia)) as H1.
    pose proof (Hfail 2%nat ltac:(lia)) as H2.
    cbn [last_started] in Hs. rewrite Nat.add_0_r in H0.
    replace (tick w + 1)%nat with (S (tick w)) in * by lia.
    replace (tick w + 2)%nat with (S (S (tick w))) in * by lia.
    destruct (launch_at b (S (S (tick w)))) as [s2|s2 e2|e2] eqn:Ha2; [done|..].
    { inversion Hs; subst. exists 2%nat, e2.
      replace (tick w + 2)%nat with (S (S (tick w))) by lia.
      split_and!; [lia|done|]. intros k Hk. lia. }
    destruct (launch_at b (S (tick w))) as [s1|s1 e1|e1] eqn:Ha1; [done|..].
    { inversion Hs; subst. exists 1%nat, e1.
      replace (tick w + 1)%nat with (S (tick w)) by lia.
      split_and!; [lia|done|]. intros k Hk. assert (k = 2%nat) as -> by lia.
      replace (tick w + 2)%nat with (S (S (tick w))) by lia. eauto. }
    destruct (launch_at b (tick w)) as [s0|s0 e0|e0] eqn:Ha0; [done|..].
    { inversion Hs; subst. exists 0%nat, e0. rewrite Nat.add_0_r.
      split_and!; [lia|done|]. intros k Hk.
      assert (k = 1%nat ∨ k = 2%nat) as [-> | ->] by lia.
      - replace (tick w + 1)%nat with (S (tick w)) by lia. eauto.
      - replace (tick w + 2)%nat with (S (S (tick w))) by lia. eauto. }
    done.
Qed.

Lemma init_driver_gives_up_after_three_witness :
  ∃ w3 evs,
    heap w3 = heap empty_world ∧ tick w3 = (tick empty_world + 3)%nat
    ∧ trace w3 = trace empty_world ++ evs
    ∧ sleeps evs = [2; 2; 2] ∧ launches evs = 3%nat ∧ quits evs = 0%nat
    ∧ init_driver true (two_browsers_site stuck_session (constant_session "")) empty_world
      = (Raise WebDriverException,
         match last_started (two_browsers_site stuck_session (constant_session ""))
                 (tick empty_world) 3 None with
         | Some s =>
             World (heap (safe_quit s w3).2)
               (trace (safe_quit s w3).2 ++ [Log ERROR "Failed to initialize WebDriver."])
               (tick (safe_quit s w3).2)
         | None =>
             World (heap w3) (trace w3 ++ [Log ERROR "Failed to initialize WebDriver."])
               (tick w3)
         end)
    ∧ ∀ s, last_started (two_browsers_site stuck_session (constant_session ""))
             (tick empty_world) 3 None = Some s →
        (safe_quit s w3).2 = called w3 [DriverQuit; quit_log s w3]
        ∧ ∃ i e, (i < 3)%nat
                 ∧ launch_at (two_browsers_site stuck_session (constant_session ""))
                     (tick empty_world + i)%nat = LoadFailed s e
                 ∧ ∀ k, (i < k < 3)%nat →
                     ∃ e', launch_at (two_browsers_site stuck_session (constant_session ""))
                             (tick empty_world + k)%nat = StartFailed e'.
Proof.
  apply (init_driver_gives_up_after_three
           (two_browsers_site stuck_session (constant_session "")) empty_world).
  intros i Hi. destruct i as [|[|[|i]]]; [reflexivity..|lia].
Defined.

(** On that machine the driver that is quit is the second one, whose quit
    goes through, and not the first, whose quit fails. *)
Example init_driver_quits_the_last_driver :
  init_driver true (two_browsers_site stuck_session (constant_session "")) empty_world
  = (Raise WebDriverException,
     World ∅
       [Launch; Log WARNING "Attempt failed."; Sleep 2;
        Launch; Log WARNING "Attempt failed."; Sleep 2;
        Launch; Log WARNING "Attempt failed."; Sleep 2;
        DriverQuit; Log INFO "Driver quit successfully.";
        Log ERROR "Failed to initialize WebDriver."] 4).
Proof. vm_compute. reflexivity. Qed.

(** ** The files of a year *)

Lemma saved_app tr1 tr2 : saved (tr1 ++ tr2) = saved tr1 ++ saved tr2.
Proof.
  induction tr1 as [|e tr1 IH]; [done|].
  destruct e; simpl; by rewrite ?IH.
Qed.

Lemma saved_ordinary evs : Forall ordinary evs → saved evs = [].
Proof. induction 1 as [|e evs He _ IH]; [done|]. by destruct e. Qed.

Lemma saved_files_app l1 l2 : saved_files (l1 ++ l2) = saved_files l1 ++ saved_files l2.
Proof. induction l1 as [|r l1 IH]; [done|]. simpl. by rewrite IH. Qed.

Lemma same_files_refl w : same_files w w.
Proof. done. Qed.

Lemma same_files_trans w1 w2 w3 :
  same_files w1 w2 → same_files w2 w3 → same_files w1 w3.
Proof. unfold same_files. congruence. Qed.

Lemma quiet_same_files w w' : quiet ordinary w w' → same_files w w'.
Proof.
  intros (_ & _ & evs & Htr & Hevs). unfold same_files.
  by rewrite Htr, saved_app, (saved_ordinary _ Hevs), app_nil_r.
Qed.

Lemma files_quiet {A} (m : M A) : has_post (quiet ordinary) m → has_post same_files m.
Proof. intros Hm w. apply quiet_same_files, Hm. Qed.

Lemma files_bind {A B} (m : M A) (k : A → M B) :
  has_post same_files m → (∀ a, has_post same_files (k a)) →
  has_post same_files (bind m k).
Proof. apply has_post_bind, same_files_trans. Qed.

Lemma files_get_list r : has_post same_files (get_list r).
Proof. intros w. unfold get_list. by destruct (heap w !! r). Qed.

Lemma files_put_list r l : has_post same_files (put_list r l).
Proof. by intros w. Qed.

Lemma files_new_list l : has_post same_files (new_list l).
Proof. by intros w. Qed.

Ltac files_step :=
  lazymatch goal with
  | |- has_post _ (bind _ _) => apply files_bind; [|intros ?]
  | |- has_post _ (get_list _) => apply files_get_list
  | |- has_post _ (put_list _ _) => apply files_put_list
  | |- has_post _ (new_list _) => apply files_new_list
  | |- has_post _ (if ?c then _ else _) => destruct c
  | |- has_post _ (let '(_, _) := ?x in _) => destruct x
  | |- has_post _ _ => apply files_quiet; quiet
  end.

Lemma split_replace_loop_files updated_dates old_date new_date additional_slice :
  ∀ rest i,
    has_post same_files
      (split_replace_loop updated_dates old_date new_date additional_slice i rest).
Proof.
  induction rest as [|[start end_] rest IH]; intros i; simpl.
  - files_step.
  - case_bool_decide; [repeat files_step|apply IH].
Qed.

Lemma split_replace_add_time_slice_files dates old_date new_date additional_slice :
  has_post same_files
    (split_replace_add_time_slice dates old_date new_date additional_slice).
Proof.
  unfold split_replace_add_time_slice.
  files_step; [files_step|]. files_step; [files_step|]. files_step; [files_step|].
  files_step; [apply split_replace_loop_files|]. repeat files_step.
Qed.

Lemma check_reset_needed_files to_numeric s start end_ dates :
  has_post same_files (check_reset_needed to_numeric s start end_ dates).
Proof.
  unfold check_reset_needed.
  files_step.
  { apply files_quiet. intros w. eapply quiet_weaken; [apply reading_ordinary|].
    apply read_total_entries_reading. }
  files_step.
  - files_step; [files_step|].
    files_step; [apply split_replace_add_time_slice_files|].
    repeat files_step.
  - files_step.
    + files_step; [files_step|]. files_step; [|files_step].
      apply files_quiet, safe_quit_quiet.
    + files_step.
Qed.

Lemma main_try_files to_numeric transform_table s start end_ dates :
  has_post same_files (main_try to_numeric transform_table s start end_ dates).
Proof.
  unfold main_try.
  files_step; [files_step|]. files_step; [files_step|].
  files_step; [apply check_reset_needed_files|].
  destruct a1 as [[[reset_needed modified] dates'] n].
  destruct reset_needed; [repeat files_step|].
  files_step.
  { intros w. unfold same_files. simpl. by rewrite saved_app, app_nil_r. }
  files_step; [apply files_quiet, scrape_data_quiet|].
  destruct a2 as [all_data appraisal_data].
  files_step; [unfold py_assert; files_step; files_step|].
  files_step; [unfold py_assert; files_step; files_step|].
  repeat files_step.
Qed.

(** [main] writes no file. *)
Lemma main_files to_numeric base_url_valid transform_table b allowed start end_ dates :
  has_post same_files
    (main to_numeric base_url_valid transform_table b allowed start end_ dates).
Proof.
  unfold main.
  files_step; [apply files_quiet, init_driver_quiet|].
  files_step; [destruct allowed; cbn [negb]; repeat files_step|].
  apply has_post_try_finally;
    [apply same_files_trans|apply main_try_files|apply files_quiet, safe_quit_quiet].
Qed.

(** What [final_csv_conversion] adds when it returns on appraisal data that
    is not empty. *)
Lemma final_csv_conversion_files consolidate b all_data_df appraisal_data_df dates
    start_date end_date w (l : list DateRange) u w' :
  df_empty appraisal_data_df = false →
  heap w !! dates = Some l →
  final_csv_conversion consolidate b all_data_df appraisal_data_df dates
    start_date end_date w = (Ok u, w') →
  saved (trace w') = saved (trace w) ++ ["Homes.csv"; "All Homes.csv"]%string
  ∧ scraped (trace w') = scraped (trace w).
Proof.
  intros Hne Hl. rewrite (final_csv_conversion_eq _ _ _ _ _ _ _ _ _ Hne Hl).
  destruct (consolidate all_data_df appraisal_data_df); [|done]. cbv zeta.
  destruct (py_remove (start_date, end_date) l); [|done].
  destruct (save_at b (tick w)); [|done].
  destruct (save_at b (S (tick w))); [|done].
  intros [= _ <-]. simpl. by rewrite saved_app, scraped_app, app_nil_r.
Qed.

Section Files.

Context (to_numeric : string → result numeric).
Context (base_url_valid : bool).
Context (transform_table : DataFrame → result DataFrame).
Context (consolidate : DataFrame → DataFrame → result DataFrame).

Hypothesis transform_table_rows :
  ∀ t t', transform_table t = Ok t' → t' ≠ [].

Lemma step_all_saved first last b c :
  queue_inv first last c → all_saved (cw c) →
  match step to_numeric base_url_valid transform_table consolidate b c with
  | Running c' => all_saved (cw c')
  | Finished w => all_saved w
  | Crashed _ _ => True
  end.
Proof.
  intros (queue & Hl & Hpending & _) Hsaved.
  destruct c as [w dates pend]. simpl in *. unfold step. simpl.
  destruct Hpending as [->| ->].
  - unfold get_list. rewrite Hl. destruct queue as [|r queue]; [done|].
    simpl. unfold all_saved in *. simpl.
    by rewrite saved_app, scraped_app, !app_nil_r.
  - destruct queue as [|[start_date end_date] rest]; [done|].
    pose proof (main_files to_numeric base_url_valid transform_table b false
                  start_date end_date dates w) as Hfiles.
    destruct (main to_numeric base_url_valid transform_table b false
                start_date end_date dates w)
      as [[[[[all_data appraisal_data] dates'] modified]|e] w1] eqn:Hmain; [|done].
    apply (main_cases to_numeric base_url_valid transform_table transform_table_rows
             _ _ _ _ _ rest) in Hmain as Hpass; [|done].
    simpl in Hpass, Hfiles. unfold same_files in Hfiles.
    destruct Hpass as [(-> & Hl1 & Hs1)|(-> & -> & Hh1 & Hs1 & Hne)].
    + simpl. unfold all_saved in *. by rewrite Hfiles, Hs1.
    + unfold pd_concat. simpl. rewrite !app_nil_r.
      assert (heap w1 !! dates = Some ((start_date, end_date) :: rest)) as Hl1
        by by rewrite Hh1.
      destruct (final_csv_conversion consolidate b all_data appraisal_data dates
                  start_date end_date w1) as [[u|e] w2] eqn:Hfinal; [|done].
      apply (final_csv_conversion_files _ _ _ _ _ _ _ _ _ _ _ Hne Hl1) in Hfinal
        as [Hf2 Hs2].
      simpl. unfold all_saved in *.
      by rewrite Hf2, Hs2, Hfiles, Hs1, Hsaved, saved_files_app.
Qed.

Lemma steps_all_saved first last b n : ∀ c,
  queue_inv first last c → all_saved (cw c) →
  match steps to_numeric base_url_valid transform_table consolidate b n c with
  | Running c' => all_saved (cw c')
  | Finished w => all_saved w
  | Crashed _ _ => True
  end.
Proof.
  induction n as [|n IH]; intros c Hinv Hsaved; [done|]. simpl.
  pose proof (step_inv to_numeric base_url_valid transform_table consolidate
                transform_table_rows first last b c Hinv) as Hstep.
  pose proof (step_all_saved first last b c Hinv Hsaved) as Hfiles.
  destruct (step to_numeric base_url_valid transform_table consolidate b c); [|done..].
  by apply IH.
Qed.

End Files.

(** X24.  Through the loop of a year the files keep step with the
    scraping.  Take a detail transformation that never yields a table
    without rows.  After any number of steps, as long as the loop has not
    ended in an exception, the files written so far are exactly the yearly
    file and [All Homes.csv], in this order, once for each range that was
    scraped: every scraped range was saved to both files before the loop
    went on, and no pass that split its range wrote anything. *)
Theorem scraped_ranges_are_saved
    (to_numeric : string → result numeric) (base_url_valid : bool)
    (transform_table : DataFrame → result DataFrame)
    (consolidate : DataFrame → DataFrame → result DataFrame)
    (b : site) (h : gmap loc (list DateRange)) (t : nat)
    (first last : date) (n : nat) :
  (∀ t t', transform_table t = Ok t' → t' ≠ []) →
  first ≤ last →
  match steps to_numeric base_url_valid transform_table consolidate b n
          (year_start (World h [] t) first last) with
  | Running c => saved (trace (cw c)) = saved_files (scraped (trace (cw c)))
  | Finished w => saved (trace w) = saved_files (scraped (trace w))
  | Crashed _ _ => True
  end.
Proof.
  intros Hrows Hle.
  apply (steps_all_saved to_numeric base_url_valid transform_table consolidate Hrows
           first last b n).
  - by apply year_start_inv.
  - done.
Qed.

Lemma scraped_ranges_are_saved_witness :
  match steps int_literal true one_record (λ all_data _, Ok all_data)
          sample_year_site 7 (year_start (World ∅ [] 0) 0 365) with
  | Running c => saved (trace (cw c)) = saved_files (scraped (trace (cw c)))
  | Finished w => saved (trace w) = saved_files (scraped (trace w))
  | Crashed _ _ => True
  end.
Proof.
  apply (scraped_ranges_are_saved int_literal true one_record
           (λ all_data _, Ok all_data) sample_year_site ∅ 0 0 365 7).
  - apply one_record_rows.
  - lia.
Defined.

(** ** [save_to_csv] on the disk *)

Lemma save_to_csv_new (d : gmap string (list (list string))) df file_path :
  d !! file_path = None →
  Csv.save_to_csv d df file_path false
  = <[file_path := df_columns df :: Csv.lines df]> d.
Proof.
  intros Hnone. unfold Csv.save_to_csv, Csv.exists_.
  rewrite bool_decide_eq_false_2; [done|]. rewrite Hnone. by intros [? ?].
Qed.

Lemma save_to_csv_append (d : gmap string (list (list string))) df file_path old :
  d !! file_path = Some old →
  Csv.save_to_csv d df file_path false = <[file_path := old ++ Csv.lines df]> d.
Proof.
  intros Hold. unfold Csv.save_to_csv, Csv.exists_.
  rewrite bool_decide_eq_true_2 by eauto. unfold Csv.to_csv. by rewrite Hold.
Qed.

Lemma save_to_csv_appends dfs : ∀ (d : gmap string (list (list string))) (file_path : string) (old : list (list string)),
  d !! file_path = Some old →
  foldl (λ d df, Csv.save_to_csv d df file_path false) d dfs !! file_path
  = Some (old ++ concat (Csv.lines <$> dfs))
  ∧ ∀ other, other ≠ file_path →
      foldl (λ d df, Csv.save_to_csv d df file_path false) d dfs !! other = d !! other.
Proof.
  induction dfs as [|df dfs IH]; intros d file_path old Hold; simpl.
  - by rewrite app_nil_r.
  - rewrite (save_to_csv_append _ _ _ _ Hold).
    destruct (IH (<[file_path := old ++ Csv.lines df]> d) file_path (old ++ Csv.lines df))
      as [Hfile Hother]; [by rewrite lookup_insert_eq|].
    split; [by rewrite Hfile, <- app_assoc|].
    intros other Hne. by rewrite Hother, lookup_insert_ne.
Qed.

(** X25.  Without [overwrite], [save_to_csv] never rewrites what a file
    holds.  When tables are saved one after the other to a path that did
    not exist, the first of them with rows, the file holds the column names
    of the first table once, as its first line, and after it the rows of all
    the tables in the order they were saved; no other file is touched.  (The
    column names of the later tables are not written, also when they
    differ.) *)
Theorem repeated_saves_keep_one_header
    (d : gmap string (list (list string))) (file_path : string)
    (df : DataFrame) (dfs : list DataFrame) :
  d !! file_path = None →
  df ≠ [] →
  foldl (λ d df, Csv.save_to_csv d df file_path false) d (df :: dfs) !! file_path
  = Some (df_columns df :: concat (Csv.lines <$> df :: dfs))
  ∧ ∀ other, other ≠ file_path →
      foldl (λ d df, Csv.save_to_csv d df file_path false) d (df :: dfs) !! other
      = d !! other.
Proof.
  intros Hnone _. cbn [foldl]. rewrite (save_to_csv_new _ _ _ Hnone).
  destruct (save_to_csv_appends dfs (<[file_path := df_columns df :: Csv.lines df]> d)
              file_path (df_columns df :: Csv.lines df))
    as [Hfile Hother]; [by rewrite lookup_insert_eq|].
  split; [by rewrite Hfile|].
  intros other Hne. by rewrite Hother, lookup_insert_ne.
Qed.

Lemma repeated_saves_keep_one_header_witness :
  foldl (λ d df, Csv.save_to_csv d df "All Homes.csv" false)
    (∅ : gmap string (list (list string)))
    (sample_listing_named :: [sample_listing_named]) !! "All Homes.csv"%string
  = Some (df_columns sample_listing_named
          :: concat (Csv.lines <$> sample_listing_named :: [sample_listing_named]))
  ∧ ∀ other, other ≠ "All Homes.csv"%string →
      foldl (λ d df, Csv.save_to_csv d df "All Homes.csv" false)
        (∅ : gmap string (list (list string)))
        (sample_listing_named :: [sample_listing_named]) !! other
      = (∅ : gmap string (list (list string))) !! other.
Proof.
  apply (repeated_saves_keep_one_header ∅ "All Homes.csv" sample_listing_named
           [sample_listing_named]).
  - reflexivity.
  - discriminate.
Defined.

(** ** The columns of a detail table *)

Lemma set_cell_elem name value r c :
  c ∈ set_cell name value r ↔ c = (name, value) ∨ (c.1 ≠ name ∧ c ∈ r).
Proof.
  unfold set_cell. case_bool_decide as Hin.
  - rewrite list_elem_of_fmap. split.
    + intros (c0 & -> & Hc0). case_bool_decide; [by left|by right].
    + intros [->|[Hne Hc]].
      * apply list_elem_of_fmap in Hin as (c0 & -> & Hc0).
        exists c0. by rewrite bool_decide_eq_true_2.
      * exists c. by rewrite bool_decide_eq_false_2.
  - rewrite elem_of_app, list_elem_of_singleton. split.
    + intros [Hc| ->]; [|by left]. right. split; [|done].
      intros <-. apply Hin, list_elem_of_fmap. by exists c.
    + intros [->|[_ Hc]]; [by right|by left].
Qed.

Lemma rename_cell_elem old new (r : row) c :
  c ∈ (λ c : string * string, if bool_decide (c.1 = old) then (new, c.2) else c) <$> r →
  c.1 = new ∨ (c.1 ≠ old ∧ c ∈ r).
Proof.
  intros (c0 & -> & Hc0)%list_elem_of_fmap.
  case_bool_decide; [by left|by right].
Qed.

Lemma names_elem (r : row) n : n ∈ r.*1 ↔ ∃ v, (n, v) ∈ r.
Proof.
  rewrite list_elem_of_fmap. split.
  - intros ([n' v] & -> & Hc). by exists v.
  - intros (v & Hc). by exists (n, v).
Qed.

(** X26.  Every row of a detail table that [extract_property_details]
    returns carries the parcel id of its page: the column [parcel_id] holds,
    in every row, the second line of the parcel text read from the page,
    stripped, which is not empty.  The columns [school_district] and
    [owner_address] hold the two texts read from the page after the table.
    The columns that are dropped and the columns that are renamed are not
    among its columns under their old names. *)
Theorem detail_table_columns
    (transform_table : DataFrame → result DataFrame)
    (s : session) (w : world) (t : DataFrame) (w' : world) :
  extract_property_details transform_table s w = (Ok (Some t), w') →
  ∃ parcel_text w1 district w2 owner_text,
    get_text_default s parcel_id w = (Ok parcel_text, w1)
    ∧ get_text_default s school_district (called w1 [ScrapeTable appraisal_information])
      = (Ok district, w2)
    ∧ get_text_default s owner w2 = (Ok owner_text, w')
    ∧ let parcel :=
        PyStr.strip (default ""%string (PyStr.split_on "010" parcel_text !! 1%nat)) in
      parcel ≠ ""%string
      ∧ ∀ r, r ∈ t →
          (∀ v, ("parcel_id"%string, v) ∈ r ↔ v = parcel)
          ∧ (∀ v, ("school_district"%string, v) ∈ r ↔ v = district)
          ∧ (∀ v, ("owner_address"%string, v) ∈ r ↔ v = owner_text)
          ∧ ∀ n, n ∈ ["Year Built"; "Deed Number"; "# of Parcels Sold";
                      "# Bedrooms"; "# Full Bathrooms"; "# Half Bathrooms"]%string →
                 n ∉ r.*1.
Proof.
  unfold extract_property_details, try_except.
  match goal with |- context [match ?m w with _ => _ end] =>
    destruct (m w) as [[r|e] w0] eqn:Hrun end.
  2: { unfold bind, logging, emit, ret. simpl. intros H. inversion H. }
  intros H. inversion H; subst r w0. clear H.
  apply bind_Ok_inv in Hrun as (parcel_text & w1 & Hparcel_text & Hrun).
  destruct (bool_decide (length (PyStr.split_on "010" parcel_text) < 2)%nat) in Hrun;
    cbn [orb] in Hrun.
  { apply bind_Ok_inv in Hrun as (? & ? & _ & Hrun). inversion Hrun. }
  case_bool_decide as Hparcel.
  { apply bind_Ok_inv in Hrun as (? & ? & _ & Hrun). inversion Hrun. }
  apply bind_Ok_inv in Hrun as (table & w2 & Htable & Hrun).
  assert (w2 = called w1 [ScrapeTable appraisal_information]) as ->.
  { unfold ask in Htable. by inversion Htable. }
  destruct table as [table|].
  2: { apply bind_Ok_inv in Hrun as (? & ? & _ & Hrun). inversion Hrun. }
  destruct (df_empty table).
  { apply bind_Ok_inv in Hrun as (? & ? & _ & Hrun). inversion Hrun. }
  apply bind_Ok_inv in Hrun as (table' & w3 & [_ ->]%lift_Ok_inv & Hrun).
  apply bind_Ok_inv in Hrun as (district & w4 & Hdistrict & Hrun).
  apply bind_Ok_inv in Hrun as (owner_text & w5 & Howner & Hrun).
  inversion Hrun; subst. clear Hrun.
  exists parcel_text, w1, district, w4, owner_text.
  split; [exact Hparcel_text|]. split; [exact Hdistrict|]. split; [exact Howner|].
  cbv zeta. split; [exact Hparcel|].
  intros r Hr. unfold assign_column in Hr.
  apply list_elem_of_fmap in Hr as (r3 & -> & Hr).
  apply list_elem_of_fmap in Hr as (r2 & -> & Hr).
  apply list_elem_of_fmap in Hr as (r1 & -> & Hr).
  split_and!.
  - intros v. split.
    + intros Hv.
      apply set_cell_elem in Hv as [[=]|[_ Hv]].
      apply set_cell_elem in Hv as [[=]|[_ Hv]].
      apply set_cell_elem in Hv as [[=]|[Hne _]]; done.
    + intros ->. apply set_cell_elem. right. split; [done|].
      apply set_cell_elem. right. split; [done|].
      apply set_cell_elem. by left.
  - intros v. split.
    + intros Hv.
      apply set_cell_elem in Hv as [[=]|[_ Hv]].
      apply set_cell_elem in Hv as [[=]|[Hne _]]; done.
    + intros ->. apply set_cell_elem. right. split; [done|].
      apply set_cell_elem. by left.
  - intros v. split.
    + intros Hv. apply set_cell_elem in Hv as [[=]|[Hne _]]; done.
    + intros ->. apply set_cell_elem. by left.
  - intros n Hn [v Hv]%names_elem.
    apply set_cell_elem in Hv as [[= -> _]|[_ Hv]].
    { rewrite !elem_of_cons, elem_of_nil in Hn. by intuition. }
    apply set_cell_elem in Hv as [[= -> _]|[_ Hv]].
    { rewrite !elem_of_cons, elem_of_nil in Hn. by intuition. }
    apply set_cell_elem in Hv as [[= -> _]|[_ Hv]].
    { rewrite !elem_of_cons, elem_of_nil in Hn. by intuition. }
    unfold rename_column, drop_columns in Hr.
    apply list_elem_of_fmap in Hr as (r0 & -> & Hr).
    apply list_elem_of_fmap in Hr as (r0' & -> & Hr).
    apply list_elem_of_fmap in Hr as (r0'' & -> & Hr).
    apply list_elem_of_fmap in Hr as (r00 & -> & Hr).
    apply rename_cell_elem in Hv as [Hv|[Hne3 Hv]]; simpl in *.
    { subst n. rewrite !elem_of_cons, elem_of_nil in Hn. by intuition. }
    apply rename_cell_elem in Hv as [Hv|[Hne2 Hv]]; simpl in *.
    { subst n. rewrite !elem_of_cons, elem_of_nil in Hn. by intuition. }
    apply rename_cell_elem in Hv as [Hv|[Hne1 Hv]]; simpl in *.
    { subst n. rewrite !elem_of_cons, elem_of_nil in Hn. by intuition. }
    apply list_elem_of_filter in Hv as [Hdrop _]. simpl in Hdrop.
    rewrite !elem_of_cons, elem_of_nil in Hn.
    rewrite !elem_of_cons, elem_of_nil in Hdrop. by intuition.
Qed.

Lemma detail_table_columns_witness :
  ∃ parcel_text w1 district w2 owner_text,
    get_text_default sample_detail_session parcel_id empty_world = (Ok parcel_text, w1)
    ∧ get_text_default sample_detail_session school_district
        (called w1 [ScrapeTable appraisal_information])
      = (Ok district, w2)
    ∧ get_text_default sample_detail_session owner w2
      = (Ok owner_text,
         (extract_property_details one_record sample_detail_session empty_world).2)
    ∧ let parcel :=
        PyStr.strip (default ""%string (PyStr.split_on "010" parcel_text !! 1%nat)) in
      parcel ≠ ""%string
      ∧ ∀ r, r ∈ sample_detail_record →
          (∀ v, ("parcel_id"%string, v) ∈ r ↔ v = parcel)
          ∧ (∀ v, ("school_district"%string, v) ∈ r ↔ v = district)
          ∧ (∀ v, ("owner_address"%string, v) ∈ r ↔ v = owner_text)
          ∧ ∀ n, n ∈ ["Year Built"; "Deed Number"; "# of Parcels Sold";
                      "# Bedrooms"; "# Full Bathrooms"; "# Half Bathrooms"]%string →
                 n ∉ r.*1.
Proof.
  apply (detail_table_columns one_record sample_detail_session
           empty_world sample_detail_record
           (extract_property_details one_record sample_detail_session empty_world).2).
  vm_compute. reflexivity.
Defined.

(** ** [tag_address] *)

(** X27.  [tag_address] cuts the document into its components without
    changing a word: the street number, the apartment number and the street,
    joined by spaces in this order, are the words of the document from the
    first one on when the document begins with a number that is not spelled
    out, and from the second one on otherwise: a first word that is no such
    number is in no component.  The street number is the first word in the
    first case and [None] in the second. *)
Theorem tag_address_components (nlp : string → list AddressCleaners.token)
    (address : string) :
  let doc := nlp address in
  let tagged := AddressCleaners.tag_address nlp address in
  String.concat " " (components tagged)
  = String.concat " "
      (AddressCleaners.text <$> (if leading_number doc then doc else tail doc))
  ∧ AddressCleaners.st_num tagged
    = (if leading_number doc then AddressCleaners.text <$> head doc else None).
Proof.
  cbv zeta. unfold AddressCleaners.tag_address, components.
  destruct (nlp address) as [|t0 [|t1 [|t2 doc]]]; [done|..];
    cbn [AddressCleaners.tag_loop leading_number Nat.eqb Nat.ltb Nat.leb andb head tail];
    destruct (AddressCleaners.is_NUM t0 && AddressCleaners.not_spelled_out t0);
    cbn [andb]; try done;
    destruct (AddressCleaners.is_alphanumeric t1 && AddressCleaners.not_spelled_out t1);
    cbn [andb]; try done;
    destruct (AddressCleaners.is_NUM t1 && AddressCleaners.not_spelled_out t1);
    cbn [andb]; done.
Qed.
